(** * Loan Risk Assistant: a shallow embedding of the orchestration logic

    The development follows [loan_risk_assistant/models.py],
    [loan_risk_assistant/agent.py] and
    [loan_risk_assistant/agnostic_adapter.py].

    Conventions of the embedding:
    - a Python [str] is a [string] that holds its UTF-8 encoding, so
      equality, prefixes and the order of [sorted] on bytes are those of
      Python on code points; [str.split] cuts at every white-space
      character of Unicode, a loop over a [str] visits its characters,
      and [str.upper] and [str.lower] are computed on ASCII text and
      left to the Unicode tables, which stay abstract, on any other;
    - a Python [float] is a [pyfloat]: a rational for a finite value, or
      one of the three special values;
    - a value of type [Any] is a [pyval]; a [Dict[str, Any]] is an
      association list in insertion order, read by [dict_get];
    - a collaborator is a function on a hidden world state that either
      returns or raises; it does not change the objects it is handed;
      every call is recorded in a trace. *)

From Stdlib Require Import QArith Lqa Ascii.
From stdpp Require Import base strings list gmap sorting.

Local Open Scope Z_scope.

Set Warnings "-register-all".

(** ** Python values *)

Inductive pyfloat :=
  | FFin (q : Q)
  | FPosInf
  | FNegInf
  | FNaN.

Inductive pyval :=
  | VNone
  | VBool (b : bool)
  | VInt (z : Z)
  | VFloat (f : pyfloat)
  | VStr (s : string)
  | VList (l : list pyval)
  | VDict (d : list (string * pyval)).

Abbreviation pydict := (list (string * pyval)).

(** [d.get(key)] on an insertion-ordered dictionary: [None] when the key
    is absent. *)
Fixpoint dict_get {A} (d : list (string * A)) (key : string) : option A :=
  match d with
  | [] => None
  | (k, v) :: d' => if String.eqb k key then Some v else dict_get d' key
  end.

(** [d.get(key, default)] *)
Definition dict_get_default {A} (d : list (string * A)) (key : string) (dflt : A) : A :=
  match dict_get d key with
  | Some v => v
  | None => dflt
  end.

(** [key in d] *)
Definition dict_mem {A} (d : list (string * A)) (key : string) : bool :=
  match dict_get d key with
  | Some _ => true
  | None => false
  end.

(** [x < n] for a float [x] and an integer literal [n]: Python compares
    the two exactly, and every comparison with a NaN is false. *)
Definition float_lt_int (x : pyfloat) (n : Z) : bool :=
  match x with
  | FFin q => negb (Qle_bool (inject_Z n) q)
  | FNegInf => true
  | FPosInf => false
  | FNaN => false
  end.

Definition float_truthy (x : pyfloat) : bool :=
  match x with
  | FFin q => negb (Qeq_bool q 0)
  | _ => true
  end.

(** Truth value of an object, as tested by [if v:] and [not v]. *)
Definition py_truthy (v : pyval) : bool :=
  match v with
  | VNone => false
  | VBool b => b
  | VInt z => negb (z =? 0)
  | VFloat f => float_truthy f
  | VStr s => negb (String.eqb s "")
  | VList l => match l with [] => false | _ => true end
  | VDict d => match d with [] => false | _ => true end
  end.

(** [v == s] for a string literal [s]. *)
Definition py_eq_str (v : pyval) (s : string) : bool :=
  match v with
  | VStr s' => String.eqb s' s
  | _ => false
  end.

(** ** Strings *)

(** [str.isspace] on the ASCII range. *)
Definition ascii_isspace (a : ascii) : bool :=
  let n := N_of_ascii a in
  ((9 <=? n) && (n <=? 13) || (28 <=? n) && (n <=? 32))%N.

(** The white space of two bytes: U+0085 and U+00A0. *)
Definition isspace2 (a b : ascii) : bool :=
  let y := N_of_ascii b in
  (N_of_ascii a =? 194)%N && ((y =? 133) || (y =? 160))%N.

(** The white space of three bytes: U+1680, U+2000 to U+200A, U+2028,
    U+2029, U+202F, U+205F and U+3000. *)
Definition isspace3 (a b c : ascii) : bool :=
  let x := N_of_ascii a in
  let y := N_of_ascii b in
  let z := N_of_ascii c in
  ((x =? 225) && (y =? 154) && (z =? 128)
   || (x =? 226) && (y =? 128)
      && ((128 <=? z) && (z <=? 138) || (z =? 168) || (z =? 169) || (z =? 175))
   || (x =? 226) && (y =? 129) && (z =? 159)
   || (x =? 227) && (y =? 128) && (z =? 128))%N.

(** The number of bytes of the white-space character that [s] starts
    with, 0 when it starts with none: the characters of [str.isspace],
    in UTF-8. *)
Definition space_width (s : string) : nat :=
  match s with
  | String a s1 =>
      if ascii_isspace a then 1
      else
        match s1 with
        | String b s2 =>
            if isspace2 a b then 2
            else
              match s2 with
              | String c _ => if isspace3 a b c then 3 else 0
              | EmptyString => 0
              end
        | EmptyString => 0
        end
  | EmptyString => 0
  end%nat.

Definition flush_word (cur : list ascii) : list string :=
  match cur with
  | [] => []
  | _ => [String.string_of_list_ascii (rev cur)]
  end.

(** [cur] holds the bytes of the word being read, last one first;
    [skip] counts the bytes that are left of a white-space character. *)
Fixpoint split_go (cur : list ascii) (skip : nat) (s : string) : list string :=
  match s with
  | EmptyString => flush_word cur
  | String a s' =>
      match skip with
      | S k => split_go cur k s'
      | O =>
          match space_width s with
          | O => split_go (a :: cur) 0 s'
          | S k => flush_word cur ++ split_go [] k s'
          end
      end
  end.

(** [s.split()] *)
Definition py_split (s : string) : list string := split_go [] 0 s.

(** [sep.join(l)] *)
Definition py_join (sep : string) (l : list string) : string := String.concat sep l.

(** [l[:k]], with Python's reading of a negative bound. *)
Definition slice_to {A} (l : list A) (k : Z) : list A :=
  if k <? 0 then take (Z.to_nat (Z.of_nat (length l) + k)) l
  else take (Z.to_nat k) l.

(** The number of bytes of the UTF-8 character whose first byte is [a]. *)
Definition utf8_width (a : ascii) : nat :=
  let n := N_of_ascii a in
  if (n <? 192)%N then 1%nat
  else if (n <? 224)%N then 2%nat
  else if (n <? 240)%N then 3%nat
  else 4%nat.

(** [cur] holds the bytes of the character being read, last one first;
    [more] counts the bytes it still lacks. *)
Fixpoint chars_go (cur : list ascii) (more : nat) (s : string) : list string :=
  match s with
  | EmptyString => flush_word cur
  | String a s' =>
      match more with
      | S k => chars_go (a :: cur) k s'
      | O => flush_word cur ++ chars_go [a] (utf8_width a - 1) s'
      end
  end.

(** [list(s)]: the characters of [s]. *)
Definition py_chars (s : string) : list string := chars_go [] 0 s.

(** All characters of [s] are in the ASCII range. *)
Fixpoint is_ascii (s : string) : bool :=
  match s with
  | EmptyString => true
  | String a s' => (N_of_ascii a <? 128)%N && is_ascii s'
  end.

Definition ascii_upper (a : ascii) : ascii :=
  let n := N_of_ascii a in
  if ((97 <=? n) && (n <=? 122))%N then ascii_of_N (n - 32) else a.

Definition ascii_lower (a : ascii) : ascii :=
  let n := N_of_ascii a in
  if ((65 <=? n) && (n <=? 90))%N then ascii_of_N (n + 32) else a.

Fixpoint string_map (f : ascii -> ascii) (s : string) : string :=
  match s with
  | EmptyString => EmptyString
  | String a s' => String (f a) (string_map f s')
  end.

(** [s.startswith(p)] *)
Definition py_startswith (s p : string) : bool := String.prefix p s.

(** ** models.py *)

Module PolicyChunk.
Record t := mk {
  chunk_id : string;
  title : string;
  section : string;
  text : string;
  metadata : pydict
}.

Definition quote (self : t) (word_limit : Z) : string :=
  let words := py_split (text self) in
  if Z.of_nat (length words) <=? word_limit then text self
  else py_join " " (slice_to words word_limit).
End PolicyChunk.

Module RiskFeature.
Record t := mk {
  code : string;
  description : string;
  value : pyval;
  direction : string;
  weight : pyfloat
}.
End RiskFeature.

Module ReasonCode.
Record t := mk {
  code : string;
  description : string
}.
End ReasonCode.

Module RiskScoreResult.
Record t := mk {
  score : pyfloat;
  features : list RiskFeature.t;
  reason_codes : list ReasonCode.t
}.
End RiskScoreResult.

Module LoanApplication.
Record t := mk {
  application_id : string;
  borrower : pydict;
  loan : pydict;
  region : string;
  product : string;
  context : option pydict
}.
End LoanApplication.

Module GovernanceLogRecord.
Record t := mk {
  event_type : string;
  log_id : string;
  payload_hash : option string
}.
End GovernanceLogRecord.

Module InterestBand.
Record t := mk {
  min_apr : pyval;
  max_apr : pyval;
  policy_reference : pyval;
  conditions : pyval
}.
End InterestBand.

(** ** Exceptions and the call monad *)

Inductive exn :=
  | KeyError (key : string)
  | TypeError
  | AttributeError
  | Fault (what : string).

Inductive res (A : Type) :=
  | Ok (a : A)
  | Raise (e : exn).
Arguments Ok {A} a.
Arguments Raise {A} e.




(** A computation over a state [S] that returns or raises; the state is
    kept on both paths. *)
Definition M (S A : Type) : Type := S -> res A * S.

Definition ret {S A} (a : A) : M S A := fun st => (Ok a, st).

Definition raise {S A} (e : exn) : M S A := fun st => (Raise e, st).

Definition bind {S A B} (c : M S A) (k : A -> M S B) : M S B :=
  fun st =>
    match c st with
    | (Ok a, st') => k a st'
    | (Raise e, st') => (Raise e, st')
    end.

Definition lift_res {S A} (r : res A) : M S A := fun st => (r, st).

Declare Scope call_scope.
Delimit Scope call_scope with call.
Notation "x <- c1 ;; c2" := (bind c1 (fun x => c2))
  (at level 100, c1 at next level, right associativity) : call_scope.
Local Open Scope call_scope.

(** The builtins of Python that the code calls on values of type [Any].
    They are not part of the repository and stay abstract. *)
Class Builtins := {
  (** [repr(v)] *)
  py_repr : pyval -> string;
  (** [str(v)] for a [v] that is not a [str] *)
  py_str_other : pyval -> string;
  (** [round(v, 2)] *)
  py_round2 : pyval -> res pyval;
  (** [int(v)] for a [v] that is not an [int] *)
  py_int_other : pyval -> res Z;
  (** [s.upper()] and [s.lower()] for an [s] with a character outside the
      ASCII range, where they follow the Unicode tables *)
  py_upper_other : string -> string;
  py_lower_other : string -> string
}.

(** [s.upper()] and [s.lower()] *)
Definition py_upper `{Builtins} (s : string) : string :=
  if is_ascii s then string_map ascii_upper s else py_upper_other s.

Definition py_lower `{Builtins} (s : string) : string :=
  if is_ascii s then string_map ascii_lower s else py_lower_other s.

(** [str(v)] *)
Definition py_str `{Builtins} (v : pyval) : string :=
  match v with
  | VStr s => s
  | _ => py_str_other v
  end.

(** [int(v)] *)
Definition py_int `{Builtins} (v : pyval) : res Z :=
  match v with
  | VInt z => Ok z
  | _ => py_int_other v
  end.

(** [for x in v]: the items a loop over [v] visits. *)
Definition py_iter (v : pyval) : res (list pyval) :=
  match v with
  | VList l => Ok l
  | VStr s => Ok (VStr <$> py_chars s)
  | VDict d => Ok (VStr <$> d.*1)
  | _ => Raise TypeError
  end.

(** ** tools.py and the assistant object *)

(** Every call to a collaborator, with its arguments and its outcome. *)
Inductive event :=
  | EvRetrieve (query : string) (top_k : Z) (r : res (list PolicyChunk.t))
  | EvScore (payload : pydict) (r : res RiskScoreResult.t)
  | EvGetPolicy (ids : list string) (r : res (list (string * PolicyChunk.t)))
  | EvCompose (data : pydict) (r : res pyval)
  | EvRequestDocs (documents : list string) (r : res pyval)
  | EvLog (event_type : string) (payload : pydict) (r : res GovernanceLogRecord.t)
  | EvResolveBand (policy_chunks : list PolicyChunk.t) (risk_tier : string)
      (r : res (option InterestBand.t)).

Record state (W : Type) := mkState {
  world : W;
  trace : list event
}.
Arguments mkState {W} world trace.
Arguments world {W} s.
Arguments trace {W} s.

(** The fields of [LoanRiskAssistant.__init__]. The collaborators act on
    a world [W] of their own. *)
Record LoanRiskAssistant (W : Type) := mkAssistant {
  policy_docs_retriever : string -> Z -> M W (list PolicyChunk.t);
  risk_scoring_api : pydict -> M W RiskScoreResult.t;
  get_policy_by_id : list string -> M W (list (string * PolicyChunk.t));
  compose_user_packet : pydict -> M W pyval;
  request_additional_docs : list string -> M W pyval;
  governance_log : string -> pydict -> M W GovernanceLogRecord.t;
  interest_policy_resolver :
    option (list PolicyChunk.t -> string -> M W (option InterestBand.t));
  policy_top_k : Z
}.
Arguments mkAssistant {W}.
Arguments policy_docs_retriever {W} l.
Arguments risk_scoring_api {W} l.
Arguments get_policy_by_id {W} l.
Arguments compose_user_packet {W} l.
Arguments request_additional_docs {W} l.
Arguments governance_log {W} l.
Arguments interest_policy_resolver {W} l.
Arguments policy_top_k {W} l.

(** Run a collaborator on the world and record the call. *)
Definition call {W A} (c : M W A) (ev : res A -> event) : M (state W) A :=
  fun st =>
    let '(r, w) := c (world st) in
    (r, mkState w (trace st ++ [ev r])).

(** ** agent.py *)

Section Agent.
Context `{Builtins} {W : Type}.
Implicit Types (self : LoanRiskAssistant W).

Definition _log self (event_type : string) (payload : pydict)
  : M (state W) GovernanceLogRecord.t :=
  call (governance_log self event_type payload) (EvLog event_type payload).

Definition _build_policy_query (application : LoanApplication.t) : string :=
  let context_terms :=
    match LoanApplication.context application with
    | Some ((_ :: _) as ctx) =>
        (fun kv : string * pyval => kv.1 +:+ ":" +:+ py_str kv.2) <$> ctx
    | _ => []
    end in
  let base_terms :=
    [LoanApplication.region application; LoanApplication.product application;
     "risk tiering"; "interest band"; "documentation"] in
  py_join " "
    (filter (fun term => term <> "") (base_terms ++ context_terms)).

Definition _build_risk_payload (application : LoanApplication.t) : pydict :=
  let payload :=
    [("application_id", VStr (LoanApplication.application_id application));
     ("borrower", VDict (LoanApplication.borrower application));
     ("loan", VDict (LoanApplication.loan application));
     ("region", VStr (LoanApplication.region application));
     ("product", VStr (LoanApplication.product application))] in
  match LoanApplication.context application with
  | Some ((_ :: _) as ctx) => payload ++ [("context", VDict ctx)]
  | _ => payload
  end.

Definition _resolve_policy_chunks self (policy_chunks : list PolicyChunk.t)
  : M (state W) (list PolicyChunk.t) :=
  match policy_chunks with
  | [] => ret []
  | _ =>
      let ids := PolicyChunk.chunk_id <$> policy_chunks in
      resolved <- call (get_policy_by_id self ids) (EvGetPolicy ids) ;;
      ret ((fun chunk =>
              dict_get_default resolved (PolicyChunk.chunk_id chunk) chunk)
             <$> policy_chunks)
  end.

Definition _build_policy_citations (policy_chunks : list PolicyChunk.t)
  : list pydict :=
  (fun chunk =>
     [("chunk_id", VStr (PolicyChunk.chunk_id chunk));
      ("title", VStr (PolicyChunk.title chunk));
      ("section", VStr (PolicyChunk.section chunk));
      ("quote", VStr (PolicyChunk.quote chunk 50))])
    <$> slice_to policy_chunks 5.

Definition _tier_from_score (score : pyfloat) : string :=
  if float_lt_int score 34 then "Low"
  else if float_lt_int score 67 then "Med"
  else "High".

(** [{feature.code: feature for feature in features}]: a later feature
    replaces an earlier one with the same code. *)
Definition feature_lookup (features : list RiskFeature.t)
  : gmap string RiskFeature.t :=
  foldl (fun m feature => <[RiskFeature.code feature := feature]> m) ∅ features.

Definition feature_reason (lookup : gmap string RiskFeature.t)
    (reason : ReasonCode.t) : pydict :=
  let detail :=
    match lookup !! ReasonCode.code reason with
    | Some feature =>
        let direction :=
          if String.eqb (py_lower (RiskFeature.direction feature)) "increase"
          then "raised" else "reduced" in
        ReasonCode.description reason +:+ " â€” feature value "
          +:+ py_repr (RiskFeature.value feature) +:+ " " +:+ direction
          +:+ " risk"
    | None => ReasonCode.description reason
    end in
  [("label", VStr (ReasonCode.description reason));
   ("detail", VStr detail);
   ("source", VDict [("type", VStr "feature");
                     ("id_or_code", VStr (ReasonCode.code reason))])].

Definition policy_reason (chunk : PolicyChunk.t) : pydict :=
  [("label", dict_get_default (PolicyChunk.metadata chunk) "guidance"
               (VStr "Policy guidance"));
   ("detail", VStr (PolicyChunk.quote chunk 50));
   ("source", VDict [("type", VStr "policy");
                     ("id_or_code", VStr (PolicyChunk.chunk_id chunk))])].

Definition _build_reasons (risk_result : RiskScoreResult.t)
    (policy_chunks : list PolicyChunk.t) : list pydict :=
  let lookup := feature_lookup (RiskScoreResult.features risk_result) in
  let reasons :=
    feature_reason lookup <$> RiskScoreResult.reason_codes risk_result in
  let reasons :=
    reasons ++
    (policy_reason <$>
       filter (fun chunk => dict_mem (PolicyChunk.metadata chunk) "guidance" = true)
         policy_chunks) in
  slice_to reasons 8.

(** [sorted(documents)] for a set of strings: the elements are distinct
    and the order on strings is total, so the result does not depend on
    the order in which the set is visited. *)
Definition py_sorted (documents : gset string) : list string :=
  merge_sort String.le (elements documents).

(** The inner loop over one chunk's [required_documents]. The function
    is declared to return [List[str]]: an entry that is not a [str]
    has no place in that type, and the model stops with [TypeError]
    there, as it does for a value that cannot be iterated. *)
Definition add_required_documents (documents : gset string)
    (chunk : PolicyChunk.t) : res (gset string) :=
  match py_iter (dict_get_default (PolicyChunk.metadata chunk)
                   "required_documents" (VList [])) with
  | Raise e => Raise e
  | Ok items =>
      foldl (fun acc document =>
               match acc, document with
               | Ok docs, VStr s => Ok ({[s]} ∪ docs)
               | Ok _, _ => Raise TypeError
               | Raise e, _ => Raise e
               end) (Ok documents) items
  end.

Definition add_reason_documents (documents : gset string)
    (code : ReasonCode.t) : gset string :=
  let documents :=
    if py_startswith (py_upper (ReasonCode.code code)) "DTI"
    then {["Detailed debt obligation schedule"]} ∪ documents
    else documents in
  if py_startswith (py_upper (ReasonCode.code code)) "CREDIT"
  then {["Updated credit bureau report"]} ∪ documents
  else documents.

Definition _determine_requested_documents (application : LoanApplication.t)
    (risk_result : RiskScoreResult.t) (policy_chunks : list PolicyChunk.t)
  : res (list string) :=
  let documents : gset string := ∅ in
  let borrower := LoanApplication.borrower application in
  let employment_type := dict_get_default borrower "employment_type" VNone in
  let documents :=
    if py_eq_str employment_type "self_employed"
    then {["Most recent 2 years of tax returns"]} ∪ documents
    else documents in
  let documents :=
    if negb (py_truthy (dict_get_default borrower "income_verified" (VBool false)))
    then {["Recent income verification (e.g., pay stubs or bank statements)"]}
           ∪ documents
    else documents in
  let loan := LoanApplication.loan application in
  let documents :=
    if py_truthy (dict_get_default loan "collateral_required" VNone)
       && negb (py_truthy (dict_get_default loan "collateral_documents" VNone))
    then {["Collateral ownership evidence"]} ∪ documents
    else documents in
  let documents :=
    foldl add_reason_documents documents
      (RiskScoreResult.reason_codes risk_result) in
  match
    foldl (fun acc chunk =>
             match acc with
             | Ok docs => add_required_documents docs chunk
             | Raise e => Raise e
             end) (Ok documents) policy_chunks
  with
  | Ok documents => Ok (py_sorted documents)
  | Raise e => Raise e
  end.

Definition is_None (v : pyval) : bool :=
  match v with VNone => true | _ => false end.

(** The loop of [_determine_interest_band] over the chunks. *)
Fixpoint band_from_chunks (policy_chunks : list PolicyChunk.t)
  : res (option InterestBand.t) :=
  match policy_chunks with
  | [] => Ok None
  | chunk :: rest =>
      let band_data :=
        dict_get_default (PolicyChunk.metadata chunk) "interest_band" VNone in
      if negb (py_truthy band_data) then band_from_chunks rest
      else
        match band_data with
        | VDict d =>
            let min_apr := dict_get_default d "min_apr" VNone in
            let max_apr := dict_get_default d "max_apr" VNone in
            if is_None min_apr || is_None max_apr then band_from_chunks rest
            else
              let reference :=
                dict_get_default d "policy_reference"
                  (VStr (PolicyChunk.chunk_id chunk)) in
              let conditions := dict_get_default d "conditions" (VList []) in
              Ok (Some (InterestBand.mk min_apr max_apr reference conditions))
        | _ => Raise AttributeError
        end
  end.

Definition _determine_interest_band self (risk_tier : string)
    (policy_chunks : list PolicyChunk.t)
  : M (state W) (option InterestBand.t) :=
  band <- match interest_policy_resolver self with
          | Some resolver =>
              call (resolver policy_chunks risk_tier)
                (EvResolveBand policy_chunks risk_tier)
          | None => ret None
          end ;;
  match band with
  | Some b => ret (Some b)
  | None => lift_res (band_from_chunks policy_chunks)
  end.

(** [asdict(interest_band)] *)
Definition asdict_band (b : InterestBand.t) : pydict :=
  [("min_apr", InterestBand.min_apr b);
   ("max_apr", InterestBand.max_apr b);
   ("policy_reference", InterestBand.policy_reference b);
   ("conditions", InterestBand.conditions b)].

Definition response_id_keys : list string :=
  ["request_id"; "id"; "identifier"; "response_id"; "log_id"].

(** The loop over the candidate keys, left at the first truthy value. *)
Fixpoint first_response_id (docs_response : pydict) (keys : list string)
  : option string :=
  match keys with
  | [] => None
  | key :: keys' =>
      let value := dict_get_default docs_response key VNone in
      if py_truthy value then Some (py_str value)
      else first_response_id docs_response keys'
  end.

Definition tool_response_id_of (docs_response : pyval) : option string :=
  match docs_response with
  | VDict d => first_response_id d response_id_keys
  | _ => None
  end.

Definition opt_str (o : option string) : pyval :=
  match o with
  | Some s => VStr s
  | None => VNone
  end.

Definition interest_rate_suggestion (interest_band : option InterestBand.t)
  : res pyval :=
  match interest_band with
  | Some b =>
      match py_round2 (InterestBand.min_apr b) with
      | Raise e => Raise e
      | Ok lo =>
          match py_round2 (InterestBand.max_apr b) with
          | Raise e => Raise e
          | Ok hi =>
              Ok (VDict [("band_apr_percent", VList [lo; hi]);
                         ("basis", InterestBand.policy_reference b);
                         ("conditions", InterestBand.conditions b)])
          end
      end
  | None => Ok VNone
  end.

Definition assess self (application : LoanApplication.t)
  : M (state W) pydict :=
  let application_id := VStr (LoanApplication.application_id application) in
  let region := VStr (LoanApplication.region application) in
  let product := VStr (LoanApplication.product application) in
  rec <- _log self "problem_received"
           [("application_id", application_id);
            ("region", region);
            ("product", product);
            ("redactions", VBool true)] ;;
  let governance_ids := [GovernanceLogRecord.log_id rec] in

  let query := _build_policy_query application in
  policy_chunks <- call (policy_docs_retriever self query (policy_top_k self))
                     (EvRetrieve query (policy_top_k self)) ;;
  rec <- _log self "retrieval_done"
           [("application_id", application_id);
            ("query", VStr query);
            ("chunk_ids", VList (VStr <$> (PolicyChunk.chunk_id <$> policy_chunks)))] ;;
  let governance_ids := governance_ids ++ [GovernanceLogRecord.log_id rec] in

  let risk_payload := _build_risk_payload application in
  risk_result <- call (risk_scoring_api self risk_payload) (EvScore risk_payload) ;;
  rec <- _log self "risk_scored"
           [("application_id", application_id);
            ("risk_score", VFloat (RiskScoreResult.score risk_result));
            ("reason_codes",
             VList (VStr <$> (ReasonCode.code <$>
                                RiskScoreResult.reason_codes risk_result)))] ;;
  let governance_ids := governance_ids ++ [GovernanceLogRecord.log_id rec] in

  resolved_policies <- _resolve_policy_chunks self policy_chunks ;;
  let policy_citations := _build_policy_citations resolved_policies in

  let risk_tier := _tier_from_score (RiskScoreResult.score risk_result) in
  let reasons := _build_reasons risk_result resolved_policies in

  requested_documents <-
    lift_res (_determine_requested_documents application risk_result
                resolved_policies) ;;
  governance_ids <-
    match requested_documents with
    | [] => ret governance_ids
    | _ =>
        docs_response <- call (request_additional_docs self requested_documents)
                           (EvRequestDocs requested_documents) ;;
        let tool_response_id := tool_response_id_of docs_response in
        rec <- _log self "docs_requested"
                 [("application_id", application_id);
                  ("requested_documents", VList (VStr <$> requested_documents));
                  ("tool_response_id", opt_str tool_response_id)] ;;
        ret (governance_ids ++ [GovernanceLogRecord.log_id rec])
    end ;;

  interest_band <- _determine_interest_band self risk_tier resolved_policies ;;
  let policy_gap := match interest_band with None => true | Some _ => false end in

  let user_packet_payload :=
    [("application_id", application_id);
     ("risk_score", VDict [("value", VFloat (RiskScoreResult.score risk_result));
                           ("tier", VStr risk_tier)]);
     ("reasons", VList (VDict <$> reasons));
     ("requested_documents", VList (VStr <$> requested_documents));
     ("policy_citations", VList (VDict <$> policy_citations));
     ("interest_band",
      match interest_band with
      | Some b => VDict (asdict_band b)
      | None => VNone
      end)] in
  user_packet <- call (compose_user_packet self user_packet_payload)
                   (EvCompose user_packet_payload) ;;
  rec <- _log self "packet_composed"
           [("application_id", application_id);
            ("payload_keys", VList (VStr <$> user_packet_payload.*1))] ;;
  let governance_ids := governance_ids ++ [GovernanceLogRecord.log_id rec] in

  suggestion <- lift_res (interest_rate_suggestion interest_band) ;;
  ret [("application_id", application_id);
       ("risk_score", VDict [("value", VFloat (RiskScoreResult.score risk_result));
                             ("scale", VStr "0-100");
                             ("tier", VStr risk_tier)]);
       ("reasons", VList (VDict <$> reasons));
       ("policy_citations", VList (VDict <$> policy_citations));
       ("requested_documents", VList (VStr <$> requested_documents));
       ("interest_rate_suggestion", suggestion);
       ("compliance", VDict [("region", region);
                             ("product", product);
                             ("policy_gap", VBool policy_gap)]);
       ("governance_log_ids", VList (VStr <$> governance_ids));
       ("user_packet", user_packet)].
End Agent.

(** ** agnostic_adapter.py *)

Definition res_bind {A B} (r : res A) (k : A -> res B) : res B :=
  match r with
  | Ok a => k a
  | Raise e => Raise e
  end.

Notation "x <~ r ;; k" := (res_bind r (fun x => k))
  (at level 100, r at next level, right associativity) : call_scope.

(** [data[key]] for a string key: [KeyError] on a dictionary without the
    key, [TypeError] on anything that is not a dictionary. *)
Definition py_getitem (data : pyval) (key : string) : res pyval :=
  match data with
  | VDict d =>
      match dict_get d key with
      | Some v => Ok v
      | None => Raise (KeyError key)
      end
  | _ => Raise TypeError
  end.

(** [payload[key]] on a request map *)
Definition dict_getitem (payload : pydict) (key : string) : res pyval :=
  match dict_get payload key with
  | Some v => Ok v
  | None => Raise (KeyError key)
  end.

(** The dataclass fields are declared [str] and [Dict]; a value of
    another type does not fit the record and the model stops there. *)
Definition as_str (v : pyval) : res string :=
  match v with
  | VStr s => Ok s
  | _ => Raise TypeError
  end.

Definition as_dict (v : pyval) : res pydict :=
  match v with
  | VDict d => Ok d
  | _ => Raise TypeError
  end.

Fixpoint res_mapM {A B} (f : A -> res B) (l : list A) : res (list B) :=
  match l with
  | [] => Ok []
  | x :: l' => y <~ f x ;; ys <~ res_mapM f l' ;; Ok (y :: ys)
  end.

Definition _policy_chunk_from_dict (data : pyval) : res PolicyChunk.t :=
  chunk_id <~ py_getitem data "chunk_id" ;;
  title <~ py_getitem data "title" ;;
  section <~ py_getitem data "section" ;;
  text <~ py_getitem data "text" ;;
  data' <~ as_dict data ;;
  let metadata := dict_get_default data' "metadata" (VDict []) in
  chunk_id <~ as_str chunk_id ;;
  title <~ as_str title ;;
  section <~ as_str section ;;
  text <~ as_str text ;;
  metadata <~ as_dict metadata ;;
  Ok (PolicyChunk.mk chunk_id title section text metadata).

Definition _policy_chunk_to_dict (chunk : PolicyChunk.t) : pydict :=
  [("chunk_id", VStr (PolicyChunk.chunk_id chunk));
   ("title", VStr (PolicyChunk.title chunk));
   ("section", VStr (PolicyChunk.section chunk));
   ("text", VStr (PolicyChunk.text chunk));
   ("metadata", VDict (PolicyChunk.metadata chunk))].

Definition _risk_feature_to_dict (feature : RiskFeature.t) : pydict :=
  [("code", VStr (RiskFeature.code feature));
   ("description", VStr (RiskFeature.description feature));
   ("value", RiskFeature.value feature);
   ("direction", VStr (RiskFeature.direction feature));
   ("weight", VFloat (RiskFeature.weight feature))].

Definition _reason_code_to_dict (code : ReasonCode.t) : pydict :=
  [("code", VStr (ReasonCode.code code));
   ("description", VStr (ReasonCode.description code))].

Definition _risk_result_to_dict (result : RiskScoreResult.t) : pydict :=
  [("score", VFloat (RiskScoreResult.score result));
   ("features",
    VList (VDict <$> (_risk_feature_to_dict <$> RiskScoreResult.features result)));
   ("reason_codes",
    VList (VDict <$> (_reason_code_to_dict <$> RiskScoreResult.reason_codes result)))].

Definition _governance_record_to_dict (record : GovernanceLogRecord.t) : pydict :=
  let result :=
    [("event_type", VStr (GovernanceLogRecord.event_type record));
     ("log_id", VStr (GovernanceLogRecord.log_id record))] in
  match GovernanceLogRecord.payload_hash record with
  | Some h => result ++ [("payload_hash", VStr h)]
  | None => result
  end.

Definition _interest_band_to_dict (band : InterestBand.t) : pydict :=
  [("min_apr", InterestBand.min_apr band);
   ("max_apr", InterestBand.max_apr band);
   ("policy_reference", InterestBand.policy_reference band);
   ("conditions", InterestBand.conditions band)].

(** The schema literals: [{"type": "object", "properties": {...}}]. None
    of them lists required keys. *)
Definition schema (properties : pydict) : pyval :=
  VDict [("type", VStr "object"); ("properties", VDict properties)].

Definition ty (name : string) : pyval := VDict [("type", VStr name)].

Module AgnosticToolAdapter.
Record t (W : Type) := mk {
  name : string;
  description : string;
  input_schema : pyval;
  output_schema : pyval;
  _handler : pydict -> M W pydict
}.
Arguments mk {W}.
Arguments name {W} self : rename.
Arguments description {W} self : rename.
Arguments input_schema {W} self : rename.
Arguments output_schema {W} self : rename.
Arguments _handler {W} self : rename.

Definition invoke {W} (self : t W) (payload : pydict) : M W pydict :=
  _handler self payload.
End AgnosticToolAdapter.

Section Adapters.
Context `{Builtins} {W : Type}.

Definition adapt_policy_docs_retriever
    (tool : pyval -> Z -> M W (list PolicyChunk.t)) : AgnosticToolAdapter.t W :=
  let handler (payload : pydict) : M W pydict :=
    let query := dict_get_default payload "query" (VStr "") in
    top_k <- lift_res (py_int (dict_get_default payload "top_k" (VInt 5))) ;;
    chunks <- tool query top_k ;;
    ret [("chunks", VList (VDict <$> (_policy_chunk_to_dict <$> chunks)))] in
  AgnosticToolAdapter.mk
    "policy_docs_retriever"
    "Retrieve policy chunks relevant to a loan application query."
    (schema [("query", ty "string"); ("top_k", ty "integer")])
    (schema [("chunks", ty "array")])
    handler.

Definition adapt_risk_scoring_api
    (tool : pyval -> M W RiskScoreResult.t) : AgnosticToolAdapter.t W :=
  let handler (payload : pydict) : M W pydict :=
    arg <- lift_res (dict_getitem payload "payload") ;;
    risk_result <- tool arg ;;
    ret (_risk_result_to_dict risk_result) in
  AgnosticToolAdapter.mk
    "risk_scoring_api"
    "Call the bank's risk scoring service."
    (schema [("payload", ty "object")])
    (schema [("score", ty "number")])
    handler.

Definition adapt_get_policy_by_id
    (tool : pyval -> M W (list (string * PolicyChunk.t)))
  : AgnosticToolAdapter.t W :=
  let handler (payload : pydict) : M W pydict :=
    let ids := dict_get_default payload "ids" (VList []) in
    resolved <- tool ids ;;
    ret [("chunks", VList (VDict <$> (_policy_chunk_to_dict <$> resolved.*2)))] in
  AgnosticToolAdapter.mk
    "get_policy_by_id"
    "Resolve canonical policy chunks by identifier."
    (schema [("ids", VDict [("type", VStr "array"); ("items", ty "string")])])
    (schema [("chunks", ty "array")])
    handler.

Definition adapt_compose_user_packet
    (tool : pyval -> M W pyval) : AgnosticToolAdapter.t W :=
  let handler (payload : pydict) : M W pydict :=
    data <- lift_res (dict_getitem payload "data") ;;
    packet <- tool data ;;
    ret [("packet", packet)] in
  AgnosticToolAdapter.mk
    "compose_user_packet"
    "Compose a channel specific packet from the assessment payload."
    (schema [("data", ty "object")])
    (schema [("packet", ty "object")])
    handler.

Definition adapt_request_additional_docs
    (tool : list pyval -> M W pyval) : AgnosticToolAdapter.t W :=
  let handler (payload : pydict) : M W pydict :=
    documents <- lift_res (py_iter (dict_get_default payload "documents" (VList []))) ;;
    request <- tool documents ;;
    ret [("request", request)] in
  AgnosticToolAdapter.mk
    "request_additional_docs"
    "Trigger the document collection workflow."
    (schema [("documents", VDict [("type", VStr "array"); ("items", ty "string")])])
    (schema [("request", ty "object")])
    handler.

Definition adapt_governance_log
    (tool : pyval -> pyval -> M W GovernanceLogRecord.t)
  : AgnosticToolAdapter.t W :=
  let handler (payload : pydict) : M W pydict :=
    event_type <- lift_res (dict_getitem payload "event_type") ;;
    record <- tool event_type (dict_get_default payload "payload" (VDict [])) ;;
    ret (_governance_record_to_dict record) in
  AgnosticToolAdapter.mk
    "governance_log"
    "Write an event to the governance log."
    (schema [("event_type", ty "string"); ("payload", ty "object")])
    (schema [("log_id", ty "string")])
    handler.

Definition adapt_interest_policy_resolver
    (tool : list PolicyChunk.t -> pyval -> M W (option InterestBand.t))
  : AgnosticToolAdapter.t W :=
  let handler (payload : pydict) : M W pydict :=
    items <- lift_res (py_iter (dict_get_default payload "policy_chunks" (VList []))) ;;
    chunks <- lift_res (res_mapM _policy_chunk_from_dict items) ;;
    risk_tier <- lift_res (dict_getitem payload "risk_tier") ;;
    band <- tool chunks risk_tier ;;
    ret [("band",
          match band with
          | Some b => VDict (_interest_band_to_dict b)
          | None => VNone
          end)] in
  AgnosticToolAdapter.mk
    "interest_policy_resolver"
    "Derive an interest band from the resolved policies."
    (schema [("policy_chunks", ty "array"); ("risk_tier", ty "string")])
    (schema [("band", VDict [("type", VList [VStr "object"; VStr "null"])])])
    handler.

Definition available_tool_adapters
    (policy_docs_retriever : pyval -> Z -> M W (list PolicyChunk.t))
    (risk_scoring_api : pyval -> M W RiskScoreResult.t)
    (get_policy_by_id : pyval -> M W (list (string * PolicyChunk.t)))
    (compose_user_packet : pyval -> M W pyval)
    (request_additional_docs : list pyval -> M W pyval)
    (governance_log : pyval -> pyval -> M W GovernanceLogRecord.t)
    (interest_policy_resolver :
       option (list PolicyChunk.t -> pyval -> M W (option InterestBand.t)))
  : list (AgnosticToolAdapter.t W) :=
  let adapters :=
    [adapt_policy_docs_retriever policy_docs_retriever;
     adapt_risk_scoring_api risk_scoring_api;
     adapt_get_policy_by_id get_policy_by_id;
     adapt_compose_user_packet compose_user_packet;
     adapt_request_additional_docs request_additional_docs;
     adapt_governance_log governance_log] in
  match interest_policy_resolver with
  | Some resolver => adapters ++ [adapt_interest_policy_resolver resolver]
  | None => adapters
  end.
End Adapters.

(** ** Reading results and traces *)

(** [reason["source"][key]] of an entry of the reasons list *)
Definition source_field (reason : pydict) (key : string) : option pyval :=
  match dict_get reason "source" with
  | Some (VDict source) => dict_get source key
  | _ => None
  end.

(** The governance-logger calls of a trace, in call order: the event type
    passed and the outcome. *)
Fixpoint log_calls (tr : list event) : list (string * res GovernanceLogRecord.t) :=
  match tr with
  | [] => []
  | EvLog event_type _ r :: tr' => (event_type, r) :: log_calls tr'
  | _ :: tr' => log_calls tr'
  end.

Definition is_get_policy (ev : event) : bool :=
  match ev with
  | EvGetPolicy _ _ => true
  | _ => false
  end.

(** The part of the trace written since [st]. *)
Definition events_since {W} (st st' : state W) : list event :=
  drop (length (trace st)) (trace st').

(** A chunk whose "required_documents", when present, is a list of
    strings, as the data model has it. *)
Definition documents_well_typed (chunk : PolicyChunk.t) : Prop :=
  exists l : list string,
    dict_get_default (PolicyChunk.metadata chunk) "required_documents" (VList [])
      = VList (VStr <$> l).

(** A chunk that the loop of [_determine_interest_band] passes over:
    its metadata has no truthy "interest_band", or that dictionary has
    no "min_apr" or no "max_apr" other than [None]. *)
Definition lacks_band (chunk : PolicyChunk.t) : Prop :=
  match dict_get (PolicyChunk.metadata chunk) "interest_band" with
  | None => True
  | Some (VDict d) =>
      d = [] \/
      dict_get_default d "min_apr" VNone = VNone \/
      dict_get_default d "max_apr" VNone = VNone
  | Some v => py_truthy v = false
  end.

Definition is_resolve_band (ev : event) : bool :=
  match ev with
  | EvResolveBand _ _ _ => true
  | _ => false
  end.

(** A chunk that carries a complete band, as the specification has it:
    its "interest_band" holds both bounds. *)
Definition complete_band (chunk : PolicyChunk.t) : Prop :=
  exists d lo hi,
    dict_get (PolicyChunk.metadata chunk) "interest_band" = Some (VDict d) /\
    dict_get d "min_apr" = Some lo /\ lo <> VNone /\
    dict_get d "max_apr" = Some hi /\ hi <> VNone.

(** What the specification asks of the band step: without a resolver
    and without a chunk that carries a complete band, no band is found. *)
Definition gap_without_band {W} (self : LoanRiskAssistant W) : Prop :=
  interest_policy_resolver self = None ->
  forall risk_tier policy_chunks st,
    Forall (fun chunk => ~ complete_band chunk) policy_chunks ->
    _determine_interest_band self risk_tier policy_chunks st = (Ok None, st).

(** A chunk whose "interest_band" is truthy and not a dictionary. *)
Definition malformed_band (chunk : PolicyChunk.t) : Prop :=
  exists v,
    dict_get (PolicyChunk.metadata chunk) "interest_band" = Some v /\
    py_truthy v = true /\ forall d, v <> VDict d.

Definition is_retrieve (ev : event) : bool :=
  match ev with
  | EvRetrieve _ _ _ => true
  | _ => false
  end.

(** Whatever the outcome of [c], the events it adds to the trace all
    satisfy [P]. *)
Definition emits {W A} (P : event -> Prop) (c : M (state W) A) : Prop :=
  forall st r st',
    c st = (r, st') -> exists new, trace st' = trace st ++ new /\ Forall P new.

(** After the retrieval, [assess] does not call the retriever again,
    and does not call policy-by-id when no chunk was retrieved. *)
Definition after_retrieval (policy_chunks : list PolicyChunk.t) (ev : event) : Prop :=
  is_retrieve ev = false /\ (policy_chunks = [] -> is_get_policy ev = false).


(** ** agnostic_adapter.py: decoding and the agent over a tool host *)

(** The conversions of Python that the decoders apply to values of type
    [Any]. They are not part of the repository and stay abstract. *)
Class Conversions := {
  (** [float(v)] for a [v] that is not a [float] *)
  py_float_other : pyval -> res pyfloat;
  (** [dict(v)] for a [v] that is not a [dict] *)
  py_dict_other : pyval -> res pydict
}.

(** [float(v)] *)
Definition py_float `{Conversions} (v : pyval) : res pyfloat :=
  match v with
  | VFloat f => Ok f
  | _ => py_float_other v
  end.

(** [dict(v)] *)
Definition py_dict `{Conversions} (v : pyval) : res pydict :=
  match v with
  | VDict d => Ok d
  | _ => py_dict_other v
  end.

(** An [Optional[str]] field: [None], or a [str]. *)
Definition as_opt_str (v : pyval) : res (option string) :=
  match v with
  | VNone => Ok None
  | VStr s => Ok (Some s)
  | _ => Raise TypeError
  end.

(** An [Optional[Dict]] field: [None], or a [dict]. *)
Definition as_opt_dict (v : pyval) : res (option pydict) :=
  match v with
  | VNone => Ok None
  | VDict d => Ok (Some d)
  | _ => Raise TypeError
  end.

(** [d[key] = value]: an existing key keeps its place. *)
Fixpoint dict_set {A} (d : list (string * A)) (key : string) (value : A)
  : list (string * A) :=
  match d with
  | [] => [(key, value)]
  | (k, v) :: d' =>
      if String.eqb k key then (key, value) :: d'
      else (k, v) :: dict_set d' key value
  end.

(** [a | b]: the entries of [a], overwritten and extended by those of
    [b]. *)
Definition dict_union {A} (a b : list (string * A)) : list (string * A) :=
  foldl (fun d kv => dict_set d kv.1 kv.2) a b.

Section Decoding.
Context `{Conversions}.

Definition _risk_feature_from_dict (data : pyval) : res RiskFeature.t :=
  code <~ py_getitem data "code" ;;
  description <~ py_getitem data "description" ;;
  data' <~ as_dict data ;;
  let value := dict_get_default data' "value" VNone in
  direction <~ py_getitem data "direction" ;;
  weight <~ py_getitem data "weight" ;;
  weight <~ py_float weight ;;
  code <~ as_str code ;;
  description <~ as_str description ;;
  direction <~ as_str direction ;;
  Ok (RiskFeature.mk code description value direction weight).

Definition _reason_code_from_dict (data : pyval) : res ReasonCode.t :=
  code <~ py_getitem data "code" ;;
  description <~ py_getitem data "description" ;;
  code <~ as_str code ;;
  description <~ as_str description ;;
  Ok (ReasonCode.mk code description).

Definition _risk_result_from_dict (data : pydict) : res RiskScoreResult.t :=
  items <~ py_iter (dict_get_default data "features" (VList [])) ;;
  features <~ res_mapM _risk_feature_from_dict items ;;
  items <~ py_iter (dict_get_default data "reason_codes" (VList [])) ;;
  reason_codes <~ res_mapM _reason_code_from_dict items ;;
  score <~ dict_getitem data "score" ;;
  score <~ py_float score ;;
  Ok (RiskScoreResult.mk score features reason_codes).

Definition _governance_record_from_dict (data : pydict)
  : res GovernanceLogRecord.t :=
  event_type <~ dict_getitem data "event_type" ;;
  log_id <~ dict_getitem data "log_id" ;;
  let payload_hash := dict_get_default data "payload_hash" VNone in
  event_type <~ as_str event_type ;;
  log_id <~ as_str log_id ;;
  payload_hash <~ as_opt_str payload_hash ;;
  Ok (GovernanceLogRecord.mk event_type log_id payload_hash).

Definition _interest_band_from_dict (data : pyval) : res InterestBand.t :=
  min_apr <~ py_getitem data "min_apr" ;;
  min_apr <~ py_float min_apr ;;
  max_apr <~ py_getitem data "max_apr" ;;
  max_apr <~ py_float max_apr ;;
  policy_reference <~ py_getitem data "policy_reference" ;;
  data' <~ as_dict data ;;
  conditions <~ py_iter (dict_get_default data' "conditions" (VList [])) ;;
  Ok (InterestBand.mk (VFloat min_apr) (VFloat max_apr) policy_reference
        (VList conditions)).

(** [loan_application_from_dict]: the reads are those of the source, in
    its order. The record then holds the fields at the types the
    dataclass declares for them. The source does not check these types:
    a request with an application_id, region or product that is not a
    [str], or a context that is neither [None] nor a [dict], is outside
    what this record can hold, and the model marks it with [TypeError]
    once all reads are done; what the source does with such a request
    is not modelled. *)
Definition loan_application_from_dict (payload : pydict) : res LoanApplication.t :=
  application_id <~ dict_getitem payload "application_id" ;;
  borrower <~ dict_getitem payload "borrower" ;;
  borrower <~ py_dict borrower ;;
  loan <~ dict_getitem payload "loan" ;;
  loan <~ py_dict loan ;;
  region <~ dict_getitem payload "region" ;;
  product <~ dict_getitem payload "product" ;;
  let context := dict_get_default payload "context" VNone in
  application_id <~ as_str application_id ;;
  region <~ as_str region ;;
  product <~ as_str product ;;
  context <~ as_opt_dict context ;;
  Ok (LoanApplication.mk application_id borrower loan region product context).
End Decoding.

(** [asdict(application)] *)
Definition asdict_application (application : LoanApplication.t) : pydict :=
  [("application_id", VStr (LoanApplication.application_id application));
   ("borrower", VDict (LoanApplication.borrower application));
   ("loan", VDict (LoanApplication.loan application));
   ("region", VStr (LoanApplication.region application));
   ("product", VStr (LoanApplication.product application));
   ("context",
    match LoanApplication.context application with
    | Some ctx => VDict ctx
    | None => VNone
    end)].

Module LoanRiskAgnosticAgent.
Section Wrappers.
Context `{Builtins} `{Conversions} {W : Type}.
Variable invoke_tool : string -> pydict -> M W pydict.

Definition _wrap_policy_docs_retriever (query : string) (top_k : Z)
  : M W (list PolicyChunk.t) :=
  result <- invoke_tool "policy_docs_retriever"
              [("query", VStr query); ("top_k", VInt top_k)] ;;
  items <- lift_res (py_iter (dict_get_default result "chunks" (VList []))) ;;
  lift_res (res_mapM _policy_chunk_from_dict items).

Definition _wrap_risk_scoring_api (payload : pydict) : M W RiskScoreResult.t :=
  result <- invoke_tool "risk_scoring_api" [("payload", VDict payload)] ;;
  lift_res (_risk_result_from_dict result).

(** One step of the dictionary comprehension
    [{item["chunk_id"]: _policy_chunk_from_dict(item) for item in ...}]. *)
Definition keyed_chunk (item : pyval) : res (string * PolicyChunk.t) :=
  key <~ py_getitem item "chunk_id" ;;
  chunk <~ _policy_chunk_from_dict item ;;
  key <~ as_str key ;;
  Ok (key, chunk).

Definition _wrap_get_policy_by_id (ids : list string)
  : M W (list (string * PolicyChunk.t)) :=
  result <- invoke_tool "get_policy_by_id" [("ids", VList (VStr <$> ids))] ;;
  items <- lift_res (py_iter (dict_get_default result "chunks" (VList []))) ;;
  entries <- lift_res (res_mapM keyed_chunk items) ;;
  ret (dict_union [] entries).

Definition _wrap_compose_user_packet (data : pydict) : M W pyval :=
  result <- invoke_tool "compose_user_packet" [("data", VDict data)] ;;
  ret (dict_get_default result "packet" (VDict [])).

Definition _wrap_request_additional_docs (documents : list string) : M W pyval :=
  result <- invoke_tool "request_additional_docs"
              [("documents", VList (VStr <$> documents))] ;;
  ret (dict_get_default result "request" (VDict [])).

Definition _wrap_governance_log (event_type : string) (payload : pydict)
  : M W GovernanceLogRecord.t :=
  result <- invoke_tool "governance_log"
              [("event_type", VStr event_type); ("payload", VDict payload)] ;;
  lift_res (_governance_record_from_dict result).

Definition _wrap_interest_policy_resolver (policy_chunks : list PolicyChunk.t)
    (risk_tier : string) : M W (option InterestBand.t) :=
  result <- invoke_tool "interest_policy_resolver"
              [("policy_chunks",
                VList (VDict <$> (_policy_chunk_to_dict <$> policy_chunks)));
               ("risk_tier", VStr risk_tier)] ;;
  let band_payload := dict_get_default result "band" VNone in
  if negb (py_truthy band_payload) then ret None
  else
    band <- lift_res (_interest_band_from_dict band_payload) ;;
    ret (Some band).

(** [__init__]: the assistant over the wrapped tools. The resolver is
    wired only when the host lists it among the available tools. *)
Definition _assistant (available_tools : option (list string)) (policy_top_k : Z)
  : LoanRiskAssistant W :=
  let tool_set : gset string :=
    list_to_set (match available_tools with
                 | Some ((_ :: _) as names) => names
                 | _ => []
                 end) in
  let interest_resolver :=
    if decide ("interest_policy_resolver" ∈ tool_set)
    then Some _wrap_interest_policy_resolver
    else None in
  mkAssistant
    _wrap_policy_docs_retriever
    _wrap_risk_scoring_api
    _wrap_get_policy_by_id
    _wrap_compose_user_packet
    _wrap_request_additional_docs
    _wrap_governance_log
    interest_resolver
    policy_top_k.

Definition run (available_tools : option (list string)) (policy_top_k : Z)
    (payload : pydict) : M (state W) pydict :=
  application <- lift_res (loan_application_from_dict payload) ;;
  response <- assess (_assistant available_tools policy_top_k) application ;;
  ret (dict_union (asdict_application application) response).
End Wrappers.
End LoanRiskAgnosticAgent.

(** ** Words and traces, for the statements below *)

(** No white-space character starts anywhere in [s]. *)
Fixpoint spaceless (s : string) : bool :=
  match s with
  | EmptyString => true
  | String _ s' => Nat.eqb (space_width s) 0 && spaceless s'
  end.

(** A word: not empty, and free of white space. *)
Definition is_word (w : string) : Prop := w <> "" /\ spaceless w = true.

(** Every nonempty end of the word read so far, followed by [s], starts
    with no white space. *)
Fixpoint word_so_far (cur : list ascii) (s : string) : Prop :=
  match cur with
  | [] => True
  | a :: cur' => space_width (String a s) = 0%nat /\ word_so_far cur' (String a s)
  end.

(** The words written one after the other with one blank between two
    of them. *)
Fixpoint blank_separated (words : list string) : string :=
  match words with
  | [] => ""
  | [w] => w
  | w :: rest => w +:+ " " +:+ blank_separated rest
  end.

(** The items of a chunk's "required_documents", when it can be
    iterated. *)
Definition required_items (chunk : PolicyChunk.t) : res (list pyval) :=
  py_iter (dict_get_default (PolicyChunk.metadata chunk) "required_documents"
             (VList [])).

(** The exception a recorded call ended with, if it raised. *)
Definition event_raised (ev : event) : option exn :=
  match ev with
  | EvRetrieve _ _ (Raise e) | EvScore _ (Raise e) | EvGetPolicy _ (Raise e)
  | EvCompose _ (Raise e) | EvRequestDocs _ (Raise e) | EvLog _ _ (Raise e)
  | EvResolveBand _ _ (Raise e) => Some e
  | _ => None
  end.

(** The events [new] of a computation that ended with [r]: no call
    raised, except the last one when [r] is that very exception. *)
Definition stops_at_fault {A} (new : list event) (r : res A) : Prop :=
  match r with
  | Ok _ => Forall (fun ev => event_raised ev = None) new
  | Raise e =>
      exists calls,
        Forall (fun ev => event_raised ev = None) calls /\
        (new = calls \/ exists ev, new = calls ++ [ev] /\ event_raised ev = Some e)
  end.

Definition fails_fast {W A} (c : M (state W) A) : Prop :=
  forall st r st',
    c st = (r, st') ->
    exists new, trace st' = trace st ++ new /\ stops_at_fault new r.

Definition is_score (ev : event) : bool :=
  match ev with
  | EvScore _ _ => true
  | _ => false
  end.

Definition is_compose (ev : event) : bool :=
  match ev with
  | EvCompose _ _ => true
  | _ => false
  end.

Definition is_request_docs (ev : event) : bool :=
  match ev with
  | EvRequestDocs _ _ => true
  | _ => false
  end.

(** The document lists a trace shows the requester was called with. *)
Definition requested_lists (tr : list event) : list (list string) :=
  omap (fun ev => match ev with
                  | EvRequestDocs documents _ => Some documents
                  | _ => None
                  end) tr.

(** [c] can return [a]. *)
Definition returns {S A} (c : M S A) (a : A) : Prop :=
  exists st st1, c st = (Ok a, st1).

(** Whatever the outcome of [c], the events it adds satisfy [Q]. *)
Definition emits_all {W A} (Q : list event -> Prop) (c : M (state W) A) : Prop :=
  forall st r st',
    c st = (r, st') -> exists new, trace st' = trace st ++ new /\ Q new.

(** No call of the document requester. *)
Definition no_request (new : list event) : Prop := requested_lists new = [].

(** At most one call of the document requester, with a list that is
    [good]. *)
Definition one_request (good : list string -> Prop) (new : list event) : Prop :=
  requested_lists new = [] \/
  exists documents, requested_lists new = [documents] /\ good documents.

(** What a list handed to the document requester looks like. *)
Definition good_request (documents : list string) : Prop :=
  documents <> [] /\ StronglySorted String.le documents /\ NoDup documents.

(** The tool names the agent invokes: the six of the assistant's
    collaborators, and the resolver when the host lists it. *)
Definition invoked_tools (available_tools : option (list string)) : list string :=
  ["policy_docs_retriever"; "risk_scoring_api"; "get_policy_by_id";
   "compose_user_packet"; "request_additional_docs"; "governance_log"]
  ++ (if decide ("interest_policy_resolver" ∈ default [] available_tools)
      then ["interest_policy_resolver"] else []).

(** Two assistants whose collaborators behave alike. *)
Definition same_tools {W} (self self' : LoanRiskAssistant W) : Prop :=
  (forall query top_k w,
     policy_docs_retriever self query top_k w
       = policy_docs_retriever self' query top_k w) /\
  (forall payload w, risk_scoring_api self payload w = risk_scoring_api self' payload w) /\
  (forall ids w, get_policy_by_id self ids w = get_policy_by_id self' ids w) /\
  (forall data w, compose_user_packet self data w = compose_user_packet self' data w) /\
  (forall documents w,
     request_additional_docs self documents w
       = request_additional_docs self' documents w) /\
  (forall event_type payload w,
     governance_log self event_type payload w
       = governance_log self' event_type payload w) /\
  match interest_policy_resolver self, interest_policy_resolver self' with
  | Some resolver, Some resolver' =>
      forall policy_chunks risk_tier w,
        resolver policy_chunks risk_tier w = resolver' policy_chunks risk_tier w
  | None, None => True
  | _, _ => False
  end /\
  policy_top_k self = policy_top_k self'.

(** ** Sample collaborators

    The collaborators of [tests/test_agent.py], over a world that counts
    the governance log entries. *)

Module Sample.
(** Stand-ins for the builtins, adequate for the values below: the
    rates have at most two decimals, so rounding leaves them. *)
Definition builtins : Builtins := {|
  py_repr := fun v =>
    match v with
    | VStr s => "'" +:+ s +:+ "'"
    | VInt 610 => "610"
    | _ => "<object>"
    end;
  py_str_other := fun _ => "<object>";
  py_round2 := fun v => Ok v;
  py_int_other := fun _ => Raise TypeError;
  py_upper_other := fun s => s;
  py_lower_other := fun s => s
|}.

Definition chunk : PolicyChunk.t :=
  PolicyChunk.mk "chunk-xyz" "SMB Lending Policy" "3.1"
    "Loans flagged as medium risk must document collateral and may carry 6%-8.5% APR."
    [("guidance", VStr "Documented collateral required");
     ("interest_band",
      VDict [("min_apr", VFloat (FFin 6));
             ("max_apr", VFloat (FFin 8.5));
             ("policy_reference", VStr "POL-APR-01");
             ("conditions", VList [VStr "Manual review"])]);
     ("required_documents", VList [VStr "Collateral appraisal report"])].

(** A chunk without metadata, and a canonical version of it. *)
Definition plain_chunk : PolicyChunk.t :=
  PolicyChunk.mk "chunk-abc" "Draft" "1" "Draft text." [].

Definition canonical_chunk : PolicyChunk.t :=
  PolicyChunk.mk "chunk-abc" "Retail Lending Policy" "1.0"
    "Canonical text." [].

Definition risk_result : RiskScoreResult.t :=
  RiskScoreResult.mk (FFin 55)
    [RiskFeature.mk "CREDIT_SCORE" "Credit score below internal target"
       (VInt 610) "increase" (FFin 0.21)]
    [ReasonCode.mk "CREDIT_SCORE" "Credit score below target"].

Definition digit (n : nat) : string :=
  String (ascii_of_nat (48 + n mod 10)) EmptyString.

Definition _governance_logger (event_type : string) (payload : pydict)
  : M nat GovernanceLogRecord.t :=
  fun counter =>
    let counter := Datatypes.S counter in
    (Ok (GovernanceLogRecord.mk event_type ("log-" +:+ digit counter) None),
     counter).

Definition _get_policy_by_id (chunks : list PolicyChunk.t) (ids : list string)
  : M nat (list (string * PolicyChunk.t)) :=
  ret ((fun c => (PolicyChunk.chunk_id c, c))
         <$> filter (fun c => PolicyChunk.chunk_id c ∈ ids) chunks).

Definition assistant_with
    (retrieved : list PolicyChunk.t) (canonical : list PolicyChunk.t)
    (resolver : option (list PolicyChunk.t -> string -> M nat (option InterestBand.t)))
  : LoanRiskAssistant nat :=
  mkAssistant
    (fun query top_k => ret retrieved)
    (fun payload => ret risk_result)
    (_get_policy_by_id canonical)
    (fun data => ret (VDict [("format", VStr "html"); ("content", VStr "ok")]))
    (fun documents =>
       ret (VDict [("requested", VList (VStr <$> documents));
                   ("request_id", VStr "doc-req-1")]))
    _governance_logger
    resolver
    5.

Definition assistant : LoanRiskAssistant nat :=
  assistant_with [chunk] [chunk] None.

(** The retriever finds nothing. *)
Definition assistant_no_policy : LoanRiskAssistant nat :=
  assistant_with [] [chunk] None.

Definition fixed_band : InterestBand.t :=
  InterestBand.mk (VFloat (FFin 4)) (VFloat (FFin 5)) (VStr "POL-FIXED")
    (VList []).

Definition assistant_resolver_band : LoanRiskAssistant nat :=
  assistant_with [chunk] [chunk] (Some (fun chunks tier => ret (Some fixed_band))).

Definition assistant_resolver_none : LoanRiskAssistant nat :=
  assistant_with [chunk] [chunk] (Some (fun chunks tier => ret None)).

Definition application : LoanApplication.t :=
  LoanApplication.mk "APP-001"
    [("credit_score", VInt 610); ("income_verified", VBool false)]
    [("collateral_required", VBool true)]
    "NY" "smb_term" None.

Definition start : state nat := mkState 0%nat [].

(** A text of 51 words with a no-break space, U+00A0, between two of
    them. *)
Definition nbsp : string := String (ascii_of_nat 194) (String (ascii_of_nat 160) "").

Definition nbsp_chunk : PolicyChunk.t :=
  PolicyChunk.mk "chunk-nbsp" "Long" "9"
    (String.concat nbsp (replicate 51 "word")) [].

End Sample.

(** ** A tool host

    The tools and the host of
    [tests/test_agnostic_framework_integration.py]: the host keeps the
    adapters by name and routes an invocation to the adapter of that
    name. The world counts the governance log entries. *)

Module Host.
(** Stand-ins for the conversions, adequate for the values below. *)
Definition conversions : Conversions := {|
  py_float_other := fun v =>
    match v with
    | VInt z => Ok (FFin (inject_Z z))
    | _ => Raise TypeError
    end;
  py_dict_other := fun _ => Raise TypeError
|}.

Definition canonical (chunk_id : string) : PolicyChunk.t :=
  PolicyChunk.mk chunk_id "SMB Lending Policy (canonical)" "3.1"
    "Loans flagged as medium risk must document collateral and may carry 6%-8.5% APR."
    [].

Definition _policy_retriever (query : pyval) (top_k : Z)
  : M nat (list PolicyChunk.t) :=
  ret (if 1 <=? top_k then [Sample.chunk] else []).

Definition _risk_scoring_api (payload : pyval) : M nat RiskScoreResult.t :=
  ret Sample.risk_result.

Definition _get_policy_by_id (ids : pyval)
  : M nat (list (string * PolicyChunk.t)) :=
  match ids with
  | VList items =>
      ret (dict_union []
             (omap (fun item => match item with
                                | VStr id => Some (id, canonical id)
                                | _ => None
                                end) items))
  | _ => raise TypeError
  end.

Definition _compose_user_packet (data : pyval) : M nat pyval :=
  ret (VDict [("format", VStr "html"); ("payload", data)]).

Definition _request_additional_docs (documents : list pyval) : M nat pyval :=
  ret (VDict [("requested", VList documents); ("crm_ticket", VStr "CRM-12345")]).

Definition _governance_logger (event_type payload : pyval)
  : M nat GovernanceLogRecord.t :=
  match event_type with
  | VStr name => Sample._governance_logger name []
  | _ => raise TypeError
  end.

(** A resolver, which the test does not have. *)
Definition _interest_policy_resolver (policy_chunks : list PolicyChunk.t)
    (risk_tier : pyval) : M nat (option InterestBand.t) :=
  ret (Some Sample.fixed_band).

Definition adapters
    (resolver : option (list PolicyChunk.t -> pyval -> M nat (option InterestBand.t)))
  : list (AgnosticToolAdapter.t nat) :=
  available_tool_adapters (H:=Sample.builtins) _policy_retriever _risk_scoring_api
    _get_policy_by_id _compose_user_packet _request_additional_docs
    _governance_logger resolver.

(** [FrameworkRuntime.invoke_tool] *)
Definition invoke_tool
    (resolver : option (list PolicyChunk.t -> pyval -> M nat (option InterestBand.t)))
    (name : string) (payload : pydict) : M nat pydict :=
  match find (fun tool => String.eqb (AgnosticToolAdapter.name tool) name)
          (adapters resolver) with
  | Some tool => AgnosticToolAdapter.invoke tool payload
  | None => raise (KeyError ("Tool '" +:+ name +:+ "' is not registered"))
  end.

(** [FrameworkRuntime.tool_names] *)
Definition tool_names
    (resolver : option (list PolicyChunk.t -> pyval -> M nat (option InterestBand.t)))
  : list string :=
  AgnosticToolAdapter.name <$> adapters resolver.

Definition payload : pydict :=
  [("application_id", VStr "APP-001");
   ("borrower", VDict [("credit_score", VInt 610); ("income_verified", VBool false)]);
   ("loan", VDict [("collateral_required", VBool true)]);
   ("region", VStr "NY");
   ("product", VStr "smb_term")].

(** An assistant whose scoring service is down. *)
Definition assistant_scoring_down : LoanRiskAssistant nat :=
  mkAssistant
    (fun query top_k => ret [Sample.chunk])
    (fun payload => raise (Fault "scoring service down"))
    (Sample._get_policy_by_id [Sample.chunk])
    (fun data => ret (VDict []))
    (fun documents => ret (VDict []))
    Sample._governance_logger
    None
    5.

(** A chunk whose interest band is a string. *)
Definition malformed_chunk : PolicyChunk.t :=
  PolicyChunk.mk "chunk-bad" "Pricing memo" "2" "APR between 6% and 8.5%."
    [("interest_band", VStr "6%-8.5%")].

(** An assistant whose retriever finds that chunk, and no canonical
    version of it. *)
Definition assistant_malformed : LoanRiskAssistant nat :=
  Sample.assistant_with [malformed_chunk] [] None.

(** Two reason codes, in both orders. *)
Definition risk_result_two : RiskScoreResult.t :=
  RiskScoreResult.mk (FFin 55) []
    [ReasonCode.mk "DTI_HIGH" "Debt to income above target";
     ReasonCode.mk "credit_score" "Credit score below target"].

Definition risk_result_two_swapped : RiskScoreResult.t :=
  RiskScoreResult.mk (FFin 70) []
    [ReasonCode.mk "credit_score" "Credit score below target";
     ReasonCode.mk "DTI_HIGH" "Debt to income above target"].
End Host.

(** * Properties *)

(** ** Risk tier *)

Lemma float_lt_int_fin (q : Q) (n : Z) :
  float_lt_int (FFin q) n = true <-> (q < inject_Z n)%Q.
Proof.
  unfold float_lt_int. rewrite negb_true_iff.
  split.
  - intros Hb. apply Qnot_le_lt. intros Hle.
    apply Qle_bool_iff in Hle. congruence.
  - intros Hlt. destruct (Qle_bool (inject_Z n) q) eqn:Hb; [|done].
    apply Qle_bool_iff in Hb. exfalso. by eapply Qlt_not_le.
Qed.

Lemma float_lt_int_fin_false (q : Q) (n : Z) :
  float_lt_int (FFin q) n = false <-> (inject_Z n <= q)%Q.
Proof.
  unfold float_lt_int. rewrite negb_false_iff. apply Qle_bool_iff.
Qed.

(** C1: for a finite score [q], the tier is "Low" exactly below 34,
    "Med" exactly from 34 up to but excluding 67, and "High" exactly from
    67 on; the two boundary scores 34 and 67 give "Med" and "High". *)
Theorem tier_from_score_spec (q : Q) :
  (_tier_from_score (FFin q) = "Low" <-> (q < 34)%Q) /\
  (_tier_from_score (FFin q) = "Med" <-> (34 <= q)%Q /\ (q < 67)%Q) /\
  (_tier_from_score (FFin q) = "High" <-> (67 <= q)%Q) /\
  _tier_from_score (FFin 34%Q) = "Med" /\
  _tier_from_score (FFin 67%Q) = "High".
Proof.
  unfold _tier_from_score.
  destruct (float_lt_int (FFin q) 34) eqn:H34;
    destruct (float_lt_int (FFin q) 67) eqn:H67.
  all: try apply float_lt_int_fin in H34; try apply float_lt_int_fin in H67.
  all: try apply float_lt_int_fin_false in H34;
       try apply float_lt_int_fin_false in H67.
  all: change (inject_Z 34) with 34%Q in *; change (inject_Z 67) with 67%Q in *.
  all: repeat split; try done; try (intros; exfalso).
  all: try (intros [? ?]; exfalso).
  all: try lra.
Qed.

(** The infinities fall in the outer tiers; a NaN, which compares false
    with everything, falls through both tests. *)
Lemma tier_from_score_special :
  _tier_from_score FNegInf = "Low" /\
  _tier_from_score FPosInf = "High" /\
  _tier_from_score FNaN = "High".
Proof. done. Qed.

(** ** Quotes *)

Lemma slice_to_nonneg {A} (l : list A) (k : Z) :
  0 <= k -> slice_to l k = take (Z.to_nat k) l.
Proof. intros Hk. unfold slice_to. by destruct (Z.ltb_spec k 0); [lia|]. Qed.

Lemma append_cons (a : ascii) (s t : string) :
  String a s +:+ t = String a (s +:+ t).
Proof. done. Qed.

Lemma append_empty (t : string) : "" +:+ t = t.
Proof. done. Qed.

Lemma append_assoc (s t u : string) : (s +:+ t) +:+ u = s +:+ (t +:+ u).
Proof. induction s as [|a s IH]; [done|]. by rewrite !append_cons, IH. Qed.

Lemma append_empty_r (s : string) : s +:+ "" = s.
Proof. induction s as [|a s IH]; [done|]. by rewrite append_cons, IH. Qed.

Lemma space_width_le (s : string) : (space_width s <= String.length s)%nat.
Proof.
  destruct s as [|a [|b [|c s]]]; cbn; repeat case_match; lia.
Qed.

Lemma space_width_app (s t : string) :
  space_width s <> 0%nat -> space_width (s +:+ t) = space_width s.
Proof.
  destruct s as [|a [|b [|c s]]]; rewrite ?append_cons, ?append_empty;
    cbn -[ascii_isspace isspace2 isspace3]; try done.
  - destruct (ascii_isspace a); [done|]. congruence.
  - destruct (ascii_isspace a); [done|]. destruct (isspace2 a b); [done|].
    congruence.
Qed.

Lemma isspace2_blank (a : ascii) : isspace2 a " " = false.
Proof. unfold isspace2. cbn. by rewrite andb_false_r. Qed.

Lemma isspace3_blank_r (a b : ascii) : isspace3 a b " " = false.
Proof. unfold isspace3. cbn. by rewrite !andb_false_r. Qed.

Lemma isspace3_blank_m (a c : ascii) : isspace3 a " " c = false.
Proof. unfold isspace3. cbn. by rewrite !andb_false_r. Qed.

Lemma space_width_app_blank (s t : string) :
  s <> "" -> space_width (s +:+ String " " t) = space_width s.
Proof.
  intros Hne.
  destruct s as [|a [|b [|c s]]]; [done|..]; rewrite ?append_cons, ?append_empty;
    cbn -[ascii_isspace isspace2 isspace3].
  - destruct (ascii_isspace a); [done|]. rewrite isspace2_blank.
    destruct t; [done|]. by rewrite isspace3_blank_m.
  - destruct (ascii_isspace a); [done|]. destruct (isspace2 a b); [done|].
    by rewrite isspace3_blank_r.
  - done.
Qed.

Lemma split_go_app_blank (s t : string) (cur : list ascii) (k : nat) :
  (k <= String.length s)%nat ->
  split_go cur k (s +:+ String " " t) = split_go cur k s ++ split_go [] 0 t.
Proof.
  revert cur k. induction s as [|a s IH]; intros cur k Hk.
  - cbn in Hk. assert (k = 0%nat) as -> by lia. done.
  - destruct k as [|k].
    + change (String a s +:+ String " " t) with (String a (s +:+ String " " t)).
      cbn [split_go].
      change (String a (s +:+ String " " t)) with (String a s +:+ String " " t).
      rewrite space_width_app_blank by done.
      pose proof (space_width_le (String a s)) as Hle.
      destruct (space_width (String a s)) as [|j].
      * apply IH. lia.
      * rewrite IH by (cbn in Hle; lia). by rewrite app_assoc.
    + change (String a s +:+ String " " t) with (String a (s +:+ String " " t)).
      cbn [split_go]. apply IH. cbn in Hk. lia.
Qed.

Lemma py_split_join (terms : list string) :
  py_split (py_join " " terms) = concat (py_split <$> terms).
Proof.
  unfold py_split, py_join.
  induction terms as [|term terms IH]; [done|].
  destruct terms as [|term' terms].
  - cbn. by rewrite app_nil_r.
  - change (String.concat " " (term :: term' :: terms))
      with (term +:+ String " " (String.concat " " (term' :: terms))).
    rewrite split_go_app_blank by lia. by rewrite IH.
Qed.

Lemma string_of_list_app (l1 l2 : list ascii) :
  String.string_of_list_ascii (l1 ++ l2)
    = String.string_of_list_ascii l1 +:+ String.string_of_list_ascii l2.
Proof. induction l1 as [|a l1 IH]; [done|]. cbn. by rewrite IH. Qed.

Lemma split_go_spaceless (s : string) (cur : list ascii) :
  spaceless s = true ->
  split_go cur 0 s = flush_word (rev (String.list_ascii_of_string s) ++ cur).
Proof.
  revert cur. induction s as [|a s IH]; intros cur Hs; [done|].
  cbn [spaceless] in Hs. apply andb_true_iff in Hs as [Hw Hs].
  apply Nat.eqb_eq in Hw. cbn [split_go]. rewrite Hw.
  rewrite IH by done. cbn [String.list_ascii_of_string rev].
  by rewrite <- app_assoc.
Qed.

Lemma py_split_word (w : string) : is_word w -> py_split w = [w].
Proof.
  intros [Hne Hw]. unfold py_split. rewrite split_go_spaceless by done.
  rewrite app_nil_r. unfold flush_word.
  destruct (rev (String.list_ascii_of_string w)) as [|a l] eqn:Hrev.
  - apply (f_equal (@rev ascii)) in Hrev. rewrite rev_involutive in Hrev.
    apply (f_equal String.string_of_list_ascii) in Hrev.
    rewrite String.string_of_list_ascii_of_string in Hrev. done.
  - rewrite <- Hrev, rev_involutive.
    by rewrite String.string_of_list_ascii_of_string.
Qed.

Lemma word_so_far_app (cur : list ascii) (s t : string) :
  word_so_far cur (s +:+ t) -> word_so_far cur s.
Proof.
  revert s. induction cur as [|a cur IH]; intros s; [done|].
  cbn [word_so_far]. rewrite <- append_cons. intros [Hw Hcur]. split.
  - destruct (space_width (String a s)) eqn:Hs; [done|].
    rewrite space_width_app in Hw by (by rewrite Hs). congruence.
  - by apply IH.
Qed.

Lemma word_so_far_spaceless (cur : list ascii) (s : string) :
  word_so_far cur s -> spaceless s = true ->
  spaceless (String.string_of_list_ascii (rev cur) +:+ s) = true.
Proof.
  revert s. induction cur as [|a cur IH]; intros s; [done|].
  cbn [word_so_far rev]. intros [Hw Hcur] Hs.
  rewrite string_of_list_app, append_assoc. cbn [String.string_of_list_ascii].
  rewrite append_cons, append_empty. apply IH; [done|].
  cbn [spaceless]. rewrite Hw, Hs. done.
Qed.

Lemma flush_word_words (cur : list ascii) (s : string) :
  word_so_far cur s -> Forall is_word (flush_word cur).
Proof.
  intros Hcur. destruct cur as [|a cur]; [by constructor|].
  constructor; [|by constructor]. split.
  - cbn [rev]. rewrite string_of_list_app. cbn.
    destruct (String.string_of_list_ascii (rev cur)); done.
  - change s with ("" +:+ s) in Hcur.
    apply (word_so_far_app _ "" s) in Hcur.
    apply word_so_far_spaceless in Hcur; [|done].
    by rewrite append_empty_r in Hcur.
Qed.

Lemma split_go_words (s : string) (cur : list ascii) (k : nat) :
  k = 0%nat \/ cur = [] ->
  word_so_far cur s -> Forall is_word (split_go cur k s).
Proof.
  revert cur k. induction s as [|a s IH]; intros cur k Hk Hcur.
  - by apply (flush_word_words cur "").
  - destruct k as [|k].
    + cbn [split_go]. destruct (space_width (String a s)) as [|j] eqn:Hw.
      * apply IH; [by left|]. done.
      * apply Forall_app. split; [by apply (flush_word_words cur (String a s))|].
        apply IH; [by right|done].
    + destruct Hk as [Hk | ->]; [done|]. cbn [split_go]. apply IH; [by right|done].
Qed.

Lemma py_split_words (s : string) : Forall is_word (py_split s).
Proof. apply split_go_words; [by left|done]. Qed.

Lemma concat_py_split_words (words : list string) :
  Forall is_word words -> concat (py_split <$> words) = words.
Proof.
  induction 1 as [|w words Hw _ IH]; [done|].
  cbn. by rewrite py_split_word, IH.
Qed.

Lemma py_join_blank_separated (words : list string) :
  py_join " " words = blank_separated words.
Proof.
  unfold py_join. induction words as [|w [|w' words] IH]; [done..|].
  cbn [String.concat blank_separated] in *. by rewrite IH.
Qed.

Lemma py_split_quote (chunk : PolicyChunk.t) (word_limit : Z) :
  py_split (PolicyChunk.quote chunk word_limit)
    = slice_to (py_split (PolicyChunk.text chunk)) word_limit.
Proof.
  unfold PolicyChunk.quote.
  destruct (Z.leb_spec (Z.of_nat (length (py_split (PolicyChunk.text chunk))))
              word_limit) as [Hle|Hgt].
  - unfold slice_to. destruct (Z.ltb_spec word_limit 0); [lia|].
    symmetry. apply take_ge. lia.
  - rewrite py_split_join. apply concat_py_split_words.
    unfold slice_to. destruct (word_limit <? 0); apply Forall_take, py_split_words.
Qed.

(** C7: with the word limit 50, [quote] returns the text itself when
    [split] finds at most 50 words in it; otherwise it returns the first
    50 of these words written one after the other with one blank
    between two of them, and this quote splits into exactly these 50
    words again. *)
Theorem quote_50_spec (chunk : PolicyChunk.t) :
  let words := py_split (PolicyChunk.text chunk) in
  ((length words <= 50)%nat ->
     PolicyChunk.quote chunk 50 = PolicyChunk.text chunk) /\
  ((50 < length words)%nat ->
     PolicyChunk.quote chunk 50 = blank_separated (take 50 words) /\
     py_split (PolicyChunk.quote chunk 50) = take 50 words /\
     length (py_split (PolicyChunk.quote chunk 50)) = 50%nat).
Proof.
  intros words. split; intros Hlen.
  - unfold PolicyChunk.quote. fold words.
    destruct (Z.leb_spec (Z.of_nat (length words)) 50); [done|lia].
  - assert (Hsplit : py_split (PolicyChunk.quote chunk 50) = take 50 words).
    { rewrite py_split_quote, slice_to_nonneg by lia. done. }
    split_and!.
    + unfold PolicyChunk.quote. fold words.
      destruct (Z.leb_spec (Z.of_nat (length words)) 50); [lia|].
      rewrite slice_to_nonneg by lia. apply py_join_blank_separated.
    + exact Hsplit.
    + rewrite Hsplit, length_take. lia.
Qed.

(** ** Canonical policy chunks *)

Lemma call_run {W A} (c : M W A) (ev : res A -> event) (st : state W) r w :
  c (world st) = (r, w) ->
  call c ev st = (r, mkState w (trace st ++ [ev r])).
Proof. intros Hc. unfold call. by rewrite Hc. Qed.

(** C5: when policy-by-id returns the mapping [resolved] (it is only
    asked when there is a chunk to resolve), the resolved list has the
    length of the retrieved list, and its i-th element is the mapping's
    chunk for the i-th retrieved id when there is one and the i-th
    retrieved chunk itself otherwise. *)
Theorem resolve_policy_chunks_spec {W} (self : LoanRiskAssistant W)
    (policy_chunks : list PolicyChunk.t) (st : state W)
    (resolved : list (string * PolicyChunk.t)) (w' : W) :
  (policy_chunks <> [] ->
   get_policy_by_id self (PolicyChunk.chunk_id <$> policy_chunks) (world st)
     = (Ok resolved, w')) ->
  exists output st',
    _resolve_policy_chunks self policy_chunks st = (Ok output, st') /\
    length output = length policy_chunks /\
    forall i chunk,
      policy_chunks !! i = Some chunk ->
      output !! i =
        Some (match dict_get resolved (PolicyChunk.chunk_id chunk) with
              | Some canonical => canonical
              | None => chunk
              end).
Proof.
  intros Hcall. destruct policy_chunks as [|c0 rest] eqn:Hchunks.
  - exists [], st. split; [done|]. split; [done|]. intros i chunk Hi. by destruct i.
  - rewrite <- Hchunks in *.
    assert (Hne : policy_chunks <> []) by (by rewrite Hchunks).
    specialize (Hcall Hne).
    eexists _, _. split; [|split].
    + rewrite Hchunks at 1. cbn [_resolve_policy_chunks]. rewrite <- Hchunks.
      unfold bind. erewrite call_run by exact Hcall. reflexivity.
    + by rewrite length_fmap.
    + intros i chunk Hi. rewrite list_lookup_fmap, Hi. done.
Qed.

(** ** Reasons *)

Section Reasons.
Context `{Builtins}.

Lemma feature_reason_source lookup reason :
  source_field (feature_reason lookup reason) "type" = Some (VStr "feature") /\
  source_field (feature_reason lookup reason) "id_or_code"
    = Some (VStr (ReasonCode.code reason)).
Proof. done. Qed.

Lemma policy_reason_source chunk :
  source_field (policy_reason chunk) "type" = Some (VStr "policy") /\
  source_field (policy_reason chunk) "id_or_code"
    = Some (VStr (PolicyChunk.chunk_id chunk)).
Proof. done. Qed.

(** C6: the reasons list is the first 8 elements of the feature
    entries (one per reason code, in order, of source type "feature")
    followed by the policy entries (one per chunk with a "guidance"
    key, in order, of source type "policy"); it has at most 8 entries
    and a feature entry never comes after a policy entry. *)
Theorem build_reasons_spec (risk_result : RiskScoreResult.t)
    (policy_chunks : list PolicyChunk.t) :
  let feature_entries :=
    feature_reason (feature_lookup (RiskScoreResult.features risk_result))
      <$> RiskScoreResult.reason_codes risk_result in
  let guided :=
    filter (fun chunk => dict_mem (PolicyChunk.metadata chunk) "guidance" = true)
      policy_chunks in
  let policy_entries := policy_reason <$> guided in
  let reasons := _build_reasons risk_result policy_chunks in
  reasons = take 8 (feature_entries ++ policy_entries) /\
  (length reasons <= 8)%nat /\
  (fun r => (source_field r "type", source_field r "id_or_code")) <$> feature_entries
    = (fun code => (Some (VStr "feature"), Some (VStr (ReasonCode.code code))))
        <$> RiskScoreResult.reason_codes risk_result /\
  (fun r => (source_field r "type", source_field r "id_or_code")) <$> policy_entries
    = (fun chunk => (Some (VStr "policy"), Some (VStr (PolicyChunk.chunk_id chunk))))
        <$> guided /\
  forall i j ri rj,
    reasons !! i = Some ri -> reasons !! j = Some rj ->
    source_field ri "type" = Some (VStr "policy") ->
    source_field rj "type" = Some (VStr "feature") ->
    (j < i)%nat.
Proof.
  intros feature_entries guided policy_entries reasons.
  assert (Hreasons : reasons = take 8 (feature_entries ++ policy_entries)).
  { unfold reasons, _build_reasons. by rewrite slice_to_nonneg by lia. }
  split; [done|]. split; [rewrite Hreasons, length_take; lia|].
  split; [|split].
  - unfold feature_entries. rewrite <- list_fmap_compose.
    by apply list_fmap_ext.
  - unfold policy_entries. rewrite <- list_fmap_compose.
    by apply list_fmap_ext.
  - intros i j ri rj Hi Hj Hpol Hfeat. rewrite Hreasons in Hi, Hj.
    apply lookup_take_Some in Hi as [Hi _], Hj as [Hj _].
    destruct (decide (i < length feature_entries)%nat) as [Hlt|Hge].
    + rewrite lookup_app_l in Hi by done.
      unfold feature_entries in Hi.
      apply list_lookup_fmap_Some in Hi as (reason & -> & _).
      by destruct (feature_reason_source
                     (feature_lookup (RiskScoreResult.features risk_result)) reason)
        as [Ht _]; rewrite Ht in Hpol.
    + destruct (decide (j < length feature_entries)%nat) as [Hlt'|Hge']; [lia|].
      rewrite lookup_app_r in Hj by lia.
      unfold policy_entries in Hj.
      apply list_lookup_fmap_Some in Hj as (chunk & -> & _).
      by destruct (policy_reason_source chunk) as [Ht _]; rewrite Ht in Hfeat.
Qed.
End Reasons.

(** ** Requested documents *)

Lemma py_sorted_Sorted (documents : gset string) :
  Sorted String.le (py_sorted documents).
Proof. unfold py_sorted. apply (Sorted_merge_sort String.le). Qed.

Lemma py_sorted_NoDup (documents : gset string) :
  NoDup (py_sorted documents).
Proof.
  unfold py_sorted. rewrite merge_sort_Permutation. apply NoDup_elements.
Qed.

Lemma py_sorted_elem_of (documents : gset string) (document : string) :
  document ∈ py_sorted documents <-> document ∈ documents.
Proof.
  unfold py_sorted. rewrite merge_sort_Permutation. apply elem_of_elements.
Qed.

Lemma StronglySorted_lookup_lt {A} (R : relation A) (l : list A) i j a b :
  StronglySorted R l -> l !! i = Some a -> l !! j = Some b -> (i < j)%nat -> R a b.
Proof.
  intros Hs. revert i j. induction Hs as [|x l Hs IH Hall]; intros i j Hi Hj Hij.
  - by rewrite lookup_nil in Hi.
  - destruct j as [|j]; [lia|]. destruct i as [|i]; simplify_eq/=.
    + eapply Forall_lookup_1 in Hall; eauto.
    + eapply IH; eauto. lia.
Qed.

Section RequestedDocuments.
Context `{Builtins}.

Lemma determine_requested_documents_sorted application risk_result policy_chunks
    requested_documents :
  _determine_requested_documents application risk_result policy_chunks
    = Ok requested_documents ->
  exists documents : gset string, requested_documents = py_sorted documents.
Proof.
  unfold _determine_requested_documents.
  match goal with
  | |- context [foldl ?f ?a ?l] => destruct (foldl f a l) as [documents|e]
  end; [|done].
  intros [= <-]. by exists documents.
Qed.

Lemma add_required_documents_Ok (documents : gset string) (chunk : PolicyChunk.t) :
  documents_well_typed chunk ->
  exists documents', add_required_documents documents chunk = Ok documents'.
Proof.
  intros [l Hl]. unfold add_required_documents. rewrite Hl. cbn [py_iter].
  clear Hl.
  revert documents. induction l as [|s l IH]; intros documents.
  - by exists documents.
  - exact (IH ({[s]} ∪ documents)).
Qed.

Lemma determine_requested_documents_Ok application risk_result policy_chunks :
  Forall documents_well_typed policy_chunks ->
  exists requested_documents,
    _determine_requested_documents application risk_result policy_chunks
      = Ok requested_documents.
Proof.
  intros Hall. unfold _determine_requested_documents.
  match goal with
  | |- context [foldl ?f (Ok ?d) policy_chunks] =>
      generalize d; intros documents;
      assert (exists documents', foldl f (Ok documents) policy_chunks = Ok documents')
        as [documents' ->]; [|by eexists]
  end.
  revert documents. induction Hall as [|chunk chunks Hchunk _ IH]; intros documents.
  - by exists documents.
  - cbn [foldl].
    destruct (add_required_documents_Ok documents chunk Hchunk) as [documents' ->].
    exact (IH documents').
Qed.

(** C2: on chunks whose "required_documents" are lists of strings the
    requested-documents list is always produced; and whenever it is
    produced, whatever the triggers, it is in ascending order of the
    strings and no string occurs twice in it. *)
Theorem requested_documents_sorted_nodup (application : LoanApplication.t)
    (risk_result : RiskScoreResult.t) (policy_chunks : list PolicyChunk.t) :
  (Forall documents_well_typed policy_chunks ->
   exists requested_documents,
     _determine_requested_documents application risk_result policy_chunks
       = Ok requested_documents) /\
  forall requested_documents,
    _determine_requested_documents application risk_result policy_chunks
      = Ok requested_documents ->
    StronglySorted String.le requested_documents /\
    NoDup requested_documents /\
    forall i j a b,
      requested_documents !! i = Some a -> requested_documents !! j = Some b ->
      (i < j)%nat -> String.ltb a b = true.
Proof.
  split; [apply determine_requested_documents_Ok|].
  intros requested_documents (documents & ->)%determine_requested_documents_sorted.
  assert (Hs : StronglySorted String.le (py_sorted documents)).
  { apply Sorted_StronglySorted; [apply _|apply py_sorted_Sorted]. }
  pose proof (py_sorted_NoDup documents) as Hnd.
  split; [done|]. split; [done|].
  intros i j a b Hi Hj Hij.
  assert (Hle : String.le a b).
  { eapply (StronglySorted_lookup_lt String.le); eauto. }
  assert (Hne : a <> b).
  { intros ->. eapply NoDup_lookup in Hnd; [|exact Hi|exact Hj]. lia. }
  unfold String.le in Hle. unfold String.leb in Hle. unfold String.ltb.
  destruct (String.compare a b) eqn:Hc; [|done|done].
  by apply String.compare_eq_iff in Hc.
Qed.
End RequestedDocuments.

(** ** Runs of the call monad *)

Section Runs.
Context {S : Type}.

Lemma bind_inv {A B} (c : M S A) (k : A -> M S B) st r st' :
  bind c k st = (r, st') ->
  (exists a st1, c st = (Ok a, st1) /\ k a st1 = (r, st')) \/
  (exists e, c st = (Raise e, st') /\ r = Raise e).
Proof.
  unfold bind. destruct (c st) as [[a|e] st1]; intros Hrun.
  - left. by exists a, st1.
  - right. exists e. by simplify_eq.
Qed.

Lemma bind_Ok_inv {A B} (c : M S A) (k : A -> M S B) st b st' :
  bind c k st = (Ok b, st') ->
  exists a st1, c st = (Ok a, st1) /\ k a st1 = (Ok b, st').
Proof.
  intros [Hok|(e & _ & ?)]%bind_inv; [done|discriminate].
Qed.

Lemma ret_inv {A} (a : A) (st : S) r st' :
  ret a st = (r, st') -> r = Ok a /\ st' = st.
Proof. by intros [= <- <-]. Qed.

Lemma lift_res_inv {A} (r0 : res A) (st : S) r st' :
  lift_res r0 st = (r, st') -> r0 = r /\ st' = st.
Proof. by intros [= <- <-]. Qed.
End Runs.

Lemma call_inv {W A} (c : M W A) (ev : res A -> event) (st : state W) r st' :
  call c ev st = (r, st') ->
  exists w, c (world st) = (r, w) /\ st' = mkState w (trace st ++ [ev r]).
Proof.
  unfold call. destruct (c (world st)) as [r0 w] eqn:Hc.
  intros [= <- <-]. by exists w.
Qed.

Lemma events_since_app {W} (st st' : state W) (new : list event) :
  trace st' = trace st ++ new -> events_since st st' = new.
Proof. unfold events_since. intros ->. by rewrite drop_app_length. Qed.

Lemma log_calls_app (tr1 tr2 : list event) :
  log_calls (tr1 ++ tr2) = log_calls tr1 ++ log_calls tr2.
Proof.
  induction tr1 as [|ev tr1 IH]; [done|].
  destruct ev; simpl; by rewrite ?IH.
Qed.

Lemma fmap_VStr_inj (l1 l2 : list string) :
  VStr <$> l1 = VStr <$> l2 -> l1 = l2.
Proof.
  revert l2. induction l1 as [|s l1 IH]; intros [|s2 l2] Heq; simplify_eq/=;
    [done|]. f_equal. by apply IH.
Qed.

Lemma requested_lists_app (tr1 tr2 : list event) :
  requested_lists (tr1 ++ tr2) = requested_lists tr1 ++ requested_lists tr2.
Proof. apply omap_app. Qed.

(** One step of inverting a run that returned. *)
Ltac inv_run_step :=
  match goal with
  | H : bind _ _ _ = (Ok _, _) |- _ =>
      apply bind_Ok_inv in H as (? & ? & ? & H); cbv beta zeta in H
  | H : call _ _ _ = (_, _) |- _ =>
      apply call_inv in H as (? & H & ->)
  | H : ret _ _ = (_, _) |- _ =>
      apply ret_inv in H as [? ?]; simplify_eq
  | H : lift_res _ _ = (_, _) |- _ =>
      apply lift_res_inv in H as [? ?]; simplify_eq
  end.

Section AssessRuns.
Context `{Builtins} {W : Type}.
Implicit Types (self : LoanRiskAssistant W) (st : state W).

(** The canonicalisation step asks policy-by-id at most once and calls
    nothing else. *)
Lemma resolve_policy_chunks_trace self policy_chunks st r st' :
  _resolve_policy_chunks self policy_chunks st = (r, st') ->
  (policy_chunks = [] /\ r = Ok [] /\ st' = st) \/
  (policy_chunks <> [] /\
   exists r0 w,
     get_policy_by_id self (PolicyChunk.chunk_id <$> policy_chunks) (world st)
       = (r0, w) /\
     st' = mkState w
             (trace st ++ [EvGetPolicy (PolicyChunk.chunk_id <$> policy_chunks) r0])).
Proof.
  destruct policy_chunks as [|c0 rest] eqn:Hchunks; intros Hrun.
  - left. apply ret_inv in Hrun as [-> ->]. done.
  - right. split; [done|]. rewrite <- Hchunks in *.
    rewrite Hchunks in Hrun at 1. cbn [_resolve_policy_chunks] in Hrun.
    rewrite <- Hchunks in Hrun.
    apply bind_inv in Hrun as [(a & st1 & Hc & Hk)|(e & Hc & ->)].
    + apply call_inv in Hc as (w & Hc & ->). apply ret_inv in Hk as [_ ->].
      eauto.
    + apply call_inv in Hc as (w & Hc & ->). eauto.
Qed.

(** The band step asks the resolver at most once and calls nothing
    else. *)
Lemma determine_interest_band_trace self risk_tier policy_chunks st r st' :
  _determine_interest_band self risk_tier policy_chunks st = (r, st') ->
  trace st' = trace st \/
  exists r0, trace st' = trace st ++ [EvResolveBand policy_chunks risk_tier r0].
Proof.
  unfold _determine_interest_band. intros Hrun.
  destruct (interest_policy_resolver self) as [resolver|].
  - right.
    apply bind_inv in Hrun as [(band & st1 & Hc & Hk)|(e & Hc & ->)];
      apply call_inv in Hc as (w & Hc & ->).
    + destruct band; [apply ret_inv in Hk as [_ ->]
                     |apply lift_res_inv in Hk as [_ ->]]; eauto.
    + eauto.
  - left.
    apply bind_inv in Hrun as [(band & st1 & Hc & Hk)|(e & Hc & ->)].
    + apply ret_inv in Hc as [[= ->] ->].
      by apply lift_res_inv in Hk as [_ ->].
    + by apply ret_inv in Hc as [? _].
Qed.

(** What a run of [assess] that returns has gone through. *)
Lemma assess_Ok_inv self application st response st' :
  assess self application st = (Ok response, st') ->
  exists p1 rec1 policy_chunks p2 rec2 risk_result p3 rec3 st3
         resolved st4 requested_documents st5 docs_ids
         interest_band st6 data user_packet p5 rec5 suggestion,
    trace st3 = trace st ++
      [EvLog "problem_received" p1 (Ok rec1);
       EvRetrieve (_build_policy_query application) (policy_top_k self)
         (Ok policy_chunks);
       EvLog "retrieval_done" p2 (Ok rec2);
       EvScore (_build_risk_payload application) (Ok risk_result);
       EvLog "risk_scored" p3 (Ok rec3)] /\
    _resolve_policy_chunks self policy_chunks st3 = (Ok resolved, st4) /\
    _determine_requested_documents application risk_result resolved
      = Ok requested_documents /\
    ((requested_documents = [] /\ st5 = st4 /\ docs_ids = []) \/
     (requested_documents <> [] /\
      exists docs_response p4 rec4,
        trace st5 = trace st4 ++
          [EvRequestDocs requested_documents (Ok docs_response);
           EvLog "docs_requested" p4 (Ok rec4)] /\
        dict_get p4 "requested_documents"
          = Some (VList (VStr <$> requested_documents)) /\
        dict_get p4 "tool_response_id"
          = Some (opt_str (tool_response_id_of docs_response)) /\
        docs_ids = [GovernanceLogRecord.log_id rec4])) /\
    _determine_interest_band self
      (_tier_from_score (RiskScoreResult.score risk_result)) resolved st5
      = (Ok interest_band, st6) /\
    trace st' = trace st6 ++
      [EvCompose data (Ok user_packet); EvLog "packet_composed" p5 (Ok rec5)] /\
    dict_get data "interest_band"
      = Some (match interest_band with
              | Some b => VDict (asdict_band b)
              | None => VNone
              end) /\
    interest_rate_suggestion interest_band = Ok suggestion /\
    response =
      [("application_id", VStr (LoanApplication.application_id application));
       ("risk_score",
        VDict [("value", VFloat (RiskScoreResult.score risk_result));
               ("scale", VStr "0-100");
               ("tier", VStr (_tier_from_score (RiskScoreResult.score risk_result)))]);
       ("reasons", VList (VDict <$> _build_reasons risk_result resolved));
       ("policy_citations", VList (VDict <$> _build_policy_citations resolved));
       ("requested_documents", VList (VStr <$> requested_documents));
       ("interest_rate_suggestion", suggestion);
       ("compliance",
        VDict [("region", VStr (LoanApplication.region application));
               ("product", VStr (LoanApplication.product application));
               ("policy_gap",
                VBool (match interest_band with None => true | Some _ => false end))]);
       ("governance_log_ids",
        VList (VStr <$> ([GovernanceLogRecord.log_id rec1;
                          GovernanceLogRecord.log_id rec2;
                          GovernanceLogRecord.log_id rec3]
                         ++ docs_ids ++ [GovernanceLogRecord.log_id rec5])));
       ("user_packet", user_packet)].
Proof.
  unfold assess, _log. intros Hrun.
  do 7 inv_run_step.
  match goal with
  | H : bind (match ?docs with _ => _ end) _ _ = _ |- _ =>
      apply bind_Ok_inv in H as (ids & st5 & Hdocs & H); cbv beta zeta in H
  end.
  repeat inv_run_step.
  match goal with
  | H : match ?docs with _ => _ end _ = _ |- _ =>
      destruct docs as [|document documents] eqn:Hdocs_eq
  end.
  all: repeat inv_run_step.
  all: cbn [trace world] in *.
  all: match goal with
  | Hr : _resolve_policy_chunks _ _ _ = _,
    Hd : _determine_requested_documents _ _ _ = _,
    Hb : _determine_interest_band _ _ _ _ = _,
    Hs : interest_rate_suggestion _ = _ |- _ =>
      do 21 eexists; split_and!;
      [ 
      | exact Hr | exact Hd | | exact Hb
      | 
      | 
      | exact Hs | ]
  end.
  - cbn [trace]; rewrite <- !app_assoc. reflexivity.
  - by left.
  - rewrite <- !app_assoc. reflexivity.
  - reflexivity.
  - reflexivity.
  - cbn [trace]; rewrite <- !app_assoc. reflexivity.
  - right. split; [done|]. do 3 eexists. split_and!.
    + cbn [trace]. rewrite <- !app_assoc. reflexivity.
    + reflexivity.
    + reflexivity.
    + reflexivity.
  - rewrite <- !app_assoc. reflexivity.
  - reflexivity.
  - reflexivity.
Qed.

(** The events of a run of [assess] that returns: the five opening
    calls, then what the canonicalisation, the document request and
    the band step added, then the two closing calls. *)
Lemma assess_Ok_events self application st response st' :
  assess self application st = (Ok response, st') ->
  exists p1 rec1 policy_chunks p2 rec2 risk_result p3 rec3
         resolve_events requested_documents docs_events docs_ids
         band_events data user_packet p5 rec5,
    events_since st st' =
      [EvLog "problem_received" p1 (Ok rec1);
       EvRetrieve (_build_policy_query application) (policy_top_k self)
         (Ok policy_chunks);
       EvLog "retrieval_done" p2 (Ok rec2);
       EvScore (_build_risk_payload application) (Ok risk_result);
       EvLog "risk_scored" p3 (Ok rec3)]
      ++ resolve_events ++ docs_events ++ band_events
      ++ [EvCompose data (Ok user_packet);
          EvLog "packet_composed" p5 (Ok rec5)] /\
    (policy_chunks = [] /\ resolve_events = [] \/
     policy_chunks <> [] /\
     exists r, resolve_events
               = [EvGetPolicy (PolicyChunk.chunk_id <$> policy_chunks) r]) /\
    (requested_documents = [] /\ docs_events = [] /\ docs_ids = [] \/
     requested_documents <> [] /\
     exists docs_response p4 rec4,
       docs_events = [EvRequestDocs requested_documents (Ok docs_response);
                      EvLog "docs_requested" p4 (Ok rec4)] /\
       dict_get p4 "requested_documents"
         = Some (VList (VStr <$> requested_documents)) /\
       dict_get p4 "tool_response_id"
         = Some (opt_str (tool_response_id_of docs_response)) /\
       docs_ids = [GovernanceLogRecord.log_id rec4]) /\
    (band_events = [] \/ exists chunks tier r, band_events = [EvResolveBand chunks tier r]) /\
    Sorted String.le requested_documents /\
    (policy_chunks = [] ->
     dict_get response "policy_citations" = Some (VList [])) /\
    dict_get response "requested_documents"
      = Some (VList (VStr <$> requested_documents)) /\
    dict_get response "governance_log_ids"
      = Some (VList (VStr <$> ([GovernanceLogRecord.log_id rec1;
                                GovernanceLogRecord.log_id rec2;
                                GovernanceLogRecord.log_id rec3]
                               ++ docs_ids ++ [GovernanceLogRecord.log_id rec5]))).
Proof.
  intros Hrun. apply assess_Ok_inv in Hrun
    as (p1 & rec1 & policy_chunks & p2 & rec2 & risk_result & p3 & rec3 & st3
        & resolved & st4 & requested_documents & st5 & docs_ids
        & interest_band & st6 & data & user_packet & p5 & rec5 & suggestion
        & Ht3 & Hres & Hdocs & Hstep & Hband & Ht' & _ & _ & ->).
  assert (policy_chunks = [] -> resolved = []) as Hempty.
  { intros ->. by apply ret_inv in Hres as [[= <-] _]. }
  assert (exists resolve_events,
             trace st4 = trace st3 ++ resolve_events /\
             (policy_chunks = [] /\ resolve_events = [] \/
              policy_chunks <> [] /\
              exists r, resolve_events
                        = [EvGetPolicy (PolicyChunk.chunk_id <$> policy_chunks) r]))
    as (resolve_events & Ht4 & Hresolve).
  { apply resolve_policy_chunks_trace in Hres
      as [(-> & _ & ->)|(Hne & r0 & w & _ & ->)].
    - exists []. rewrite app_nil_r. auto.
    - eexists. split; [reflexivity|]. right. eauto. }
  assert (exists docs_events,
             trace st5 = trace st4 ++ docs_events /\
             (requested_documents = [] /\ docs_events = [] /\ docs_ids = [] \/
              requested_documents <> [] /\
              exists docs_response p4 rec4,
                docs_events = [EvRequestDocs requested_documents (Ok docs_response);
                               EvLog "docs_requested" p4 (Ok rec4)] /\
                dict_get p4 "requested_documents"
                  = Some (VList (VStr <$> requested_documents)) /\
                dict_get p4 "tool_response_id"
                  = Some (opt_str (tool_response_id_of docs_response)) /\
                docs_ids = [GovernanceLogRecord.log_id rec4]))
    as (docs_events & Ht5 & Hdocs_events).
  { destruct Hstep as [(-> & -> & ->)|(Hne & docs_response & p4 & rec4 & Ht5 & ?)].
    - exists []. rewrite app_nil_r. auto.
    - eexists. split; [exact Ht5|]. right. split; [done|]. eauto. }
  assert (exists band_events,
             trace st6 = trace st5 ++ band_events /\
             (band_events = [] \/
              exists chunks tier r, band_events = [EvResolveBand chunks tier r]))
    as (band_events & Ht6 & Hband_events).
  { apply determine_interest_band_trace in Hband as [Ht6|(r0 & Ht6)].
    - exists []. rewrite app_nil_r. auto.
    - eexists. split; [exact Ht6|]. right. eauto. }
  exists p1, rec1, policy_chunks, p2, rec2, risk_result, p3, rec3,
    resolve_events, requested_documents, docs_events, docs_ids,
    band_events, data, user_packet, p5, rec5.
  split_and!; try done.
  - apply events_since_app. rewrite Ht', Ht6, Ht5, Ht4, Ht3.
    by rewrite <- !app_assoc.
  - apply determine_requested_documents_sorted in Hdocs as (documents & ->).
    apply py_sorted_Sorted.
  - intros Hnil. by rewrite (Hempty Hnil).
Qed.

Lemma resolve_policy_chunks_Ok_inv self policy_chunks st resolved st' :
  _resolve_policy_chunks self policy_chunks st = (Ok resolved, st') ->
  (policy_chunks = [] /\ resolved = [] /\ st' = st) \/
  (policy_chunks <> [] /\
   exists mapping,
     trace st' = trace st
                 ++ [EvGetPolicy (PolicyChunk.chunk_id <$> policy_chunks) (Ok mapping)] /\
     resolved = (fun chunk =>
                   dict_get_default mapping (PolicyChunk.chunk_id chunk) chunk)
                  <$> policy_chunks).
Proof.
  destruct policy_chunks as [|c0 rest] eqn:Hchunks; intros Hrun.
  - left. by apply ret_inv in Hrun as [[= ->] ->].
  - right. split; [done|]. rewrite <- Hchunks in *.
    rewrite Hchunks in Hrun at 1. cbn [_resolve_policy_chunks] in Hrun.
    rewrite <- Hchunks in Hrun.
    apply bind_Ok_inv in Hrun as (mapping & st1 & Hc & Hk).
    apply call_inv in Hc as (w & Hc & ->). apply ret_inv in Hk as [[= ->] ->].
    by exists mapping.
Qed.

Lemma determine_interest_band_Ok_inv self risk_tier policy_chunks st interest_band st' :
  _determine_interest_band self risk_tier policy_chunks st = (Ok interest_band, st') ->
  match interest_policy_resolver self with
  | None => trace st' = trace st /\ band_from_chunks policy_chunks = Ok interest_band
  | Some _ =>
      exists b0,
        trace st' = trace st ++ [EvResolveBand policy_chunks risk_tier (Ok b0)] /\
        match b0 with
        | Some b => interest_band = Some b
        | None => band_from_chunks policy_chunks = Ok interest_band
        end
  end.
Proof.
  unfold _determine_interest_band. intros Hrun.
  destruct (interest_policy_resolver self) as [resolver|].
  - apply bind_Ok_inv in Hrun as (b0 & st1 & Hc & Hk).
    apply call_inv in Hc as (w & Hc & ->). exists b0.
    destruct b0 as [b|].
    + by apply ret_inv in Hk as [[= ->] ->].
    + by apply lift_res_inv in Hk as [Hk ->].
  - apply bind_Ok_inv in Hrun as (b0 & st1 & Hc & Hk).
    apply ret_inv in Hc as [[= ->] ->].
    by apply lift_res_inv in Hk as [Hk ->].
Qed.


(** What a run of [assess] that returns has done, step by step: the
    events it added, the chunks it worked on, and the response. *)
Lemma assess_Ok_trace self application st response st' :
  assess self application st = (Ok response, st') ->
  exists p1 rec1 retrieved p2 rec2 risk_result p3 rec3
         resolve_events resolved requested_documents docs_events docs_ids
         band_events interest_band data user_packet p5 rec5 suggestion,
    events_since st st'
      = [EvLog "problem_received" p1 (Ok rec1);
         EvRetrieve (_build_policy_query application) (policy_top_k self)
           (Ok retrieved);
         EvLog "retrieval_done" p2 (Ok rec2);
         EvScore (_build_risk_payload application) (Ok risk_result);
         EvLog "risk_scored" p3 (Ok rec3)]
        ++ resolve_events ++ docs_events ++ band_events
        ++ [EvCompose data (Ok user_packet);
            EvLog "packet_composed" p5 (Ok rec5)] /\
    match retrieved with
    | [] => resolve_events = [] /\ resolved = []
    | _ =>
        exists mapping,
          resolve_events
            = [EvGetPolicy (PolicyChunk.chunk_id <$> retrieved) (Ok mapping)] /\
          resolved = (fun chunk =>
                        dict_get_default mapping (PolicyChunk.chunk_id chunk) chunk)
                       <$> retrieved
    end /\
    _determine_requested_documents application risk_result resolved
      = Ok requested_documents /\
    (requested_documents = [] /\ docs_events = [] /\ docs_ids = [] \/
     requested_documents <> [] /\
     exists docs_response p4 rec4,
       docs_events = [EvRequestDocs requested_documents (Ok docs_response);
                      EvLog "docs_requested" p4 (Ok rec4)] /\
       dict_get p4 "requested_documents"
         = Some (VList (VStr <$> requested_documents)) /\
       dict_get p4 "tool_response_id"
         = Some (opt_str (tool_response_id_of docs_response)) /\
       docs_ids = [GovernanceLogRecord.log_id rec4]) /\
    match interest_policy_resolver self with
    | None => band_events = [] /\ band_from_chunks resolved = Ok interest_band
    | Some _ =>
        exists b0,
          band_events
            = [EvResolveBand resolved
                 (_tier_from_score (RiskScoreResult.score risk_result)) (Ok b0)] /\
          match b0 with
          | Some b => interest_band = Some b
          | None => band_from_chunks resolved = Ok interest_band
          end
    end /\
    interest_rate_suggestion interest_band = Ok suggestion /\
    response =
      [("application_id", VStr (LoanApplication.application_id application));
       ("risk_score",
        VDict [("value", VFloat (RiskScoreResult.score risk_result));
               ("scale", VStr "0-100");
               ("tier", VStr (_tier_from_score (RiskScoreResult.score risk_result)))]);
       ("reasons", VList (VDict <$> _build_reasons risk_result resolved));
       ("policy_citations", VList (VDict <$> _build_policy_citations resolved));
       ("requested_documents", VList (VStr <$> requested_documents));
       ("interest_rate_suggestion", suggestion);
       ("compliance",
        VDict [("region", VStr (LoanApplication.region application));
               ("product", VStr (LoanApplication.product application));
               ("policy_gap",
                VBool (match interest_band with None => true | Some _ => false end))]);
       ("governance_log_ids",
        VList (VStr <$> ([GovernanceLogRecord.log_id rec1;
                          GovernanceLogRecord.log_id rec2;
                          GovernanceLogRecord.log_id rec3]
                         ++ docs_ids ++ [GovernanceLogRecord.log_id rec5])));
       ("user_packet", user_packet)].
Proof.
  intros Hrun.
  apply assess_Ok_inv in Hrun
    as (p1 & rec1 & retrieved & p2 & rec2 & risk_result & p3 & rec3 & st3
        & resolved & st4 & requested_documents & st5 & docs_ids
        & interest_band & st6 & data & user_packet & p5 & rec5 & suggestion
        & Ht3 & Hres & Hdocs & Hstep & Hband & Ht' & _ & Hsuggestion & ->).
  assert (exists docs_events,
             trace st5 = trace st4 ++ docs_events /\
             (requested_documents = [] /\ docs_events = [] /\ docs_ids = [] \/
              requested_documents <> [] /\
              exists docs_response p4 rec4,
                docs_events = [EvRequestDocs requested_documents (Ok docs_response);
                               EvLog "docs_requested" p4 (Ok rec4)] /\
                dict_get p4 "requested_documents"
                  = Some (VList (VStr <$> requested_documents)) /\
                dict_get p4 "tool_response_id"
                  = Some (opt_str (tool_response_id_of docs_response)) /\
                docs_ids = [GovernanceLogRecord.log_id rec4]))
    as (docs_events & Ht5 & Hdocs_events).
  { destruct Hstep as [(-> & -> & ->)|(Hne & docs_response & p4 & rec4 & Ht5 & ?)].
    - exists []. rewrite app_nil_r. auto.
    - eexists. split; [exact Ht5|]. right. split; [done|]. eauto. }
  assert (exists resolve_events,
             trace st4 = trace st3 ++ resolve_events /\
             match retrieved with
             | [] => resolve_events = [] /\ resolved = []
             | _ =>
                 exists mapping,
                   resolve_events
                     = [EvGetPolicy (PolicyChunk.chunk_id <$> retrieved) (Ok mapping)] /\
                   resolved = (fun chunk =>
                                 dict_get_default mapping
                                   (PolicyChunk.chunk_id chunk) chunk)
                                <$> retrieved
             end)
    as (resolve_events & Ht4 & Hresolve).
  { apply resolve_policy_chunks_Ok_inv in Hres
      as [(-> & -> & ->)|(Hne & mapping & Ht4 & ->)].
    - exists []. by rewrite app_nil_r.
    - eexists. split; [exact Ht4|]. destruct retrieved; [done|]. by exists mapping. }
  assert (exists band_events,
             trace st6 = trace st5 ++ band_events /\
             match interest_policy_resolver self with
             | None =>
                 band_events = [] /\ band_from_chunks resolved = Ok interest_band
             | Some _ =>
                 exists b0,
                   band_events
                     = [EvResolveBand resolved
                          (_tier_from_score (RiskScoreResult.score risk_result))
                          (Ok b0)] /\
                   match b0 with
                   | Some b => interest_band = Some b
                   | None => band_from_chunks resolved = Ok interest_band
                   end
             end)
    as (band_events & Ht6 & Hband_events).
  { apply determine_interest_band_Ok_inv in Hband.
    destruct (interest_policy_resolver self).
    - destruct Hband as (b0 & Ht6 & Hb0). eexists. split; [exact Ht6|].
      by exists b0.
    - destruct Hband as (Ht6 & Hb0). exists []. by rewrite app_nil_r. }
  exists p1, rec1, retrieved, p2, rec2, risk_result, p3, rec3,
    resolve_events, resolved, requested_documents, docs_events, docs_ids,
    band_events, interest_band, data, user_packet, p5, rec5, suggestion.
  split.
  { apply events_since_app. rewrite Ht', Ht6, Ht5, Ht4, Ht3.
    rewrite <- !app_assoc. reflexivity. }
  split; [exact Hresolve|]. split; [exact Hdocs|]. split; [exact Hdocs_events|].
  split; [exact Hband_events|]. split; [exact Hsuggestion|reflexivity].
Qed.
(** C4: in a run of [assess] that returns, the governance logger is
    called for problem_received, retrieval_done, risk_scored, then
    docs_requested when documents were requested, then packet_composed,
    in this order; governance_log_ids holds the log ids of the records
    these calls returned, in call order, so 4 of them without requested
    documents and 5 with. *)
Theorem governance_log_ids_spec self application st response st' :
  assess self application st = (Ok response, st') ->
  exists records requested_documents,
    log_calls (events_since st st')
      = zip (["problem_received"; "retrieval_done"; "risk_scored"]
             ++ match requested_documents with
                | [] => []
                | _ => ["docs_requested"]
                end
             ++ ["packet_composed"]) (Ok <$> records) /\
    dict_get response "governance_log_ids"
      = Some (VList (VStr <$> (GovernanceLogRecord.log_id <$> records))) /\
    dict_get response "requested_documents"
      = Some (VList (VStr <$> requested_documents)) /\
    length records = match requested_documents with [] => 4 | _ => 5 end%nat.
Proof.
  intros (p1 & rec1 & policy_chunks & p2 & rec2 & risk_result & p3 & rec3
          & resolve_events & requested_documents & docs_events & docs_ids
          & band_events & data & user_packet & p5 & rec5
          & -> & Hresolve & Hdocs & Hband & _ & _ & Hrd & Hids)%assess_Ok_events.
  assert (log_calls resolve_events = []) as Hl1.
  { by destruct Hresolve as [(_ & ->)|(_ & r & ->)]. }
  assert (log_calls band_events = []) as Hl2.
  { by destruct Hband as [->|(chunks & tier & r & ->)]. }
  rewrite !log_calls_app, Hl1, Hl2, Hids, Hrd.
  destruct Hdocs as [(-> & -> & ->)|(Hne & docs_response & p4 & rec4 & -> & _ & _ & ->)].
  - by exists [rec1; rec2; rec3; rec5], [].
  - exists [rec1; rec2; rec3; rec4; rec5], requested_documents.
    by destruct requested_documents.
Qed.

(** The loop over the candidate keys stops at the first key, in the
    order of the list, that the response holds with a truthy value. *)
Lemma first_response_id_spec (docs_response : pydict) (keys : list string) :
  match first_response_id docs_response keys with
  | Some id =>
      exists i key value,
        keys !! i = Some key /\
        dict_get docs_response key = Some value /\
        py_truthy value = true /\
        id = py_str value /\
        forall j key' value',
          (j < i)%nat -> keys !! j = Some key' ->
          dict_get docs_response key' = Some value' ->
          py_truthy value' = false
  | None =>
      forall key value,
        key ∈ keys -> dict_get docs_response key = Some value ->
        py_truthy value = false
  end.
Proof.
  induction keys as [|key keys IH]; cbn [first_response_id].
  - intros key value Hin. by apply elem_of_nil in Hin.
  - unfold dict_get_default.
    destruct (dict_get docs_response key) as [value|] eqn:Hget;
      [destruct (py_truthy value) eqn:Htruthy|].
    + exists 0%nat, key, value. split_and!; try done. intros; lia.
    + destruct (first_response_id docs_response keys) as [id|].
      * destruct IH as (i & key0 & value0 & Hi & Hget0 & Ht0 & -> & Hbefore).
        exists (Datatypes.S i), key0, value0. split_and!; try done.
        intros [|j] key' value' Hj Hkey' Hget'; simplify_eq/=; [done|].
        eapply Hbefore; eauto. lia.
      * intros key0 value0 [->|Hin]%elem_of_cons Hget0; [congruence|eauto].
    + simpl. destruct (first_response_id docs_response keys) as [id|].
      * destruct IH as (i & key0 & value0 & Hi & Hget0 & Ht0 & -> & Hbefore).
        exists (Datatypes.S i), key0, value0. split_and!; try done.
        intros [|j] key' value' Hj Hkey' Hget'; simplify_eq/=.
        eapply Hbefore; eauto. lia.
      * intros key0 value0 [->|Hin]%elem_of_cons Hget0; [congruence|eauto].
Qed.

(** C8: in a run of [assess] that returns, the requested-documents
    list of the response is the one determined from the application,
    the scoring result and the resolved chunks of this run, and it is
    in ascending order. When it is empty, the document requester is not
    called and no docs_requested event is logged. When it is not empty,
    the requester is called, once, with that list, and the next call
    logs docs_requested with that list and, as tool_response_id, the
    string of the first truthy value among the response's request_id,
    id, identifier, response_id, log_id, in this order; it logs None
    when no such value exists or the response is not a dictionary. A
    string is truthy when it is not empty, and its string is itself. *)
Theorem docs_request_spec self application st response st' :
  assess self application st = (Ok response, st') ->
  (exists requested_documents,
     dict_get response "requested_documents"
       = Some (VList (VStr <$> requested_documents)) /\
     StronglySorted String.le requested_documents /\
     (exists retrieved risk_result resolved,
        EvRetrieve (_build_policy_query application) (policy_top_k self)
          (Ok retrieved) ∈ events_since st st' /\
        EvScore (_build_risk_payload application) (Ok risk_result)
          ∈ events_since st st' /\
        match retrieved with
        | [] => resolved = []
        | _ =>
            exists mapping,
              EvGetPolicy (PolicyChunk.chunk_id <$> retrieved) (Ok mapping)
                ∈ events_since st st' /\
              resolved = (fun chunk =>
                            dict_get_default mapping (PolicyChunk.chunk_id chunk) chunk)
                           <$> retrieved
        end /\
        _determine_requested_documents application risk_result resolved
          = Ok requested_documents) /\
     (requested_documents = [] ->
      requested_lists (events_since st st') = [] /\
      forall payload r, EvLog "docs_requested" payload r ∉ events_since st st') /\
     (requested_documents <> [] ->
      exists before after docs_response payload record logged_id,
        events_since st st'
          = before
            ++ [EvRequestDocs requested_documents (Ok docs_response);
                EvLog "docs_requested" payload (Ok record)]
            ++ after /\
        requested_lists (events_since st st') = [requested_documents] /\
        dict_get payload "requested_documents"
          = Some (VList (VStr <$> requested_documents)) /\
        dict_get payload "tool_response_id"
          = Some (match logged_id with
                  | Some id => VStr id
                  | None => VNone
                  end) /\
        match docs_response with
        | VDict d =>
            match logged_id with
            | Some id =>
                exists i key value,
                  ["request_id"; "id"; "identifier"; "response_id"; "log_id"] !! i
                    = Some key /\
                  dict_get d key = Some value /\
                  py_truthy value = true /\
                  id = py_str value /\
                  forall j key' value',
                    (j < i)%nat ->
                    ["request_id"; "id"; "identifier"; "response_id"; "log_id"] !! j
                      = Some key' ->
                    dict_get d key' = Some value' ->
                    py_truthy value' = false
            | None =>
                forall key value,
                  key ∈ ["request_id"; "id"; "identifier"; "response_id"; "log_id"] ->
                  dict_get d key = Some value ->
                  py_truthy value = false
            end
        | _ => logged_id = None
        end)) /\
  (forall s, py_truthy (VStr s) = true <-> s <> "") /\
  (forall s, py_str (VStr s) = s).
Proof.
  intros (p1 & rec1 & retrieved & p2 & rec2 & risk_result & p3 & rec3
          & resolve_events & resolved & requested_documents & docs_events & docs_ids
          & band_events & interest_band & data & user_packet & p5 & rec5 & suggestion
          & Hev & Hresolve & Hdetermine & Hdocs & Hband & _ & ->)%assess_Ok_trace.
  assert (Hquiet_resolve : requested_lists resolve_events = []).
  { destruct retrieved; [by destruct Hresolve as [-> _]|].
    by destruct Hresolve as (mapping & -> & _). }
  assert (Hquiet_band : requested_lists band_events = []).
  { destruct (interest_policy_resolver self).
    - by destruct Hband as (b0 & -> & _).
    - by destruct Hband as [-> _]. }
  split_and!.
  - exists requested_documents. split; [reflexivity|].
    split.
    { apply determine_requested_documents_sorted in Hdetermine as (documents & ->).
      apply Sorted_StronglySorted; [apply _|apply py_sorted_Sorted]. }
    split.
    { exists retrieved, risk_result, resolved. rewrite Hev.
      split; [apply elem_of_app; left; apply list_elem_of_further, list_elem_of_here|].
      split; [apply elem_of_app; left;
              do 3 apply list_elem_of_further; apply list_elem_of_here|].
      split; [|exact Hdetermine].
      destruct retrieved; [by destruct Hresolve as [_ ->]|].
      destruct Hresolve as (mapping & -> & ->). exists mapping. split; [|done].
      apply elem_of_app. right. apply elem_of_app. left. apply list_elem_of_here. }
    split.
    + intros ->. destruct Hdocs as [(_ & -> & _)|(Hne & _)]; [|done].
      rewrite Hev. split.
      * by rewrite !requested_lists_app, Hquiet_resolve, Hquiet_band.
      * intros payload r Hin.
        assert (Hresolve' : resolve_events = []
                            \/ exists ids r0, resolve_events = [EvGetPolicy ids r0]).
        { destruct retrieved; [left; by destruct Hresolve as [-> _]|].
          right. destruct Hresolve as (mapping & -> & _). eauto. }
        assert (Hband' : band_events = []
                         \/ exists chunks tier r1,
                              band_events = [EvResolveBand chunks tier r1]).
        { destruct (interest_policy_resolver self).
          - right. destruct Hband as (b0 & -> & _). eauto.
          - left. by destruct Hband as [-> _]. }
        destruct Hresolve' as [->|(ids & r0 & ->)];
          destruct Hband' as [->|(chunks & tier & r1 & ->)].
        all: repeat (apply elem_of_app in Hin as [Hin|Hin]).
        all: repeat (apply elem_of_cons in Hin as [Hin|Hin]; [discriminate Hin|]).
        all: by apply elem_of_nil in Hin.
    + intros Hne.
      destruct Hdocs as [(-> & _)|(_ & docs_response & p4 & rec4 & -> & Hp4 & Hid & _)];
        [done|].
      exists ([EvLog "problem_received" p1 (Ok rec1);
               EvRetrieve (_build_policy_query application) (policy_top_k self)
                 (Ok retrieved);
               EvLog "retrieval_done" p2 (Ok rec2);
               EvScore (_build_risk_payload application) (Ok risk_result);
               EvLog "risk_scored" p3 (Ok rec3)] ++ resolve_events),
        (band_events ++ [EvCompose data (Ok user_packet);
                         EvLog "packet_composed" p5 (Ok rec5)]),
        docs_response, p4, rec4, (tool_response_id_of docs_response).
      split; [rewrite Hev; rewrite <- !app_assoc; reflexivity|].
      split; [rewrite Hev, !requested_lists_app, Hquiet_resolve, Hquiet_band; done|].
      split; [exact Hp4|].
      split; [rewrite Hid; by destruct (tool_response_id_of docs_response)|].
      destruct docs_response as [| | | | | |d]; try reflexivity.
      apply first_response_id_spec.
  - intros s. simpl. rewrite negb_true_iff. apply String.eqb_neq.
  - done.
Qed.
End AssessRuns.

(** ** Interest band *)

Lemma band_from_chunks_skip (pre rest : list PolicyChunk.t) :
  Forall lacks_band pre -> band_from_chunks (pre ++ rest) = band_from_chunks rest.
Proof.
  induction 1 as [|chunk pre Hlacks _ IH]; [done|].
  cbn [app band_from_chunks]. unfold lacks_band in Hlacks.
  remember (dict_get_default (PolicyChunk.metadata chunk) "interest_band" VNone)
    as v eqn:Hv.
  unfold dict_get_default in Hv.
  destruct (dict_get (PolicyChunk.metadata chunk) "interest_band") as [v'|];
    subst v; [rename v' into v|done].
  destruct (py_truthy v) eqn:Htruthy; cbn [negb]; [|done].
  destruct v as [| | | | | |d]; try congruence.
  destruct Hlacks as [->|[Hmin|Hmax]]; [done| |].
  - by rewrite Hmin.
  - by rewrite Hmax, orb_true_r.
Qed.

Lemma band_from_chunks_found (chunk : PolicyChunk.t) (rest : list PolicyChunk.t)
    (d : pydict) (lo hi : pyval) :
  dict_get (PolicyChunk.metadata chunk) "interest_band" = Some (VDict d) ->
  dict_get d "min_apr" = Some lo -> lo <> VNone ->
  dict_get d "max_apr" = Some hi -> hi <> VNone ->
  band_from_chunks (chunk :: rest) =
    Ok (Some (InterestBand.mk lo hi
                (dict_get_default d "policy_reference"
                   (VStr (PolicyChunk.chunk_id chunk)))
                (dict_get_default d "conditions" (VList [])))).
Proof.
  intros Hband Hlo Hlo_ne Hhi Hhi_ne. cbn [band_from_chunks].
  assert (dict_get_default (PolicyChunk.metadata chunk) "interest_band" VNone
          = VDict d) as -> by (unfold dict_get_default; by rewrite Hband).
  assert (dict_get_default d "min_apr" VNone = lo) as ->
    by (unfold dict_get_default; by rewrite Hlo).
  assert (dict_get_default d "max_apr" VNone = hi) as ->
    by (unfold dict_get_default; by rewrite Hhi).
  destruct d as [|kv d]; [done|]. cbn [py_truthy negb].
  by destruct lo, hi.
Qed.

Lemma band_from_chunks_malformed_here (chunk : PolicyChunk.t) (rest : list PolicyChunk.t) :
  malformed_band chunk -> band_from_chunks (chunk :: rest) = Raise AttributeError.
Proof.
  intros (v & Hv & Htruthy & Hdict). cbn [band_from_chunks].
  assert (dict_get_default (PolicyChunk.metadata chunk) "interest_band" VNone = v)
    as -> by (unfold dict_get_default; by rewrite Hv).
  rewrite Htruthy. cbn [negb].
  destruct v; try done. by destruct (Hdict d).
Qed.

Section InterestBands.
Context `{Builtins} {W : Type}.
Implicit Types (self : LoanRiskAssistant W) (st : state W).

(** C3: a band returned by a configured resolver is the result as it
    is, whatever the chunks hold; without a resolver, or when it
    returns None, the result is that of the loop over the chunks. The
    loop passes over the chunks without a truthy "interest_band" and
    those whose band lacks a bound; the first other chunk decides: an
    "interest_band" that holds both bounds gives them with its
    "policy_reference" (else the chunk id) and its "conditions" (else
    the empty list); one that is not a dictionary makes the step raise
    AttributeError; and when the loop passes over every chunk the
    result is None. In a run of [assess] that returns, the band step
    has worked on the chunks the retriever returned, each replaced by
    its canonical version where policy-by-id gave one, and on the tier
    of the score the scoring service returned; policy_gap is true
    exactly when it found no band, interest_rate_suggestion is then
    None, and otherwise holds the rounded bounds, the reference and the
    conditions of the band. *)
Theorem interest_band_spec self (risk_tier : string)
    (policy_chunks : list PolicyChunk.t) st :
  (forall resolver b w,
     interest_policy_resolver self = Some resolver ->
     resolver policy_chunks risk_tier (world st) = (Ok (Some b), w) ->
     exists st', _determine_interest_band self risk_tier policy_chunks st
                 = (Ok (Some b), st')) /\
  (interest_policy_resolver self = None ->
   _determine_interest_band self risk_tier policy_chunks st
     = (band_from_chunks policy_chunks, st)) /\
  (forall resolver w,
     interest_policy_resolver self = Some resolver ->
     resolver policy_chunks risk_tier (world st) = (Ok None, w) ->
     exists st', _determine_interest_band self risk_tier policy_chunks st
                 = (band_from_chunks policy_chunks, st')) /\
  (forall pre chunk post d lo hi,
     policy_chunks = pre ++ chunk :: post ->
     Forall lacks_band pre ->
     dict_get (PolicyChunk.metadata chunk) "interest_band" = Some (VDict d) ->
     dict_get d "min_apr" = Some lo -> lo <> VNone ->
     dict_get d "max_apr" = Some hi -> hi <> VNone ->
     band_from_chunks policy_chunks =
       Ok (Some (InterestBand.mk lo hi
                   (dict_get_default d "policy_reference"
                      (VStr (PolicyChunk.chunk_id chunk)))
                   (dict_get_default d "conditions" (VList []))))) /\
  (forall pre chunk post,
     policy_chunks = pre ++ chunk :: post ->
     Forall lacks_band pre ->
     malformed_band chunk ->
     band_from_chunks policy_chunks = Raise AttributeError) /\
  (Forall lacks_band policy_chunks -> band_from_chunks policy_chunks = Ok None) /\
  (forall application response st',
     assess self application st = (Ok response, st') ->
     exists retrieved risk_result resolved interest_band,
       List.filter is_retrieve (events_since st st')
         = [EvRetrieve (_build_policy_query application) (policy_top_k self)
              (Ok retrieved)] /\
       List.filter is_score (events_since st st')
         = [EvScore (_build_risk_payload application) (Ok risk_result)] /\
       match retrieved with
       | [] =>
           List.filter is_get_policy (events_since st st') = [] /\ resolved = []
       | _ =>
           exists mapping,
             List.filter is_get_policy (events_since st st')
               = [EvGetPolicy (PolicyChunk.chunk_id <$> retrieved) (Ok mapping)] /\
             resolved = (fun chunk =>
                           dict_get_default mapping (PolicyChunk.chunk_id chunk) chunk)
                          <$> retrieved
       end /\
       match interest_policy_resolver self with
       | None =>
           List.filter is_resolve_band (events_since st st') = [] /\
           band_from_chunks resolved = Ok interest_band
       | Some _ =>
           exists b0,
             List.filter is_resolve_band (events_since st st')
               = [EvResolveBand resolved
                    (_tier_from_score (RiskScoreResult.score risk_result)) (Ok b0)] /\
             match b0 with
             | Some b => interest_band = Some b
             | None => band_from_chunks resolved = Ok interest_band
             end
       end /\
       dict_get response "risk_score"
         = Some (VDict [("value", VFloat (RiskScoreResult.score risk_result));
                        ("scale", VStr "0-100");
                        ("tier",
                         VStr (_tier_from_score (RiskScoreResult.score risk_result)))]) /\
       dict_get response "compliance"
         = Some (VDict [("region", VStr (LoanApplication.region application));
                        ("product", VStr (LoanApplication.product application));
                        ("policy_gap", VBool (match interest_band with
                                              | None => true
                                              | Some _ => false
                                              end))]) /\
       match interest_band with
       | None => dict_get response "interest_rate_suggestion" = Some VNone
       | Some b =>
           exists lo hi,
             py_round2 (InterestBand.min_apr b) = Ok lo /\
             py_round2 (InterestBand.max_apr b) = Ok hi /\
             dict_get response "interest_rate_suggestion"
               = Some (VDict [("band_apr_percent", VList [lo; hi]);
                              ("basis", InterestBand.policy_reference b);
                              ("conditions", InterestBand.conditions b)])
       end).
Proof.
  split_and!.
  - intros resolver b w Hresolver Hcall.
    unfold _determine_interest_band, bind. rewrite Hresolver.
    erewrite call_run by exact Hcall. eauto.
  - intros Hresolver. unfold _determine_interest_band, bind.
    by rewrite Hresolver.
  - intros resolver w Hresolver Hcall.
    unfold _determine_interest_band, bind. rewrite Hresolver.
    erewrite call_run by exact Hcall. eauto.
  - intros pre chunk post d lo hi -> Hpre Hband Hlo Hlo_ne Hhi Hhi_ne.
    rewrite band_from_chunks_skip by done.
    by apply band_from_chunks_found.
  - intros pre chunk post -> Hpre Hbad.
    rewrite band_from_chunks_skip by done.
    by apply band_from_chunks_malformed_here.
  - intros Hall. rewrite <- (app_nil_r policy_chunks).
    by rewrite band_from_chunks_skip.
  - intros application response st'
      (p1 & rec1 & retrieved & p2 & rec2 & risk_result & p3 & rec3
       & resolve_events & resolved & requested_documents & docs_events & docs_ids
       & band_events & interest_band & data & user_packet & p5 & rec5 & suggestion
       & Hevents & Hresolve & _ & Hdocs & Hband_events & Hsuggestion & ->)%assess_Ok_trace.
    exists retrieved, risk_result, resolved, interest_band.
    assert (Hdocs_events : forall P : event -> bool,
               (forall documents r, P (EvRequestDocs documents r) = false) ->
               (forall event_type payload r, P (EvLog event_type payload r) = false) ->
               List.filter P docs_events = []).
    { intros P Hrequest Hlog.
      destruct Hdocs as [(_ & -> & _)|(_ & docs_response & p4 & rec4 & -> & _)];
        [done|].
      cbn. by rewrite Hrequest, Hlog. }
    rewrite Hevents, !List.filter_app.
    rewrite !Hdocs_events by done.
    assert (Hquiet_resolve :
      List.filter is_retrieve resolve_events = []
      /\ List.filter is_score resolve_events = []
      /\ List.filter is_resolve_band resolve_events = []).
    { destruct retrieved; [by destruct Hresolve as [-> _]|].
      by destruct Hresolve as (mapping & -> & _). }
    assert (Hquiet_band :
      List.filter is_retrieve band_events = []
      /\ List.filter is_score band_events = []
      /\ List.filter is_get_policy band_events = []).
    { destruct (interest_policy_resolver self).
      - by destruct Hband_events as (b0 & -> & _).
      - by destruct Hband_events as [-> _]. }
    destruct Hquiet_resolve as (-> & -> & ->).
    destruct Hquiet_band as (-> & -> & ->).
    cbn [List.filter is_retrieve is_score is_get_policy is_resolve_band app].
    split; [reflexivity|]. split; [reflexivity|].
    split.
    { destruct retrieved.
      - destruct Hresolve as [-> ->]. done.
      - destruct Hresolve as (mapping & -> & ->). by exists mapping. }
    split.
    { destruct (interest_policy_resolver self).
      - destruct Hband_events as (b0 & -> & Hb0). exists b0.
        split; [|done]. rewrite app_nil_r.
        destruct retrieved; [by destruct Hresolve as [-> _]|].
        by destruct Hresolve as (mapping & -> & _).
      - destruct Hband_events as [-> Hb0]. split; [|done]. rewrite app_nil_r.
        destruct retrieved; [by destruct Hresolve as [-> _]|].
        by destruct Hresolve as (mapping & -> & _). }
    split; [reflexivity|]. split; [reflexivity|].
    destruct interest_band as [b|]; simpl in Hsuggestion.
    + destruct (py_round2 (InterestBand.min_apr b)) as [lo|]; [|done].
      destruct (py_round2 (InterestBand.max_apr b)) as [hi|]; [|done].
      exists lo, hi. by simplify_eq.
    + by simplify_eq.
Qed.
End InterestBands.

(** ** Empty retrieval *)

Section Emits.
Context {W : Type} (P : event -> Prop).

Lemma emits_ret {A} (a : A) : emits (W:=W) P (ret a).
Proof. intros st r st' [_ ->]%ret_inv. exists []. by rewrite app_nil_r. Qed.

Lemma emits_lift_res {A} (r0 : res A) : emits (W:=W) P (lift_res r0).
Proof. intros st r st' [_ ->]%lift_res_inv. exists []. by rewrite app_nil_r. Qed.

Lemma emits_call {A} (c : M W A) (ev : res A -> event) :
  (forall r, P (ev r)) -> emits P (call c ev).
Proof.
  intros Hev st r st' (w & _ & ->)%call_inv. exists [ev r]. split; [done|].
  by constructor.
Qed.

Lemma emits_bind {A B} (c : M (state W) A) (k : A -> M (state W) B) :
  emits P c -> (forall a, emits P (k a)) -> emits P (bind c k).
Proof.
  intros Hc Hk st r st' [(a & st1 & Hrun & Hrest)|(e & Hrun & ->)]%bind_inv.
  - apply Hc in Hrun as (new1 & Ht1 & Hnew1).
    apply Hk in Hrest as (new2 & Ht2 & Hnew2).
    exists (new1 ++ new2). rewrite Ht2, Ht1, app_assoc. split; [done|].
    by apply Forall_app.
  - by apply Hc in Hrun.
Qed.
End Emits.

Ltac emits_step :=
  first
    [ apply emits_ret
    | apply emits_lift_res
    | apply emits_call; intros ?; split; [done|by intros ?]
    | apply emits_bind; [|intros ?]
    | match goal with
      | |- emits _ (match ?x with _ => _ end) => destruct x
      end ].

Section EmptyRetrieval.
Context `{Builtins} {W : Type}.
Implicit Types (self : LoanRiskAssistant W) (st : state W).

(** C10: canonicalising an empty chunk list returns the empty list
    without any call; and in every run of [assess], returning or not,
    in which the retriever returned the empty list, policy-by-id is not
    called, and the citations of a returned response are empty. *)
Theorem empty_retrieval_skips_policy_by_id self application st :
  _resolve_policy_chunks self [] st = (Ok [], st) /\
  forall r st',
    assess self application st = (r, st') ->
    forall query top_k,
      EvRetrieve query top_k (Ok []) ∈ events_since st st' ->
      (forall ev, ev ∈ events_since st st' -> is_get_policy ev = false) /\
      (forall response,
         r = Ok response ->
         dict_get response "policy_citations" = Some (VList [])).
Proof.
  split; [done|]. intros r st' Hrun query top_k Hin.
  assert (exists (policy_chunks : list PolicyChunk.t) new,
             events_since st st' = new /\
             (EvRetrieve query top_k (Ok []) ∈ new -> policy_chunks = []) /\
             Forall (fun ev => policy_chunks = [] -> is_get_policy ev = false) new)
    as (policy_chunks & new & Hnew & Hchunks & Hall).
  { unfold assess, _log in Hrun.
    apply bind_inv in Hrun as [(rec1 & st1 & Hlog & Hrun)|(e & Hlog & ->)];
      apply call_inv in Hlog as (w1 & _ & ->).
    2:{ exists []. eexists. split; [by apply events_since_app|]. split.
        - intros [?|?%elem_of_nil]%elem_of_cons; done.
        - by repeat constructor. }
    cbv beta zeta in Hrun.
    apply bind_inv in Hrun as [(policy_chunks & st2 & Hret & Hrun)|(e & Hret & ->)];
      apply call_inv in Hret as (w2 & _ & ->).
    2:{ exists []. eexists. split.
        - apply events_since_app. cbn [trace]. by rewrite <- app_assoc.
        - split.
          + intros [?|[?|?%elem_of_nil]%elem_of_cons]%elem_of_cons; done.
          + by repeat constructor. }
    cbv beta zeta in Hrun.
    match type of Hrun with
    | ?c _ = _ => assert (emits (after_retrieval policy_chunks) c) as Hemits
    end.
    { unfold _determine_interest_band, _resolve_policy_chunks, after_retrieval.
      repeat emits_step. }
    apply Hemits in Hrun as (rest & Ht' & Hrest). cbn [trace] in Ht'.
    exists policy_chunks. eexists. split.
    - apply events_since_app. rewrite Ht', <- !app_assoc. reflexivity.
    - split.
      + intros [?|[Heq|Hin']%elem_of_cons]%elem_of_cons; [done|by simplify_eq|].
        eapply Forall_forall in Hrest as [Hretrieve _]; [|exact Hin'].
        done.
      + repeat (constructor; [done|]).
        eapply Forall_impl; [exact Hrest|]. by intros ev [_ ?]. }
  rewrite Hnew in *. specialize (Hchunks Hin).
  split.
  - intros ev Hev. eapply Forall_forall in Hall; eauto.
  - intros response ->.
    apply assess_Ok_events in Hrun
      as (p1 & rec1 & policy_chunks' & p2 & rec2 & risk_result & p3 & rec3
          & resolve_events & requested_documents & docs_events & docs_ids
          & band_events & data & user_packet & p5 & rec5
          & Hev & Hresolve & Hdocs & Hband & _ & Hcit & _).
    apply Hcit. rewrite Hnew in Hev. rewrite Hev in Hin.
    rewrite !elem_of_app, !elem_of_cons in Hin.
    destruct Hresolve as [(? & ->)|(_ & ? & ->)];
      destruct Hdocs as [(_ & -> & _)|(_ & ? & ? & ? & -> & _)];
      destruct Hband as [->|(? & ? & ? & ->)].
    all: rewrite ?elem_of_cons, ?elem_of_nil in Hin.
    all: destruct_or!; by simplify_eq.
Qed.
End EmptyRetrieval.

(** ** Adapters and missing keys *)




Section AdapterKeys.
Context `{Builtins} {W : Type}.

End AdapterKeys.

(** ** The properties on the sample run *)

Lemma quote_50_witness :
  ((length (py_split (PolicyChunk.text Sample.chunk)) <= 50)%nat /\
   PolicyChunk.quote Sample.chunk 50 = PolicyChunk.text Sample.chunk) /\
  ((50 < length (py_split (PolicyChunk.text Sample.nbsp_chunk)))%nat /\
   PolicyChunk.quote Sample.nbsp_chunk 50 = blank_separated (replicate 50 "word") /\
   py_split (PolicyChunk.quote Sample.nbsp_chunk 50) = replicate 50 "word").
Proof.
  split.
  - assert (Hlen : (length (py_split (PolicyChunk.text Sample.chunk)) <= 50)%nat)
      by (vm_compute; lia).
    split; [exact Hlen|]. exact (proj1 (quote_50_spec Sample.chunk) Hlen).
  - assert (Hlen : (50 < length (py_split (PolicyChunk.text Sample.nbsp_chunk)))%nat)
      by (vm_compute; lia).
    split; [exact Hlen|].
    destruct (proj2 (quote_50_spec Sample.nbsp_chunk) Hlen) as (Hquote & Hsplit & _).
    split.
    + rewrite Hquote. vm_compute. reflexivity.
    + rewrite Hsplit. vm_compute. reflexivity.
Defined.

Lemma resolve_policy_chunks_witness :
  exists output st',
    _resolve_policy_chunks (Sample.assistant_with [] [Sample.canonical_chunk] None)
      [Sample.plain_chunk; Sample.chunk] Sample.start = (Ok output, st') /\
    length output = 2%nat /\
    output !! 0%nat = Some Sample.canonical_chunk /\
    output !! 1%nat = Some Sample.chunk.
Proof.
  destruct (resolve_policy_chunks_spec
              (Sample.assistant_with [] [Sample.canonical_chunk] None)
              [Sample.plain_chunk; Sample.chunk] Sample.start
              [("chunk-abc", Sample.canonical_chunk)] 0%nat)
    as (output & st' & Hrun & Hlen & Hlookup).
  { intros _. vm_compute. reflexivity. }
  exists output, st'. split; [exact Hrun|]. split; [exact Hlen|]. split.
  - exact (Hlookup 0%nat Sample.plain_chunk eq_refl).
  - exact (Hlookup 1%nat Sample.chunk eq_refl).
Defined.

Lemma build_reasons_witness :
  exists ri rj,
    _build_reasons (H:=Sample.builtins) Sample.risk_result [Sample.chunk] !! 1%nat
      = Some ri /\
    _build_reasons (H:=Sample.builtins) Sample.risk_result [Sample.chunk] !! 0%nat
      = Some rj /\
    source_field ri "type" = Some (VStr "policy") /\
    source_field rj "type" = Some (VStr "feature") /\
    (0 < 1)%nat.
Proof.
  eexists _, _. split; [vm_compute; reflexivity|].
  split; [vm_compute; reflexivity|].
  split; [reflexivity|]. split; [reflexivity|].
  destruct (build_reasons_spec (H:=Sample.builtins) Sample.risk_result [Sample.chunk])
    as (_ & _ & _ & _ & Horder).
  eapply (Horder 1%nat 0%nat); vm_compute; reflexivity.
Defined.

Lemma requested_documents_witness :
  Forall documents_well_typed [Sample.chunk] /\
  exists requested_documents,
    _determine_requested_documents (H:=Sample.builtins) Sample.application Sample.risk_result
      [Sample.chunk] = Ok requested_documents /\
    requested_documents
      = ["Collateral appraisal report"; "Collateral ownership evidence";
         "Recent income verification (e.g., pay stubs or bank statements)";
         "Updated credit bureau report"] /\
    StronglySorted String.le requested_documents /\
    NoDup requested_documents.
Proof.
  assert (Htyped : Forall documents_well_typed [Sample.chunk]).
  { constructor; [|constructor]. by exists ["Collateral appraisal report"]. }
  split; [exact Htyped|].
  destruct (requested_documents_sorted_nodup (H:=Sample.builtins) Sample.application Sample.risk_result
              [Sample.chunk]) as [Hok Hsorted].
  destruct (Hok Htyped) as [requested_documents Hrun].
  exists requested_documents. split; [exact Hrun|].
  split.
  - vm_compute in Hrun. by injection Hrun as <-.
  - destruct (Hsorted requested_documents Hrun) as (Hs & Hnodup & _).
    exact (conj Hs Hnodup).
Defined.

Lemma governance_log_ids_witness :
  exists response st',
    assess (H:=Sample.builtins) Sample.assistant Sample.application Sample.start
      = (Ok response, st') /\
    dict_get response "governance_log_ids"
      = Some (VList [VStr "log-1"; VStr "log-2"; VStr "log-3"; VStr "log-4";
                     VStr "log-5"]) /\
    exists records requested_documents,
      log_calls (events_since Sample.start st')
        = zip (["problem_received"; "retrieval_done"; "risk_scored"]
               ++ match requested_documents with
                  | [] => []
                  | _ => ["docs_requested"]
                  end
               ++ ["packet_composed"]) (Ok <$> records) /\
      dict_get response "governance_log_ids"
        = Some (VList (VStr <$> (GovernanceLogRecord.log_id <$> records))) /\
      dict_get response "requested_documents"
        = Some (VList (VStr <$> requested_documents)) /\
      length records = match requested_documents with [] => 4 | _ => 5 end%nat.
Proof.
  eexists _, _. split; [vm_compute; reflexivity|].
  split; [reflexivity|].
  apply (governance_log_ids_spec (H:=Sample.builtins) Sample.assistant
           Sample.application Sample.start).
  vm_compute. reflexivity.
Defined.

Lemma docs_request_witness :
  exists response st',
    assess (H:=Sample.builtins) Sample.assistant Sample.application Sample.start
      = (Ok response, st') /\
    EvLog "docs_requested"
      [("application_id", VStr "APP-001");
       ("requested_documents",
        VList [VStr "Collateral appraisal report";
               VStr "Collateral ownership evidence";
               VStr "Recent income verification (e.g., pay stubs or bank statements)";
               VStr "Updated credit bureau report"]);
       ("tool_response_id", VStr "doc-req-1")]
      (Ok (GovernanceLogRecord.mk "docs_requested" "log-4" None))
      ∈ events_since Sample.start st' /\
    exists requested_documents,
      requested_documents
        = ["Collateral appraisal report"; "Collateral ownership evidence";
           "Recent income verification (e.g., pay stubs or bank statements)";
           "Updated credit bureau report"] /\
      exists before after docs_response payload record logged_id,
        events_since Sample.start st'
          = before
            ++ [EvRequestDocs requested_documents (Ok docs_response);
                EvLog "docs_requested" payload (Ok record)]
            ++ after /\
        requested_lists (events_since Sample.start st') = [requested_documents] /\
        dict_get payload "tool_response_id"
          = Some (match logged_id with
                  | Some id => VStr id
                  | None => VNone
                  end).
Proof.
  eexists _, _. split; [vm_compute; reflexivity|].
  split; [vm_compute; do 7 apply list_elem_of_further; apply list_elem_of_here|].
  opose proof (docs_request_spec (H:=Sample.builtins) Sample.assistant
                 Sample.application Sample.start _ _ _)
    as [(requested_documents & Hresponse & _ & _ & _ & Hrequest) _].
  { vm_compute. reflexivity. }
  exists requested_documents.
  assert (Hlist : requested_documents
                  = ["Collateral appraisal report"; "Collateral ownership evidence";
                     "Recent income verification (e.g., pay stubs or bank statements)";
                     "Updated credit bureau report"]).
  { apply fmap_VStr_inj.
    assert (Some (VList (VStr <$> ["Collateral appraisal report";
                                   "Collateral ownership evidence";
                                   "Recent income verification (e.g., pay stubs or bank statements)";
                                   "Updated credit bureau report"]))
            = Some (VList (VStr <$> requested_documents))) as Heq
      by exact Hresponse.
    by injection Heq. }
  split; [exact Hlist|].
  assert (Hne : requested_documents <> []) by (rewrite Hlist; discriminate).
  pose proof (Hrequest Hne)
    as (before & after & docs_response & payload & record & logged_id
        & Hevents & Hlists & _ & Hid & _).
  exists before, after, docs_response, payload, record, logged_id.
  split; [exact Hevents|]. split; [exact Hlists|exact Hid].
Defined.

Lemma empty_retrieval_witness :
  exists r st',
    assess (H:=Sample.builtins) Sample.assistant_no_policy Sample.application
      Sample.start = (r, st') /\
    EvRetrieve "NY smb_term risk tiering interest band documentation" 5 (Ok [])
      ∈ events_since Sample.start st' /\
    (forall ev, ev ∈ events_since Sample.start st' -> is_get_policy ev = false) /\
    (forall response,
       r = Ok response ->
       dict_get response "policy_citations" = Some (VList [])).
Proof.
  eexists _, _. split; [vm_compute; reflexivity|].
  assert (Hin :
    EvRetrieve "NY smb_term risk tiering interest band documentation" 5 (Ok [])
      ∈ events_since Sample.start
          (assess (H:=Sample.builtins) Sample.assistant_no_policy
             Sample.application Sample.start).2).
  { vm_compute. apply list_elem_of_further, list_elem_of_here. }
  split; [exact Hin|].
  exact (proj2 (empty_retrieval_skips_policy_by_id (H:=Sample.builtins)
                  Sample.assistant_no_policy Sample.application Sample.start)
           _ _ eq_refl _ _ Hin).
Defined.

Lemma interest_band_witness :
  (exists st',
     _determine_interest_band Sample.assistant_resolver_band "Med" [Sample.chunk]
       Sample.start = (Ok (Some Sample.fixed_band), st')) /\
  _determine_interest_band Sample.assistant "Med" [Sample.plain_chunk; Sample.chunk]
    Sample.start
    = (band_from_chunks [Sample.plain_chunk; Sample.chunk], Sample.start) /\
  (exists st',
     _determine_interest_band Sample.assistant_resolver_none "Med" [Sample.chunk]
       Sample.start = (band_from_chunks [Sample.chunk], st')) /\
  band_from_chunks [Sample.plain_chunk; Sample.chunk]
    = Ok (Some (InterestBand.mk (VFloat (FFin 6)) (VFloat (FFin 8.5))
                  (VStr "POL-APR-01") (VList [VStr "Manual review"]))) /\
  band_from_chunks [Sample.plain_chunk; Host.malformed_chunk; Sample.chunk]
    = Raise AttributeError /\
  band_from_chunks [Sample.plain_chunk] = Ok None /\
  (exists response st',
     assess (H:=Sample.builtins) Sample.assistant Sample.application Sample.start
       = (Ok response, st') /\
     dict_get response "interest_rate_suggestion"
       = Some (VDict [("band_apr_percent", VList [VFloat (FFin 6); VFloat (FFin 8.5)]);
                      ("basis", VStr "POL-APR-01");
                      ("conditions", VList [VStr "Manual review"])]) /\
     dict_get response "compliance"
       = Some (VDict [("region", VStr "NY"); ("product", VStr "smb_term");
                      ("policy_gap", VBool false)]) /\
     exists resolved interest_band,
       resolved = [Sample.chunk] /\
       band_from_chunks resolved = Ok interest_band /\
       dict_get response "compliance"
         = Some (VDict [("region", VStr "NY"); ("product", VStr "smb_term");
                        ("policy_gap", VBool (match interest_band with
                                              | None => true
                                              | Some _ => false
                                              end))])) /\
  (exists response st',
     assess (H:=Sample.builtins) Sample.assistant_no_policy Sample.application
       Sample.start = (Ok response, st') /\
     dict_get response "interest_rate_suggestion" = Some VNone /\
     dict_get response "compliance"
       = Some (VDict [("region", VStr "NY"); ("product", VStr "smb_term");
                      ("policy_gap", VBool true)])).
Proof.
  split_and!.
  - destruct (interest_band_spec (H:=Sample.builtins)
                Sample.assistant_resolver_band "Med" [Sample.chunk] Sample.start)
      as (Hresolver & _).
    eapply Hresolver; reflexivity.
  - destruct (interest_band_spec (H:=Sample.builtins)
                Sample.assistant "Med" [Sample.plain_chunk; Sample.chunk] Sample.start)
      as (_ & Hnone & _).
    apply Hnone. reflexivity.
  - destruct (interest_band_spec (H:=Sample.builtins)
                Sample.assistant_resolver_none "Med" [Sample.chunk] Sample.start)
      as (_ & _ & Hnone & _).
    eapply Hnone; reflexivity.
  - destruct (interest_band_spec (H:=Sample.builtins)
                Sample.assistant "Med" [Sample.plain_chunk; Sample.chunk] Sample.start)
      as (_ & _ & _ & Hfound & _).
    apply (Hfound [Sample.plain_chunk] Sample.chunk []
             [("min_apr", VFloat (FFin 6));
              ("max_apr", VFloat (FFin 8.5));
              ("policy_reference", VStr "POL-APR-01");
              ("conditions", VList [VStr "Manual review"])]
             (VFloat (FFin 6)) (VFloat (FFin 8.5))); try reflexivity; try discriminate.
    constructor; [exact I|constructor].
  - destruct (interest_band_spec (H:=Sample.builtins) Sample.assistant "Med"
                [Sample.plain_chunk; Host.malformed_chunk; Sample.chunk] Sample.start)
      as (_ & _ & _ & _ & Hbad & _).
    apply (Hbad [Sample.plain_chunk] Host.malformed_chunk [Sample.chunk]).
    + reflexivity.
    + constructor; [exact I|constructor].
    + exists (VStr "6%-8.5%"). split; [reflexivity|]. split; [reflexivity|].
      intros d. discriminate.
  - destruct (interest_band_spec (H:=Sample.builtins)
                Sample.assistant "Med" [Sample.plain_chunk] Sample.start)
      as (_ & _ & _ & _ & _ & Hnone & _).
    apply Hnone. constructor; [exact I|constructor].
  - eexists _, _. split; [vm_compute; reflexivity|].
    split; [reflexivity|]. split; [reflexivity|].
    destruct (interest_band_spec (H:=Sample.builtins)
                Sample.assistant "Med" [] Sample.start)
      as (_ & _ & _ & _ & _ & _ & Hrun).
    opose proof (Hrun Sample.application _ _ _)
      as (retrieved & risk_result & resolved & interest_band
          & Hretrieve & _ & Hresolve & Hband & _ & Hgap & _).
    { vm_compute. reflexivity. }
    exists resolved, interest_band.
    vm_compute in Hretrieve. injection Hretrieve as <-.
    destruct Hresolve as (mapping & Hmapping & Hresolved).
    vm_compute in Hmapping. injection Hmapping as <-.
    destruct Hband as [_ Hband].
    split; [exact Hresolved|]. split; [exact Hband|exact Hgap].
  - eexists _, _. split; [vm_compute; reflexivity|].
    split; [reflexivity|].
    destruct (interest_band_spec (H:=Sample.builtins)
                Sample.assistant_no_policy "Med" [] Sample.start)
      as (_ & _ & _ & _ & _ & _ & Hrun).
    opose proof (Hrun Sample.application _ _ _)
      as (retrieved & risk_result & resolved & interest_band
          & Hretrieve & _ & Hresolve & Hband & _ & Hgap & _).
    { vm_compute. reflexivity. }
    vm_compute in Hretrieve. injection Hretrieve as <-.
    destruct Hresolve as [_ ->]. destruct Hband as [_ Hband].
    injection Hband as <-. exact Hgap.
Defined.

Lemma interest_band_counterexample :
  ~ gap_without_band Sample.assistant /\
  interest_policy_resolver Host.assistant_malformed = None /\
  Forall (fun chunk => ~ complete_band chunk) [Host.malformed_chunk] /\
  band_from_chunks [Host.malformed_chunk] = Raise AttributeError /\
  exists st',
    assess (H:=Sample.builtins) Host.assistant_malformed Sample.application
      Sample.start = (Raise AttributeError, st') /\
    List.filter is_retrieve (events_since Sample.start st')
      = [EvRetrieve "NY smb_term risk tiering interest band documentation" 5
           (Ok [Host.malformed_chunk])].
Proof.
  assert (Hincomplete : Forall (fun chunk => ~ complete_band chunk)
                          [Host.malformed_chunk]).
  { constructor; [|constructor]. intros (d & lo & hi & Hd & _). discriminate Hd. }
  split_and!.
  - intros Hgap.
    specialize (Hgap eq_refl "Med" [Host.malformed_chunk] Sample.start Hincomplete).
    discriminate Hgap.
  - reflexivity.
  - exact Hincomplete.
  - reflexivity.
  - eexists. split; [vm_compute; reflexivity|]. reflexivity.
Qed.



(** ** The scenario of the repository's tests *)

Example py_split_example :
  py_split ("  risk  tiering" +:+ String (ascii_of_nat 9) "and" +:+
            String (ascii_of_nat 10) " bands ")
    = ["risk"; "tiering"; "and"; "bands"].
Proof. reflexivity. Qed.

(** White space is that of Unicode: a no-break space and an ideographic
    space, U+3000, cut words as a blank does. *)
Example py_split_unicode_example :
  py_split ("a" +:+ Sample.nbsp +:+ "b c"
            +:+ String (ascii_of_nat 227) (String (ascii_of_nat 128)
                  (String (ascii_of_nat 128) "d")))
    = ["a"; "b"; "c"; "d"] /\
  PolicyChunk.quote
    (PolicyChunk.mk "c" "t" "s" ("a" +:+ Sample.nbsp +:+ "b c") []) 2
    = "a b".
Proof. split; reflexivity. Qed.

(** A loop over a string visits its characters, not its bytes. *)
Example py_iter_unicode_example :
  py_iter (VStr ("a" +:+ Sample.nbsp +:+ "b"))
    = Ok [VStr "a"; VStr Sample.nbsp; VStr "b"].
Proof. reflexivity. Qed.

Example reason_code_prefix_example :
  _determine_requested_documents (H:=Sample.builtins)
    (LoanApplication.mk "APP-002" [("income_verified", VBool true)] [] "NY"
       "smb_term" None)
    (RiskScoreResult.mk (FFin 70) [] [ReasonCode.mk "dti_high" "High DTI"]) []
    = Ok ["Detailed debt obligation schedule"].
Proof. vm_compute. reflexivity. Qed.

Example test_assistant_returns_structured_payload :
  exists response st',
    assess (H:=Sample.builtins) Sample.assistant Sample.application Sample.start
      = (Ok response, st') /\
    dict_get response "risk_score"
      = Some (VDict [("value", VFloat (FFin 55)); ("scale", VStr "0-100");
                     ("tier", VStr "Med")]) /\
    dict_get response "interest_rate_suggestion"
      = Some (VDict [("band_apr_percent",
                      VList [VFloat (FFin 6); VFloat (FFin 8.5)]);
                     ("basis", VStr "POL-APR-01");
                     ("conditions", VList [VStr "Manual review"])]) /\
    dict_get response "requested_documents"
      = Some (VList [VStr "Collateral appraisal report";
                     VStr "Collateral ownership evidence";
                     VStr "Recent income verification (e.g., pay stubs or bank statements)";
                     VStr "Updated credit bureau report"]) /\
    dict_get response "compliance"
      = Some (VDict [("region", VStr "NY"); ("product", VStr "smb_term");
                     ("policy_gap", VBool false)]) /\
    dict_get response "user_packet"
      = Some (VDict [("format", VStr "html"); ("content", VStr "ok")]).
Proof.
  eexists _, _. split; [vm_compute; reflexivity|]. by repeat split.
Qed.

(** * More properties *)

Set Warnings "-clear-no-such-hyp".

(** ** Words *)

(** X1: splitting a quote gives back the words it was cut to: the words
    of the text up to the limit (all but the last ones for a negative
    limit); so a quote never has more words than a limit that is not
    negative, and each of its words is a word of the text. *)
Theorem quote_words (chunk : PolicyChunk.t) (word_limit : Z) :
  py_split (PolicyChunk.quote chunk word_limit)
    = slice_to (py_split (PolicyChunk.text chunk)) word_limit /\
  (0 <= word_limit ->
   Z.of_nat (length (py_split (PolicyChunk.quote chunk word_limit))) <= word_limit).
Proof.
  split; [apply py_split_quote|].
  intros Hlimit. rewrite py_split_quote, slice_to_nonneg by done.
  rewrite length_take. lia.
Qed.

(** ** Citations *)

(** X2: there is one citation for each of the first five chunks, in
    order, and none for the others; a citation carries the chunk's id,
    title and section, and a quote of at most 50 words. *)
Theorem policy_citations_spec (policy_chunks : list PolicyChunk.t) :
  length (_build_policy_citations policy_chunks) = (length policy_chunks `min` 5)%nat /\
  forall i citation,
    _build_policy_citations policy_chunks !! i = Some citation ->
    (i < 5)%nat /\
    exists chunk,
      policy_chunks !! i = Some chunk /\
      dict_get citation "chunk_id" = Some (VStr (PolicyChunk.chunk_id chunk)) /\
      dict_get citation "title" = Some (VStr (PolicyChunk.title chunk)) /\
      dict_get citation "section" = Some (VStr (PolicyChunk.section chunk)) /\
      dict_get citation "quote" = Some (VStr (PolicyChunk.quote chunk 50)) /\
      (length (py_split (PolicyChunk.quote chunk 50)) <= 50)%nat.
Proof.
  unfold _build_policy_citations. rewrite slice_to_nonneg by lia.
  split.
  - rewrite length_fmap, length_take. lia.
  - intros i citation (chunk & -> & [Hi Hlt]%lookup_take_Some)%list_lookup_fmap_Some.
    split; [exact Hlt|]. exists chunk. split_and!; try done.
    rewrite py_split_quote, slice_to_nonneg, length_take by lia. lia.
Qed.

(** ** The policy query *)

Lemma concat_py_split_filter (terms : list string) :
  concat (py_split <$> filter (fun term => term <> "") terms)
    = concat (py_split <$> terms).
Proof.
  induction terms as [|term terms IH]; [done|].
  rewrite filter_cons. destruct (decide (term <> "")) as [Hne|Heq].
  - cbn. by rewrite IH.
  - apply dec_stable in Heq as ->. cbn. by rewrite IH.
Qed.

Section Query.
Context `{Builtins}.

(** X3: the words of the policy query are the words of the region, of
    the product, the five fixed words, and the words of the
    [key:value] terms of the context, in this order; a missing and an
    empty context add nothing, and an empty region or product leaves no
    trace. *)
Theorem policy_query_words (application : LoanApplication.t) :
  py_split (_build_policy_query application)
    = py_split (LoanApplication.region application)
      ++ py_split (LoanApplication.product application)
      ++ ["risk"; "tiering"; "interest"; "band"; "documentation"]
      ++ concat (py_split <$>
                   ((fun kv : string * pyval => kv.1 +:+ ":" +:+ py_str kv.2)
                      <$> default [] (LoanApplication.context application))).
Proof.
  unfold _build_policy_query. rewrite py_split_join, concat_py_split_filter.
  rewrite fmap_app, concat_app. cbn [fmap list_fmap concat].
  change (py_split "risk tiering") with ["risk"; "tiering"].
  change (py_split "interest band") with ["interest"; "band"].
  change (py_split "documentation") with ["documentation"].
  rewrite <- !app_assoc. do 2 f_equal. cbn [app]. do 6 f_equal.
  by destruct (LoanApplication.context application) as [[|kv ctx]|].
Qed.

End Query.

(** ** Which documents are requested *)

Section Triggers.
Context `{Builtins}.

Lemma add_reason_documents_step (documents : gset string) (code : ReasonCode.t)
    (document : string) :
  document ∈ add_reason_documents documents code <->
  document ∈ documents \/
  (document = "Detailed debt obligation schedule" /\
   py_startswith (py_upper (ReasonCode.code code)) "DTI" = true) \/
  (document = "Updated credit bureau report" /\
   py_startswith (py_upper (ReasonCode.code code)) "CREDIT" = true).
Proof.
  unfold add_reason_documents.
  destruct (py_startswith (py_upper (ReasonCode.code code)) "DTI");
    destruct (py_startswith (py_upper (ReasonCode.code code)) "CREDIT");
    rewrite ?elem_of_union, ?elem_of_singleton; naive_solver.
Qed.

Lemma add_reason_documents_elem_of (documents : gset string)
    (codes : list ReasonCode.t) (document : string) :
  document ∈ foldl add_reason_documents documents codes <->
  document ∈ documents \/
  (document = "Detailed debt obligation schedule" /\
   exists code, code ∈ codes /\
     py_startswith (py_upper (ReasonCode.code code)) "DTI" = true) \/
  (document = "Updated credit bureau report" /\
   exists code, code ∈ codes /\
     py_startswith (py_upper (ReasonCode.code code)) "CREDIT" = true).
Proof.
  revert documents. induction codes as [|code codes IH]; intros documents.
  - cbn. setoid_rewrite elem_of_nil. naive_solver.
  - cbn [foldl]. rewrite IH, add_reason_documents_step.
    setoid_rewrite elem_of_cons. naive_solver.
Qed.

Lemma add_items_Raise (e : exn) (items : list pyval) :
  foldl (fun (acc : res (gset string)) (document : pyval) =>
           match acc, document with
           | Ok docs, VStr s => Ok ({[s]} ∪ docs)
           | Ok _, _ => Raise TypeError
           | Raise e, _ => Raise e
           end) (Raise e) items = Raise e.
Proof. by induction items. Qed.

Lemma add_required_documents_inv (documents documents' : gset string)
    (chunk : PolicyChunk.t) :
  add_required_documents documents chunk = Ok documents' ->
  exists names : list string,
    required_items chunk = Ok (VStr <$> names) /\
    forall document, document ∈ documents' <-> document ∈ documents \/ document ∈ names.
Proof.
  unfold add_required_documents, required_items.
  destruct (py_iter _) as [items|e]; [|done].
  revert documents. induction items as [|item items IH]; intros documents Hfold.
  - exists []. split; [done|]. injection Hfold as <-. set_solver.
  - cbn [foldl] in Hfold. destruct item as [| | | |s| |];
      try (by rewrite add_items_Raise in Hfold).
    apply IH in Hfold as (names & [= ->] & Hnames).
    exists (s :: names). split; [done|].
    intros document. rewrite Hnames. set_solver.
Qed.

Lemma add_required_documents_names (documents : gset string) (chunk : PolicyChunk.t)
    (names : list string) :
  required_items chunk = Ok (VStr <$> names) ->
  exists documents', add_required_documents documents chunk = Ok documents'.
Proof.
  unfold add_required_documents, required_items. intros ->.
  revert documents. induction names as [|s names IH]; intros documents.
  - by exists documents.
  - exact (IH ({[s]} ∪ documents)).
Qed.

Lemma fold_chunks_Raise (e : exn) (chunks : list PolicyChunk.t) :
  foldl (fun (acc : res (gset string)) chunk =>
           match acc with
           | Ok docs => add_required_documents docs chunk
           | Raise e => Raise e
           end) (Raise e) chunks = Raise e.
Proof. by induction chunks. Qed.

Lemma fold_chunks_inv (documents documents' : gset string)
    (chunks : list PolicyChunk.t) :
  foldl (fun (acc : res (gset string)) chunk =>
           match acc with
           | Ok docs => add_required_documents docs chunk
           | Raise e => Raise e
           end) (Ok documents) chunks = Ok documents' ->
  Forall (fun chunk => exists names, required_items chunk = Ok (VStr <$> names)) chunks /\
  forall document,
    document ∈ documents' <->
    document ∈ documents \/
    exists chunk names,
      chunk ∈ chunks /\ required_items chunk = Ok (VStr <$> names) /\
      document ∈ names.
Proof.
  revert documents. induction chunks as [|chunk chunks IH]; intros documents Hfold.
  - injection Hfold as <-. split; [constructor|].
    intros document. setoid_rewrite elem_of_nil. naive_solver.
  - cbn [foldl] in Hfold.
    destruct (add_required_documents documents chunk) as [documents1|e] eqn:Hadd;
      [|by rewrite fold_chunks_Raise in Hfold].
    apply add_required_documents_inv in Hadd as (names & Hnames & Hstep).
    apply IH in Hfold as [Hall Hrest].
    split; [constructor; eauto|].
    intros document. rewrite Hrest, Hstep. setoid_rewrite elem_of_cons.
    split.
    + intros [[?|?]|(c & ns & ? & ? & ?)]; eauto 10.
    + intros [?|(c & ns & [->|?] & Hns & ?)]; eauto 10.
      rewrite Hnames in Hns. injection Hns as Hns.
      apply fmap_VStr_inj in Hns as <-. eauto.
Qed.

Lemma fold_chunks_Ok (documents : gset string) (chunks : list PolicyChunk.t) :
  Forall (fun chunk => exists names, required_items chunk = Ok (VStr <$> names)) chunks ->
  exists documents',
    foldl (fun (acc : res (gset string)) chunk =>
             match acc with
             | Ok docs => add_required_documents docs chunk
             | Raise e => Raise e
             end) (Ok documents) chunks = Ok documents'.
Proof.
  intros Hall. revert documents.
  induction Hall as [|chunk chunks [names Hnames] _ IH]; intros documents.
  - by exists documents.
  - cbn [foldl].
    destruct (add_required_documents_names documents chunk names Hnames)
      as [documents1 ->].
    apply IH.
Qed.

Lemma elem_of_if_add (b : bool) (name document : string) (documents : gset string) :
  document ∈ (if b then {[name]} ∪ documents else documents) <->
  (document = name /\ b = true) \/ document ∈ documents.
Proof. destruct b; set_solver. Qed.

Lemma requested_documents_elem_of_aux (application : LoanApplication.t)
    (risk_result : RiskScoreResult.t) (policy_chunks : list PolicyChunk.t)
    (requested_documents : list string) :
  _determine_requested_documents application risk_result policy_chunks
    = Ok requested_documents ->
  forall document,
    document ∈ requested_documents <->
    (document = "Most recent 2 years of tax returns" /\
     py_eq_str (dict_get_default (LoanApplication.borrower application)
                  "employment_type" VNone) "self_employed" = true) \/
    (document = "Recent income verification (e.g., pay stubs or bank statements)" /\
     py_truthy (dict_get_default (LoanApplication.borrower application)
                  "income_verified" (VBool false)) = false) \/
    (document = "Collateral ownership evidence" /\
     py_truthy (dict_get_default (LoanApplication.loan application)
                  "collateral_required" VNone) = true /\
     py_truthy (dict_get_default (LoanApplication.loan application)
                  "collateral_documents" VNone) = false) \/
    (document = "Detailed debt obligation schedule" /\
     exists code, code ∈ RiskScoreResult.reason_codes risk_result /\
       py_startswith (py_upper (ReasonCode.code code)) "DTI" = true) \/
    (document = "Updated credit bureau report" /\
     exists code, code ∈ RiskScoreResult.reason_codes risk_result /\
       py_startswith (py_upper (ReasonCode.code code)) "CREDIT" = true) \/
    (exists chunk names,
       chunk ∈ policy_chunks /\ required_items chunk = Ok (VStr <$> names) /\
       document ∈ names).
Proof.
  unfold _determine_requested_documents.
  match goal with
  | |- context [foldl ?f ?a policy_chunks] =>
      destruct (foldl f a policy_chunks) as [documents|e] eqn:Hfold; [|done]
  end.
  intros [= <-] document.
  apply fold_chunks_inv in Hfold as [_ Hfold].
  rewrite py_sorted_elem_of, Hfold, add_reason_documents_elem_of.
  rewrite !elem_of_if_add, elem_of_empty, andb_true_iff, !negb_true_iff.
  tauto.
Qed.

(** X5: on chunks whose "required_documents" give strings when they
    are iterated (a list or a dictionary of strings, or one string), the
    requested-documents list is produced, and a document is in it
    exactly when one of the triggers asks for it: self-employment, an
    income that is not verified (also when the flag is missing),
    collateral required without collateral documents, a reason code
    whose upper-case form starts with DTI or with CREDIT, or an item of
    some chunk's "required_documents". *)
Theorem requested_documents_elem_of (application : LoanApplication.t)
    (risk_result : RiskScoreResult.t) (policy_chunks : list PolicyChunk.t) :
  Forall (fun chunk => exists names, required_items chunk = Ok (VStr <$> names))
    policy_chunks ->
  exists requested_documents,
    _determine_requested_documents application risk_result policy_chunks
      = Ok requested_documents /\
    forall document,
      document ∈ requested_documents <->
      (document = "Most recent 2 years of tax returns" /\
       py_eq_str (dict_get_default (LoanApplication.borrower application)
                    "employment_type" VNone) "self_employed" = true) \/
      (document = "Recent income verification (e.g., pay stubs or bank statements)" /\
       py_truthy (dict_get_default (LoanApplication.borrower application)
                    "income_verified" (VBool false)) = false) \/
      (document = "Collateral ownership evidence" /\
       py_truthy (dict_get_default (LoanApplication.loan application)
                    "collateral_required" VNone) = true /\
       py_truthy (dict_get_default (LoanApplication.loan application)
                    "collateral_documents" VNone) = false) \/
      (document = "Detailed debt obligation schedule" /\
       exists code, code ∈ RiskScoreResult.reason_codes risk_result /\
         py_startswith (py_upper (ReasonCode.code code)) "DTI" = true) \/
      (document = "Updated credit bureau report" /\
       exists code, code ∈ RiskScoreResult.reason_codes risk_result /\
         py_startswith (py_upper (ReasonCode.code code)) "CREDIT" = true) \/
      (exists chunk names,
         chunk ∈ policy_chunks /\ required_items chunk = Ok (VStr <$> names) /\
         document ∈ names).
Proof.
  intros Hall.
  assert (exists requested_documents,
             _determine_requested_documents application risk_result policy_chunks
               = Ok requested_documents) as [requested_documents Hrun].
  { unfold _determine_requested_documents.
    match goal with
    | |- context [foldl ?f (Ok ?a) policy_chunks] =>
        destruct (fold_chunks_Ok a policy_chunks Hall) as [documents ->]
    end.
    by eexists. }
  exists requested_documents. split; [exact Hrun|].
  by apply requested_documents_elem_of_aux.
Qed.

(** X6: the requested documents depend on the scoring result only
    through its reason codes, and neither the order of the reason codes
    nor the order of the chunks matters. *)
Theorem requested_documents_order_irrelevant (application : LoanApplication.t)
    (risk_result risk_result' : RiskScoreResult.t)
    (policy_chunks policy_chunks' : list PolicyChunk.t)
    (requested_documents : list string) :
  RiskScoreResult.reason_codes risk_result ≡ₚ RiskScoreResult.reason_codes risk_result' ->
  policy_chunks ≡ₚ policy_chunks' ->
  _determine_requested_documents application risk_result policy_chunks
    = Ok requested_documents ->
  _determine_requested_documents application risk_result' policy_chunks'
    = Ok requested_documents.
Proof.
  intros Hcodes Hchunks Hrun.
  assert (exists requested_documents',
             _determine_requested_documents application risk_result' policy_chunks'
               = Ok requested_documents') as [requested_documents' Hrun'].
  { revert Hrun. unfold _determine_requested_documents.
    match goal with
    | |- context [foldl ?f ?a policy_chunks] =>
        destruct (foldl f a policy_chunks) as [documents|e] eqn:Hfold; [|done]
    end.
    intros _. apply fold_chunks_inv in Hfold as [Hall _].
    rewrite Hchunks in Hall.
    match goal with
    | |- context [foldl ?f (Ok ?a) policy_chunks'] =>
        destruct (fold_chunks_Ok a policy_chunks' Hall) as [documents' ->]
    end.
    by eexists. }
  rewrite Hrun'. f_equal.
  pose proof (requested_documents_elem_of_aux application risk_result policy_chunks
                requested_documents Hrun) as Hin.
  pose proof (requested_documents_elem_of_aux application risk_result' policy_chunks'
                requested_documents' Hrun') as Hin'.
  apply determine_requested_documents_sorted in Hrun as (documents & ->).
  apply determine_requested_documents_sorted in Hrun' as (documents' & ->).
  f_equal. apply set_eq. intros document.
  rewrite <- !py_sorted_elem_of, Hin, Hin'.
  setoid_rewrite Hcodes. setoid_rewrite Hchunks. done.
Qed.

End Triggers.

(** ** Malformed interest bands *)

Section MalformedBand.
Context {W : Type}.

(** X7: a chunk whose "interest_band" is truthy but not a dictionary,
    met before any complete band, makes the band step raise
    AttributeError: the chunks after it are not looked at. *)
Theorem band_from_chunks_malformed (self : LoanRiskAssistant W) (risk_tier : string)
    (pre post : list PolicyChunk.t) (chunk : PolicyChunk.t) (v : pyval)
    (st : state W) :
  Forall lacks_band pre ->
  dict_get (PolicyChunk.metadata chunk) "interest_band" = Some v ->
  py_truthy v = true ->
  (forall d, v <> VDict d) ->
  band_from_chunks (pre ++ chunk :: post) = Raise AttributeError /\
  (interest_policy_resolver self = None ->
   _determine_interest_band self risk_tier (pre ++ chunk :: post) st
     = (Raise AttributeError, st)).
Proof.
  intros Hpre Hv Htruthy Hdict.
  assert (Hraise : band_from_chunks (pre ++ chunk :: post) = Raise AttributeError).
  { rewrite band_from_chunks_skip by done. cbn [band_from_chunks].
    assert (dict_get_default (PolicyChunk.metadata chunk) "interest_band" VNone = v)
      as -> by (unfold dict_get_default; by rewrite Hv).
    rewrite Htruthy. cbn [negb].
    destruct v; try done. by destruct (Hdict d). }
  split; [done|]. intros Hnone.
  unfold _determine_interest_band, bind. rewrite Hnone. cbn.
  unfold lift_res. by rewrite Hraise.
Qed.
End MalformedBand.

(** ** Faults *)

Section FailFast.
Context {W : Type}.

Lemma fails_fast_ret {A} (a : A) : fails_fast (W:=W) (ret a).
Proof.
  intros st r st' [-> ->]%ret_inv. exists []. rewrite app_nil_r.
  split; [done|]. constructor.
Qed.

Lemma fails_fast_lift_res {A} (r0 : res A) : fails_fast (W:=W) (lift_res r0).
Proof.
  intros st r st' [-> ->]%lift_res_inv. exists []. rewrite app_nil_r.
  split; [done|]. destruct r; cbn; [constructor|].
  exists []. split; [constructor|by left].
Qed.

Lemma fails_fast_call {A} (c : M W A) (ev : res A -> event) :
  (forall a, event_raised (ev (Ok a)) = None) ->
  (forall e, event_raised (ev (Raise e)) = Some e) ->
  fails_fast (call c ev).
Proof.
  intros Hok Hraise st r st' (w & _ & ->)%call_inv. exists [ev r].
  split; [done|]. destruct r as [a|e]; cbn.
  - constructor; [apply Hok|constructor].
  - exists []. split; [constructor|]. right. exists (ev (Raise e)). by split.
Qed.

Lemma fails_fast_bind {A B} (c : M (state W) A) (k : A -> M (state W) B) :
  fails_fast c -> (forall a, fails_fast (k a)) -> fails_fast (bind c k).
Proof.
  intros Hc Hk st r st' [(a & st1 & Hrun & Hrest)|(e & Hrun & ->)]%bind_inv.
  - apply Hc in Hrun as (new1 & Ht1 & Hnew1). cbn in Hnew1.
    apply Hk in Hrest as (new2 & Ht2 & Hnew2).
    exists (new1 ++ new2). rewrite Ht2, Ht1, app_assoc. split; [done|].
    destruct r as [b|e]; cbn in *.
    + by apply Forall_app.
    + destruct Hnew2 as (calls & Hcalls & Hshape).
      exists (new1 ++ calls). split; [by apply Forall_app|].
      destruct Hshape as [->|(ev & -> & Hev)]; [by left|].
      right. exists ev. by rewrite app_assoc.
  - by apply Hc in Hrun.
Qed.
End FailFast.

Ltac fails_fast_step :=
  first
    [ apply fails_fast_ret
    | apply fails_fast_lift_res
    | apply fails_fast_call; [by intros ?|by intros ?]
    | apply fails_fast_bind; [|intros ?]
    | match goal with
      | |- fails_fast (match ?x with _ => _ end) => destruct x
      end ].

Section AssessFaults.
Context `{Builtins} {W : Type}.
Implicit Types (self : LoanRiskAssistant W) (st : state W).

Lemma assess_fails_fast self application : fails_fast (assess self application).
Proof.
  unfold assess, _log, _determine_interest_band, _resolve_policy_chunks.
  repeat fails_fast_step.
Qed.

(** X8: [assess] swallows no fault and goes no further after one: in
    every run, a call that raised is the last call made, and the run
    ends with the very exception that call raised. So a run that
    returns has seen no call raise. *)
Theorem assess_stops_at_first_fault self application st r st' :
  assess self application st = (r, st') ->
  forall i ev e,
    events_since st st' !! i = Some ev ->
    event_raised ev = Some e ->
    r = Raise e /\ Datatypes.S i = length (events_since st st').
Proof.
  intros (new & Ht & Hstops)%assess_fails_fast i ev e.
  rewrite (events_since_app _ _ _ Ht). intros Hi Hev.
  assert (Hnone : forall calls : list event,
             Forall (fun ev => event_raised ev = None) calls ->
             calls !! i = Some ev -> False).
  { intros calls Hcalls Hin. eapply Forall_lookup_1 in Hcalls; [|exact Hin].
    congruence. }
  destruct r as [a|e']; cbn in Hstops.
  - destruct (Hnone new Hstops Hi).
  - destruct Hstops as (calls & Hcalls & [->|(ev' & -> & Hev')]).
    + destruct (Hnone calls Hcalls Hi).
    + apply lookup_app_Some in Hi as [Hi|[Hge Hi]].
      * destruct (Hnone calls Hcalls Hi).
      * apply list_lookup_singleton_Some in Hi as [Hi ->].
        rewrite length_app. cbn. split; [congruence|lia].
Qed.
End AssessFaults.

(** ** Calls of the document requester *)

Section EmitsAll.
Context {W : Type}.

Lemma emits_all_ret {A} (a : A) : emits_all (W:=W) no_request (ret a).
Proof. intros st r st' [_ ->]%ret_inv. exists []. by rewrite app_nil_r. Qed.

Lemma emits_all_lift_res {A} (r0 : res A) : emits_all (W:=W) no_request (lift_res r0).
Proof. intros st r st' [_ ->]%lift_res_inv. exists []. by rewrite app_nil_r. Qed.

Lemma emits_all_call {A} (c : M W A) (ev : res A -> event) :
  (forall r, is_request_docs (ev r) = false) -> emits_all no_request (call c ev).
Proof.
  intros Hev st r st' (w & _ & ->)%call_inv. exists [ev r]. split; [done|].
  unfold no_request, requested_lists. cbn. specialize (Hev r).
  by destruct (ev r).
Qed.

Lemma emits_all_bind {A B} (Q1 Q2 Q : list event -> Prop)
    (c : M (state W) A) (k : A -> M (state W) B) :
  emits_all Q1 c ->
  (forall a, returns c a -> emits_all Q2 (k a)) ->
  (forall new1, Q1 new1 -> Q new1) ->
  (forall new1 new2, Q1 new1 -> Q2 new2 -> Q (new1 ++ new2)) ->
  emits_all Q (bind c k).
Proof.
  intros Hc Hk Hstop Hcompose st r st'
    [(a & st1 & Hrun & Hrest)|(e & Hrun & ->)]%bind_inv.
  - pose proof Hrun as (new1 & Ht1 & Hnew1)%Hc.
    apply Hk in Hrest as (new2 & Ht2 & Hnew2); [|by exists st, st1].
    exists (new1 ++ new2). rewrite Ht2, Ht1, app_assoc. eauto.
  - apply Hc in Hrun as (new1 & Ht1 & Hnew1). eauto.
Qed.

Lemma emits_all_quiet_bind {A B} (c : M (state W) A) (k : A -> M (state W) B) :
  emits_all no_request c ->
  (forall a, returns c a -> emits_all no_request (k a)) ->
  emits_all no_request (bind c k).
Proof.
  intros Hc Hk. eapply emits_all_bind; [exact Hc|exact Hk|done|].
  unfold no_request. intros new1 new2 H1 H2.
  by rewrite requested_lists_app, H1, H2.
Qed.

Lemma emits_all_quiet_then {A B} (good : list string -> Prop)
    (c : M (state W) A) (k : A -> M (state W) B) :
  emits_all no_request c ->
  (forall a, returns c a -> emits_all (one_request good) (k a)) ->
  emits_all (one_request good) (bind c k).
Proof.
  intros Hc Hk. eapply emits_all_bind; [exact Hc|exact Hk|by left|].
  unfold no_request, one_request. intros new1 new2 H1 H2.
  by rewrite requested_lists_app, H1.
Qed.

Lemma emits_all_then_quiet {A B} (good : list string -> Prop)
    (c : M (state W) A) (k : A -> M (state W) B) :
  emits_all (one_request good) c ->
  (forall a, returns c a -> emits_all no_request (k a)) ->
  emits_all (one_request good) (bind c k).
Proof.
  intros Hc Hk. eapply emits_all_bind; [exact Hc|exact Hk|done|].
  unfold no_request, one_request. intros new1 new2 H1 H2.
  by rewrite requested_lists_app, H2, app_nil_r.
Qed.
End EmitsAll.

Ltac quiet_step :=
  first
    [ apply emits_all_ret
    | apply emits_all_lift_res
    | apply emits_all_call; by intros ?
    | apply emits_all_quiet_bind; [|intros ? _]
    | match goal with
      | |- emits_all _ (match ?x with _ => _ end) => destruct x
      end ].

Section DocumentRequests.
Context `{Builtins} {W : Type}.
Implicit Types (self : LoanRiskAssistant W) (st : state W).

Lemma assess_one_request self application :
  emits_all (one_request good_request) (assess self application).
Proof.
  unfold assess, _log, _resolve_policy_chunks.
  do 6 (apply emits_all_quiet_then; [repeat quiet_step|intros ? _]).
  apply emits_all_quiet_then; [repeat quiet_step|].
  intros requested_documents (st0 & st1 & [Hdocs _]%lift_res_inv).
  assert (Hgood : requested_documents <> [] -> good_request requested_documents).
  { intros Hne. split; [done|].
    apply determine_requested_documents_sorted in Hdocs as (documents & ->).
    split; [|apply py_sorted_NoDup].
    apply Sorted_StronglySorted; [apply _|apply py_sorted_Sorted]. }
  apply emits_all_then_quiet.
  - destruct requested_documents as [|document documents] eqn:Hlist.
    + intros st r st' [_ ->]%ret_inv. exists []. rewrite app_nil_r.
      split; [done|]. by left.
    + rewrite <- Hlist in *. assert (Hne : requested_documents <> [])
        by (by rewrite Hlist). clear Hlist.
      intros st r st' Hrun.
      apply bind_inv in Hrun as [(docs_response & st2 & Hcall & Hrun)|(e & Hcall & ->)];
        apply call_inv in Hcall as (w & _ & ->).
      * apply bind_inv in Hrun as [(record & st3 & Hcall & Hrun)|(e & Hcall & ->)];
          apply call_inv in Hcall as (w' & _ & ->);
          [apply ret_inv in Hrun as [_ ->]|].
        all: eexists; (split; [cbn [trace]; rewrite <- app_assoc; reflexivity|]).
        all: right; exists requested_documents; split; [done|by apply Hgood].
      * eexists. split; [reflexivity|].
        right. exists requested_documents. split; [done|by apply Hgood].
  - intros ? _. unfold _determine_interest_band. repeat quiet_step.
Qed.

(** X9: in every run of [assess], returning or not, the document
    requester is called at most once, and only with a list that is not
    empty, in ascending order and free of duplicates. In a run that
    returns it is called exactly when the returned list of requested
    documents is not empty, and with that list. *)
Theorem document_requests_spec self application st r st' :
  assess self application st = (r, st') ->
  one_request good_request (events_since st st') /\
  forall response requested_documents,
    r = Ok response ->
    dict_get response "requested_documents"
      = Some (VList (VStr <$> requested_documents)) ->
    requested_lists (events_since st st')
      = match requested_documents with
        | [] => []
        | _ => [requested_documents]
        end.
Proof.
  intros Hrun. split.
  - apply assess_one_request in Hrun as (new & Ht & Hnew).
    by rewrite (events_since_app _ _ _ Ht).
  - intros response requested_documents -> Hresponse.
    apply assess_Ok_events in Hrun
      as (p1 & rec1 & policy_chunks & p2 & rec2 & risk_result & p3 & rec3
          & resolve_events & documents & docs_events & docs_ids
          & band_events & data & user_packet & p5 & rec5
          & -> & Hresolve & Hdocs & Hband & _ & _ & Hrd & _).
    rewrite Hrd in Hresponse. injection Hresponse as Heq.
    apply fmap_VStr_inj in Heq as <-.
    rewrite !requested_lists_app.
    assert (requested_lists resolve_events = []) as ->
      by (by destruct Hresolve as [(_ & ->)|(_ & ? & ->)]).
    assert (requested_lists band_events = []) as ->
      by (by destruct Hband as [->|(? & ? & ? & ->)]).
    destruct Hdocs as [(-> & -> & _)|(Hne & ? & ? & ? & -> & _)]; [done|].
    by destruct documents.
Qed.
End DocumentRequests.

(** ** The composed packet *)

Section Packet.
Context `{Builtins} {W : Type}.
Implicit Types (self : LoanRiskAssistant W) (st : state W).

Lemma assess_Ok_packet self application st response st' :
  assess self application st = (Ok response, st') ->
  exists st6 risk_result reasons citations requested_documents interest_band
         user_packet rec5 suggestion ids,
    let tier := _tier_from_score (RiskScoreResult.score risk_result) in
    let data :=
      [("application_id", VStr (LoanApplication.application_id application));
       ("risk_score", VDict [("value", VFloat (RiskScoreResult.score risk_result));
                             ("tier", VStr tier)]);
       ("reasons", VList (VDict <$> reasons));
       ("requested_documents", VList (VStr <$> requested_documents));
       ("policy_citations", VList (VDict <$> citations));
       ("interest_band",
        match interest_band with
        | Some b => VDict (asdict_band b)
        | None => VNone
        end)] in
    trace st' = trace st6 ++
      [EvCompose data (Ok user_packet);
       EvLog "packet_composed"
         [("application_id", VStr (LoanApplication.application_id application));
          ("payload_keys", VList (VStr <$> data.*1))] (Ok rec5)] /\
    response =
      [("application_id", VStr (LoanApplication.application_id application));
       ("risk_score", VDict [("value", VFloat (RiskScoreResult.score risk_result));
                             ("scale", VStr "0-100");
                             ("tier", VStr tier)]);
       ("reasons", VList (VDict <$> reasons));
       ("policy_citations", VList (VDict <$> citations));
       ("requested_documents", VList (VStr <$> requested_documents));
       ("interest_rate_suggestion", suggestion);
       ("compliance",
        VDict [("region", VStr (LoanApplication.region application));
               ("product", VStr (LoanApplication.product application));
               ("policy_gap",
                VBool (match interest_band with None => true | Some _ => false end))]);
       ("governance_log_ids", VList (VStr <$> ids));
       ("user_packet", user_packet)].
Proof.
  unfold assess, _log. intros Hrun.
  do 7 inv_run_step.
  match goal with
  | H : bind (match ?docs with _ => _ end) _ _ = _ |- _ =>
      apply bind_Ok_inv in H as (ids & st5 & _ & H); cbv beta zeta in H
  end.
  repeat inv_run_step.
  cbn [trace world] in *.
  do 10 eexists. cbn zeta. split.
  - rewrite <- !app_assoc. reflexivity.
  - reflexivity.
Qed.

(** X10: in a run of [assess] that returns, the last two calls are the
    packet composer and the packet_composed log entry. The response's
    user_packet is what the composer returned; the composer was handed
    the same application id, reasons, requested documents, citations,
    score and tier as the response holds; and the log entry holds the
    application id and the names of the payload's six keys, not their
    values. *)
Theorem packet_composed_spec self application st response st' :
  assess self application st = (Ok response, st') ->
  exists before data user_packet record,
    events_since st st' = before ++
      [EvCompose data (Ok user_packet);
       EvLog "packet_composed"
         [("application_id", VStr (LoanApplication.application_id application));
          ("payload_keys",
           VList (VStr <$> ["application_id"; "risk_score"; "reasons";
                            "requested_documents"; "policy_citations";
                            "interest_band"]))] (Ok record)] /\
    data.*1 = ["application_id"; "risk_score"; "reasons"; "requested_documents";
               "policy_citations"; "interest_band"] /\
    dict_get response "user_packet" = Some user_packet /\
    dict_get data "application_id" = dict_get response "application_id" /\
    dict_get data "reasons" = dict_get response "reasons" /\
    dict_get data "requested_documents" = dict_get response "requested_documents" /\
    dict_get data "policy_citations" = dict_get response "policy_citations" /\
    exists score,
      dict_get data "risk_score"
        = Some (VDict [("value", VFloat score);
                       ("tier", VStr (_tier_from_score score))]) /\
      dict_get response "risk_score"
        = Some (VDict [("value", VFloat score);
                       ("scale", VStr "0-100");
                       ("tier", VStr (_tier_from_score score))]).
Proof.
  intros Hrun.
  pose proof Hrun
    as (p1 & rec1 & policy_chunks & p2 & rec2 & risk_result0 & p3 & rec3
        & resolve_events & documents & docs_events & docs_ids
        & band_events & data0 & user_packet0 & p50 & rec50
        & Hev & _)%assess_Ok_events.
  apply assess_Ok_packet in Hrun
    as (st6 & risk_result & reasons & citations & requested_documents
        & interest_band & user_packet & rec5 & suggestion & ids & Ht & ->).
  cbn zeta in Ht.
  pose proof (take_drop (length (trace st)) (trace st')) as Hsplit.
  unfold events_since in *. rewrite Hev in Hsplit. rewrite Ht in Hsplit at 2.
  rewrite !app_assoc in Hsplit.
  apply app_inj_2 in Hsplit as [_ Hlast]; [|done].
  injection Hlast as -> -> -> ->.
  rewrite Hev, !app_assoc. eexists _, _, _, _. split; [reflexivity|].
  split_and!; try reflexivity.
  eexists. split; reflexivity.
Qed.
End Packet.

(** ** How often the collaborators are called *)

Section CallCounts.
Context `{Builtins} {W : Type}.
Implicit Types (self : LoanRiskAssistant W) (st : state W).

(** X11: a run of [assess] that returns has called the retriever
    exactly once, with the query built from the application and the
    configured top-k; the scoring service exactly once, with the payload
    built from the application; policy-by-id once with the ids of the
    retrieved chunks in their order, or not at all when none was
    retrieved; and the packet composer exactly once. *)
Theorem assess_calls_once self application st response st' :
  assess self application st = (Ok response, st') ->
  exists policy_chunks risk_result,
    List.filter is_retrieve (events_since st st')
      = [EvRetrieve (_build_policy_query application) (policy_top_k self)
           (Ok policy_chunks)] /\
    List.filter is_score (events_since st st')
      = [EvScore (_build_risk_payload application) (Ok risk_result)] /\
    (exists r,
       List.filter is_get_policy (events_since st st')
         = match policy_chunks with
           | [] => []
           | _ => [EvGetPolicy (PolicyChunk.chunk_id <$> policy_chunks) r]
           end) /\
    length (List.filter is_compose (events_since st st')) = 1%nat.
Proof.
  intros (p1 & rec1 & policy_chunks & p2 & rec2 & risk_result & p3 & rec3
          & resolve_events & documents & docs_events & docs_ids
          & band_events & data & user_packet & p5 & rec5
          & -> & Hresolve & Hdocs & Hband & _)%assess_Ok_events.
  exists policy_chunks, risk_result.
  rewrite !List.filter_app.
  destruct Hdocs as [(_ & -> & _)|(_ & ? & ? & ? & -> & _)];
    destruct Hband as [->|(? & ? & ? & ->)];
    destruct Hresolve as [(-> & ->)|(Hne & r & ->)].
  all: cbn.
  all: split_and!; try done.
  all: try (by exists (Ok [])).
  all: exists r; by destruct policy_chunks.
Qed.
End CallCounts.

(** ** Encoding and decoding *)

Lemma res_mapM_fmap {A B} (f : B -> res A) (g : A -> B) (l : list A) :
  (forall x, f (g x) = Ok x) -> res_mapM f (g <$> l) = Ok l.
Proof.
  intros Hfg. induction l as [|x l IH]; [done|].
  cbn. rewrite Hfg. cbn. by rewrite IH.
Qed.

Lemma policy_chunk_round_trip (chunk : PolicyChunk.t) :
  _policy_chunk_from_dict (VDict (_policy_chunk_to_dict chunk)) = Ok chunk.
Proof. by destruct chunk. Qed.

Section RoundTrips.
Context `{Conversions}.

Lemma risk_feature_round_trip (feature : RiskFeature.t) :
  _risk_feature_from_dict (VDict (_risk_feature_to_dict feature)) = Ok feature.
Proof. by destruct feature. Qed.

Lemma reason_code_round_trip (code : ReasonCode.t) :
  _reason_code_from_dict (VDict (_reason_code_to_dict code)) = Ok code.
Proof. by destruct code. Qed.

Lemma risk_result_round_trip (result : RiskScoreResult.t) :
  _risk_result_from_dict (_risk_result_to_dict result) = Ok result.
Proof.
  destruct result as [score features reason_codes].
  unfold _risk_result_from_dict, _risk_result_to_dict.
  cbn [RiskScoreResult.score RiskScoreResult.features RiskScoreResult.reason_codes].
  change (dict_get_default _ "features" (VList []))
    with (VList (VDict <$> (_risk_feature_to_dict <$> features))).
  change (dict_get_default _ "reason_codes" (VList []))
    with (VList (VDict <$> (_reason_code_to_dict <$> reason_codes))).
  cbn [py_iter res_bind]. rewrite <- !list_fmap_compose.
  rewrite (res_mapM_fmap _risk_feature_from_dict)
    by (intros x; apply risk_feature_round_trip).
  cbn [res_bind].
  rewrite (res_mapM_fmap _reason_code_from_dict)
    by (intros x; apply reason_code_round_trip).
  done.
Qed.

Lemma governance_record_round_trip (record : GovernanceLogRecord.t) :
  _governance_record_from_dict (_governance_record_to_dict record) = Ok record.
Proof. by destruct record as [event_type log_id [payload_hash|]]. Qed.

Lemma interest_band_round_trip (lo hi : pyfloat) (reference : pyval)
    (conditions : list pyval) :
  _interest_band_from_dict
    (VDict (_interest_band_to_dict
              (InterestBand.mk (VFloat lo) (VFloat hi) reference (VList conditions))))
    = Ok (InterestBand.mk (VFloat lo) (VFloat hi) reference (VList conditions)).
Proof. done. Qed.

(** X12: decoding what was encoded gives the entity back: a policy
    chunk, a scoring result with all its features and reason codes, and
    a governance record with or without its payload hash. *)
Theorem entities_round_trip :
  (forall chunk : PolicyChunk.t,
     _policy_chunk_from_dict (VDict (_policy_chunk_to_dict chunk)) = Ok chunk) /\
  (forall result : RiskScoreResult.t,
     _risk_result_from_dict (_risk_result_to_dict result) = Ok result) /\
  (forall record : GovernanceLogRecord.t,
     _governance_record_from_dict (_governance_record_to_dict record) = Ok record) /\
  (forall record : GovernanceLogRecord.t,
     dict_mem (_governance_record_to_dict record) "payload_hash" = true <->
     GovernanceLogRecord.payload_hash record <> None).
Proof.
  split_and!.
  - apply policy_chunk_round_trip.
  - apply risk_result_round_trip.
  - apply governance_record_round_trip.
  - by intros [event_type log_id [payload_hash|]].
Qed.

(** X13: an interest band whose bounds are floats and whose conditions
    are a list survives encoding and decoding; decoding turns any other
    iterable of conditions into the list of its items, so a band whose
    conditions are a single string comes back with one condition per
    character. *)
Theorem interest_band_round_trip_spec (band : InterestBand.t) (lo hi : pyfloat) :
  InterestBand.min_apr band = VFloat lo ->
  InterestBand.max_apr band = VFloat hi ->
  (forall conditions,
     InterestBand.conditions band = VList conditions ->
     _interest_band_from_dict (VDict (_interest_band_to_dict band)) = Ok band) /\
  (forall items,
     py_iter (InterestBand.conditions band) = Ok items ->
     _interest_band_from_dict (VDict (_interest_band_to_dict band))
       = Ok (InterestBand.mk (VFloat lo) (VFloat hi)
               (InterestBand.policy_reference band) (VList items))) /\
  (forall e,
     py_iter (InterestBand.conditions band) = Raise e ->
     _interest_band_from_dict (VDict (_interest_band_to_dict band)) = Raise e).
Proof.
  destruct band as [min_apr max_apr reference conditions]. cbn. intros -> ->.
  split_and!.
  - by intros items ->.
  - intros items Hitems. unfold _interest_band_from_dict. cbn.
    change (dict_get_default _ "conditions" (VList [])) with conditions.
    by rewrite Hitems.
  - intros e Hitems. unfold _interest_band_from_dict. cbn.
    change (dict_get_default _ "conditions" (VList [])) with conditions.
    by rewrite Hitems.
Qed.

(** X14: decoding a chunk map raises KeyError for the first of
    chunk_id, title, section, text that it lacks, and TypeError for
    anything that is not a map; a map without "metadata" decodes to a
    chunk with empty metadata. *)
Theorem policy_chunk_from_dict_missing (data : pydict) :
  (forall i key,
     ["chunk_id"; "title"; "section"; "text"] !! i = Some key ->
     dict_get data key = None ->
     (forall j key',
        (j < i)%nat -> ["chunk_id"; "title"; "section"; "text"] !! j = Some key' ->
        dict_get data key' <> None) ->
     _policy_chunk_from_dict (VDict data) = Raise (KeyError key)) /\
  (forall chunk_id title section text,
     dict_get data "chunk_id" = Some (VStr chunk_id) ->
     dict_get data "title" = Some (VStr title) ->
     dict_get data "section" = Some (VStr section) ->
     dict_get data "text" = Some (VStr text) ->
     dict_get data "metadata" = None ->
     _policy_chunk_from_dict (VDict data)
       = Ok (PolicyChunk.mk chunk_id title section text [])) /\
  (forall v, (forall d, v <> VDict d) -> _policy_chunk_from_dict v = Raise TypeError).
Proof.
  split_and!.
  - intros i key Hkey Hmissing Hbefore.
    unfold _policy_chunk_from_dict, py_getitem.
    destruct i as [|[|[|[|i]]]]; simplify_eq/=.
    + by rewrite Hmissing.
    + pose proof (Hbefore 0%nat "chunk_id" ltac:(lia) eq_refl).
      destruct (dict_get data "chunk_id"); [|done]. cbn. by rewrite Hmissing.
    + pose proof (Hbefore 0%nat "chunk_id" ltac:(lia) eq_refl).
      pose proof (Hbefore 1%nat "title" ltac:(lia) eq_refl).
      destruct (dict_get data "chunk_id"); [|done].
      destruct (dict_get data "title"); [|done]. cbn. by rewrite Hmissing.
    + pose proof (Hbefore 0%nat "chunk_id" ltac:(lia) eq_refl).
      pose proof (Hbefore 1%nat "title" ltac:(lia) eq_refl).
      pose proof (Hbefore 2%nat "section" ltac:(lia) eq_refl).
      destruct (dict_get data "chunk_id"); [|done].
      destruct (dict_get data "title"); [|done].
      destruct (dict_get data "section"); [|done]. cbn. by rewrite Hmissing.
  - intros chunk_id title section text Hid Htitle Hsection Htext Hmeta.
    unfold _policy_chunk_from_dict, py_getitem.
    rewrite Hid, Htitle, Hsection, Htext. cbn [res_bind as_dict].
    unfold dict_get_default. by rewrite Hmeta.
  - intros v Hv. destruct v; try done. by destruct (Hv d).
Qed.
End RoundTrips.

(** ** The agent over adapted tools *)

Lemma dict_set_fresh {A} (d : list (string * A)) (key : string) (value : A) :
  key ∉ d.*1 -> dict_set d key value = d ++ [(key, value)].
Proof.
  induction d as [|[k v] d IH]; [done|].
  intros Hfresh. cbn in Hfresh. apply not_elem_of_cons in Hfresh as [Hne Hfresh].
  cbn. destruct (String.eqb_spec k key); [congruence|]. by rewrite IH.
Qed.

Lemma dict_union_fresh {A} (a b : list (string * A)) :
  NoDup (a.*1 ++ b.*1) -> dict_union a b = a ++ b.
Proof.
  unfold dict_union. revert a. induction b as [|[k v] b IH]; intros a Hnodup.
  - by rewrite app_nil_r.
  - cbn [foldl fst snd]. cbn in Hnodup.
    apply NoDup_app in Hnodup as (Ha & Hdisj & Hb).
    apply NoDup_cons in Hb as [Hk Hb].
    rewrite dict_set_fresh by (intros Hin; apply (Hdisj k Hin); by left).
    rewrite IH, <- app_assoc; [done|].
    rewrite fmap_app. cbn. rewrite <- app_assoc. cbn.
    apply NoDup_app. split_and!; [done| |by constructor].
    intros x Hx [->|Hxb]%elem_of_cons; [|by apply (Hdisj x Hx); right].
    apply (Hdisj k Hx). by left.
Qed.

Lemma res_mapM_fmap_with {A B C} (f : B -> res C) (g : A -> B) (h : A -> C)
    (l : list A) :
  (forall x, f (g x) = Ok (h x)) -> res_mapM f (g <$> l) = Ok (h <$> l).
Proof.
  intros Hfg. induction l as [|x l IH]; [done|].
  cbn. rewrite Hfg. cbn. by rewrite IH.
Qed.

Section Transparency.
Context `{Builtins} `{Conversions} {W : Type}.
Variable invoke_tool : string -> pydict -> M W pydict.

Lemma keyed_chunk_encoded (chunk : PolicyChunk.t) :
  LoanRiskAgnosticAgent.keyed_chunk (VDict (_policy_chunk_to_dict chunk))
    = Ok (PolicyChunk.chunk_id chunk, chunk).
Proof. by destruct chunk. Qed.

(** X15: when the host routes the tools' names to the adapters of
    [tool]s, the agent's wrappers give the assistant exactly what the
    tools give: the retriever's chunks, the scoring result, the
    governance record, the composed packet and the document request,
    with the same effect on the tools' state; a fault of a tool comes
    through as it is. *)
Theorem wrappers_over_adapters
    (retriever : pyval -> Z -> M W (list PolicyChunk.t))
    (scorer : pyval -> M W RiskScoreResult.t)
    (logger : pyval -> pyval -> M W GovernanceLogRecord.t)
    (composer : pyval -> M W pyval)
    (requester : list pyval -> M W pyval) :
  (forall payload,
     invoke_tool "policy_docs_retriever" payload
       = AgnosticToolAdapter.invoke (adapt_policy_docs_retriever retriever) payload) ->
  (forall payload,
     invoke_tool "risk_scoring_api" payload
       = AgnosticToolAdapter.invoke (adapt_risk_scoring_api scorer) payload) ->
  (forall payload,
     invoke_tool "governance_log" payload
       = AgnosticToolAdapter.invoke (adapt_governance_log logger) payload) ->
  (forall payload,
     invoke_tool "compose_user_packet" payload
       = AgnosticToolAdapter.invoke (adapt_compose_user_packet composer) payload) ->
  (forall payload,
     invoke_tool "request_additional_docs" payload
       = AgnosticToolAdapter.invoke (adapt_request_additional_docs requester) payload) ->
  (forall query top_k w,
     LoanRiskAgnosticAgent._wrap_policy_docs_retriever invoke_tool query top_k w
       = retriever (VStr query) top_k w) /\
  (forall payload w,
     LoanRiskAgnosticAgent._wrap_risk_scoring_api invoke_tool payload w
       = scorer (VDict payload) w) /\
  (forall event_type payload w,
     LoanRiskAgnosticAgent._wrap_governance_log invoke_tool event_type payload w
       = logger (VStr event_type) (VDict payload) w) /\
  (forall data w,
     LoanRiskAgnosticAgent._wrap_compose_user_packet invoke_tool data w
       = composer (VDict data) w) /\
  (forall documents w,
     LoanRiskAgnosticAgent._wrap_request_additional_docs invoke_tool documents w
       = requester (VStr <$> documents) w).
Proof.
  intros Hretriever Hscorer Hlogger Hcomposer Hrequester. split_and!.
  - intros query top_k w.
    unfold LoanRiskAgnosticAgent._wrap_policy_docs_retriever, bind.
    rewrite Hretriever. unfold AgnosticToolAdapter.invoke. cbn.
    unfold bind, lift_res, ret.
    destruct (retriever (VStr query) top_k w) as [[chunks|e] w']; [|done].
    cbn. rewrite <- list_fmap_compose.
    by rewrite (res_mapM_fmap _policy_chunk_from_dict)
      by apply policy_chunk_round_trip.
  - intros payload w.
    unfold LoanRiskAgnosticAgent._wrap_risk_scoring_api, bind.
    rewrite Hscorer. unfold AgnosticToolAdapter.invoke. cbn.
    unfold bind, lift_res, ret.
    destruct (scorer (VDict payload) w) as [[result|e] w']; [|done].
    by rewrite risk_result_round_trip.
  - intros event_type payload w.
    unfold LoanRiskAgnosticAgent._wrap_governance_log, bind.
    rewrite Hlogger. unfold AgnosticToolAdapter.invoke. cbn.
    unfold bind, lift_res, ret.
    destruct (logger (VStr event_type) (VDict payload) w) as [[record|e] w'];
      [|done].
    by rewrite governance_record_round_trip.
  - intros data w.
    unfold LoanRiskAgnosticAgent._wrap_compose_user_packet, bind.
    rewrite Hcomposer. unfold AgnosticToolAdapter.invoke. cbn.
    unfold bind, lift_res, ret.
    by destruct (composer (VDict data) w) as [[packet|e] w'].
  - intros documents w.
    unfold LoanRiskAgnosticAgent._wrap_request_additional_docs, bind.
    rewrite Hrequester. unfold AgnosticToolAdapter.invoke. cbn.
    unfold bind, lift_res, ret.
    by destruct (requester (VStr <$> documents) w) as [[request|e] w'].
Qed.

(** X16: through the adapter and the wrapper, the mapping of
    policy-by-id is rebuilt from its values alone, each keyed by its own
    chunk id: the keys the tool chose are lost. A mapping that keys
    every chunk by its chunk id comes through unchanged. *)
Theorem get_policy_by_id_over_adapter
    (tool : pyval -> M W (list (string * PolicyChunk.t))) :
  (forall payload,
     invoke_tool "get_policy_by_id" payload
       = AgnosticToolAdapter.invoke (adapt_get_policy_by_id tool) payload) ->
  forall ids w,
    LoanRiskAgnosticAgent._wrap_get_policy_by_id invoke_tool ids w
      = (resolved <- tool (VList (VStr <$> ids)) ;;
         ret (dict_union []
                ((fun chunk => (PolicyChunk.chunk_id chunk, chunk)) <$> resolved.*2))) w /\
    forall resolved w',
      tool (VList (VStr <$> ids)) w = (Ok resolved, w') ->
      NoDup resolved.*1 ->
      Forall (fun entry => PolicyChunk.chunk_id entry.2 = entry.1) resolved ->
      LoanRiskAgnosticAgent._wrap_get_policy_by_id invoke_tool ids w
        = (Ok resolved, w').
Proof.
  intros Htool ids w.
  assert (Hgeneral :
    LoanRiskAgnosticAgent._wrap_get_policy_by_id invoke_tool ids w
      = (resolved <- tool (VList (VStr <$> ids)) ;;
         ret (dict_union []
                ((fun chunk => (PolicyChunk.chunk_id chunk, chunk)) <$> resolved.*2))) w).
  { unfold LoanRiskAgnosticAgent._wrap_get_policy_by_id, bind.
    rewrite Htool. unfold AgnosticToolAdapter.invoke. cbn.
    unfold bind, lift_res, ret.
    destruct (tool (VList (VStr <$> ids)) w) as [[resolved|e] w']; [|done].
    cbn. generalize (resolved.*2). intros chunks.
    rewrite <- list_fmap_compose.
    by rewrite (res_mapM_fmap_with LoanRiskAgnosticAgent.keyed_chunk _
                  (fun chunk => (PolicyChunk.chunk_id chunk, chunk)))
      by apply keyed_chunk_encoded. }
  split; [exact Hgeneral|].
  intros resolved w' Hrun Hnodup Hkeys. rewrite Hgeneral. unfold bind, ret.
  rewrite Hrun. do 2 f_equal.
  assert ((fun chunk => (PolicyChunk.chunk_id chunk, chunk)) <$> resolved.*2
          = resolved) as ->.
  { clear -Hkeys. induction Hkeys as [|[key chunk] resolved Hkey _ IH]; [done|].
    cbn in *. by rewrite IH, Hkey. }
  by rewrite dict_union_fresh.
Qed.
End Transparency.

Section ResolverTransparency.
Context `{Builtins} `{Conversions} {W : Type}.
Variable invoke_tool : string -> pydict -> M W pydict.

(** X17: over an adapted resolver, the agent's resolver wrapper calls
    the tool with the very chunks it was given and the tier; no band
    stays no band, a fault comes through as it is, and a band comes back
    decoded from its encoding, hence unchanged when its bounds are
    floats and its conditions a list. *)
Theorem interest_resolver_over_adapter
    (tool : list PolicyChunk.t -> pyval -> M W (option InterestBand.t)) :
  (forall payload,
     invoke_tool "interest_policy_resolver" payload
       = AgnosticToolAdapter.invoke (adapt_interest_policy_resolver tool) payload) ->
  forall policy_chunks risk_tier w,
    LoanRiskAgnosticAgent._wrap_interest_policy_resolver invoke_tool
        policy_chunks risk_tier w
      = match tool policy_chunks (VStr risk_tier) w with
        | (Ok None, w') => (Ok None, w')
        | (Ok (Some band), w') =>
            (res_bind (_interest_band_from_dict (VDict (_interest_band_to_dict band)))
               (fun decoded => Ok (Some decoded)), w')
        | (Raise e, w') => (Raise e, w')
        end /\
    forall lo hi reference conditions w',
      tool policy_chunks (VStr risk_tier) w
        = (Ok (Some (InterestBand.mk (VFloat lo) (VFloat hi) reference
                       (VList conditions))), w') ->
      LoanRiskAgnosticAgent._wrap_interest_policy_resolver invoke_tool
          policy_chunks risk_tier w
        = (Ok (Some (InterestBand.mk (VFloat lo) (VFloat hi) reference
                       (VList conditions))), w').
Proof.
  intros Htool policy_chunks risk_tier w.
  assert (Hgeneral :
    LoanRiskAgnosticAgent._wrap_interest_policy_resolver invoke_tool
        policy_chunks risk_tier w
      = match tool policy_chunks (VStr risk_tier) w with
        | (Ok None, w') => (Ok None, w')
        | (Ok (Some band), w') =>
            (res_bind (_interest_band_from_dict (VDict (_interest_band_to_dict band)))
               (fun decoded => Ok (Some decoded)), w')
        | (Raise e, w') => (Raise e, w')
        end).
  { unfold LoanRiskAgnosticAgent._wrap_interest_policy_resolver, bind.
    rewrite Htool. unfold AgnosticToolAdapter.invoke. cbn.
    unfold bind, lift_res, ret. rewrite <- list_fmap_compose.
    rewrite (res_mapM_fmap _policy_chunk_from_dict)
      by apply policy_chunk_round_trip.
    destruct (tool policy_chunks (VStr risk_tier) w) as [[[band|]|e] w']; [|done..].
    cbn. destruct band as [lo hi reference conditions]; cbn.
    destruct lo, hi, conditions; cbn; try done;
      repeat match goal with
             | |- context [match ?r with Ok _ => _ | Raise _ => _ end] =>
                 destruct r; cbn
             end; done. }
  split; [exact Hgeneral|].
  intros lo hi reference conditions w' Hrun. by rewrite Hgeneral, Hrun.
Qed.
End ResolverTransparency.

(** ** Running the agent on a request map *)

Section Run.
Context `{Builtins} `{Conversions} {W : Type}.
Variable invoke_tool : string -> pydict -> M W pydict.
Implicit Types (st : state W).

(** X18: a request map that lacks application_id, borrower, loan,
    region or product, while the keys read before it are there (with
    dictionaries for borrower and loan), is refused with KeyError for
    the first of them that is missing: [run] raises it before anything
    is logged and before any tool is invoked. *)
Theorem run_missing_key (available_tools : option (list string)) (policy_top_k : Z)
    (payload : pydict) st :
  forall i key,
    ["application_id"; "borrower"; "loan"; "region"; "product"] !! i = Some key ->
    dict_get payload key = None ->
    (forall j key',
       (j < i)%nat ->
       ["application_id"; "borrower"; "loan"; "region"; "product"] !! j = Some key' ->
       exists v, dict_get payload key' = Some v /\
                 (key' = "borrower" \/ key' = "loan" -> exists d, v = VDict d)) ->
    loan_application_from_dict payload = Raise (KeyError key) /\
    LoanRiskAgnosticAgent.run invoke_tool available_tools policy_top_k payload st
      = (Raise (KeyError key), st).
Proof.
  intros i key Hkey Hmissing Hbefore.
  assert (Hdecode : loan_application_from_dict payload = Raise (KeyError key)).
  { unfold loan_application_from_dict, dict_getitem.
    destruct i as [|[|[|[|[|i]]]]]; simplify_eq/=.
    + by rewrite Hmissing.
    + destruct (Hbefore 0%nat "application_id" ltac:(lia) eq_refl) as (v0 & -> & _).
      cbn. by rewrite Hmissing.
    + destruct (Hbefore 0%nat "application_id" ltac:(lia) eq_refl) as (v0 & -> & _).
      destruct (Hbefore 1%nat "borrower" ltac:(lia) eq_refl)
        as (v1 & -> & [d1 ->]); [by left|].
      cbn. by rewrite Hmissing.
    + destruct (Hbefore 0%nat "application_id" ltac:(lia) eq_refl) as (v0 & -> & _).
      destruct (Hbefore 1%nat "borrower" ltac:(lia) eq_refl)
        as (v1 & -> & [d1 ->]); [by left|].
      destruct (Hbefore 2%nat "loan" ltac:(lia) eq_refl)
        as (v2 & -> & [d2 ->]); [by right|].
      cbn. by rewrite Hmissing.
    + destruct (Hbefore 0%nat "application_id" ltac:(lia) eq_refl) as (v0 & -> & _).
      destruct (Hbefore 1%nat "borrower" ltac:(lia) eq_refl)
        as (v1 & -> & [d1 ->]); [by left|].
      destruct (Hbefore 2%nat "loan" ltac:(lia) eq_refl)
        as (v2 & -> & [d2 ->]); [by right|].
      destruct (Hbefore 3%nat "region" ltac:(lia) eq_refl) as (v3 & -> & _).
      cbn. by rewrite Hmissing. }
  split; [exact Hdecode|].
  unfold LoanRiskAgnosticAgent.run, bind, lift_res. by rewrite Hdecode.
Qed.

(** X19: the map [run] returns is the assessment's response with the
    application's fields put in front: its keys are the six fields of
    the application followed by the other keys of the response, and a
    key holds the response's value when the response has it (so
    application_id is the response's) and the application's field
    otherwise. *)
Theorem run_result (available_tools : option (list string)) (policy_top_k : Z)
    (payload result : pydict) st st' :
  LoanRiskAgnosticAgent.run invoke_tool available_tools policy_top_k payload st
    = (Ok result, st') ->
  exists application response,
    loan_application_from_dict payload = Ok application /\
    assess (LoanRiskAgnosticAgent._assistant invoke_tool available_tools policy_top_k)
      application st = (Ok response, st') /\
    result.*1 = ["application_id"; "borrower"; "loan"; "region"; "product";
                 "context"; "risk_score"; "reasons"; "policy_citations";
                 "requested_documents"; "interest_rate_suggestion"; "compliance";
                 "governance_log_ids"; "user_packet"] /\
    forall key,
      dict_get result key
        = match dict_get response key with
          | Some v => Some v
          | None => dict_get (asdict_application application) key
          end.
Proof.
  unfold LoanRiskAgnosticAgent.run. intros Hrun.
  apply bind_Ok_inv in Hrun as (application & st0 & [Hdecode ->]%lift_res_inv & Hrun).
  apply bind_Ok_inv in Hrun as (response & st1 & Hassess & [[= ->] ->]%ret_inv).
  exists application, response. split; [done|]. split; [done|].
  apply assess_Ok_inv in Hassess
    as (p1 & rec1 & chunks & p2 & rec2 & risk_result & p3 & rec3 & st3
        & resolved & st4 & requested_documents & st5 & docs_ids
        & interest_band & st6 & data & user_packet & p5 & rec5 & suggestion
        & _ & _ & _ & _ & _ & _ & _ & _ & ->).
  split; [reflexivity|].
  intros key. unfold asdict_application, dict_union.
  cbn [foldl dict_set fst snd String.eqb Ascii.eqb Bool.eqb].
  cbn [dict_get].
  repeat match goal with
         | |- context [String.eqb ?k key] =>
             destruct (String.eqb_spec k key) as [<-|?]; [reflexivity|]
         end.
  reflexivity.
Qed.
End Run.

(** ** The tools the agent invokes *)

Lemma bind_ext {S A B} (c c' : M S A) (k k' : A -> M S B) (st : S) :
  c st = c' st ->
  (forall a st1, k a st1 = k' a st1) ->
  bind c k st = bind c' k' st.
Proof.
  intros Hc Hk. unfold bind. rewrite Hc.
  by destruct (c' st) as [[a|e] st1].
Qed.

Lemma call_ext {W A} (c c' : M W A) (ev : res A -> event) (st : state W) :
  c (world st) = c' (world st) -> call c ev st = call c' ev st.
Proof. intros Hc. unfold call. by rewrite Hc. Qed.

Section SameTools.
Context `{Builtins} {W : Type}.

Lemma assess_ext (self self' : LoanRiskAssistant W) application st :
  same_tools self self' ->
  assess self application st = assess self' application st.
Proof.
  intros (Hretriever & Hscorer & Hpolicy & Hcomposer & Hrequester & Hlogger
          & Hresolver & Htop_k).
  unfold assess, _log. rewrite Htop_k.
  apply bind_ext; [by apply call_ext|intros rec1 st1].
  apply bind_ext; [by apply call_ext|intros policy_chunks st2].
  apply bind_ext; [by apply call_ext|intros rec2 st3].
  apply bind_ext; [by apply call_ext|intros risk_result st4].
  apply bind_ext; [by apply call_ext|intros rec3 st5].
  apply bind_ext.
  { unfold _resolve_policy_chunks. destruct policy_chunks; [done|].
    apply bind_ext; [by apply call_ext|done]. }
  intros resolved st6.
  apply bind_ext; [done|intros requested_documents st7].
  apply bind_ext.
  { destruct requested_documents; [done|].
    apply bind_ext; [by apply call_ext|intros docs_response st8].
    apply bind_ext; [by apply call_ext|done]. }
  intros governance_ids st8.
  apply bind_ext.
  { unfold _determine_interest_band.
    apply bind_ext; [|done].
    destruct (interest_policy_resolver self), (interest_policy_resolver self');
      try done.
    by apply call_ext. }
  intros interest_band st9.
  apply bind_ext; [by apply call_ext|intros user_packet st10].
  apply bind_ext; [by apply call_ext|done].
Qed.
End SameTools.

Section InvokedTools.
Context `{Builtins} `{Conversions} {W : Type}.

(** X20: the agent reaches its host only through the six tool names of
    the assistant's collaborators, and through interest_policy_resolver
    only when the host lists it among the available tools: two hosts
    that agree on these names make [run] behave alike, whatever they do
    under any other name. *)
Theorem run_invokes_listed_tools
    (invoke_tool invoke_tool' : string -> pydict -> M W pydict)
    (available_tools : option (list string)) (policy_top_k : Z)
    (payload : pydict) (st : state W) :
  Forall (fun name => forall request w, invoke_tool name request w
                                        = invoke_tool' name request w)
    (invoked_tools available_tools) ->
  LoanRiskAgnosticAgent.run invoke_tool available_tools policy_top_k payload st
    = LoanRiskAgnosticAgent.run invoke_tool' available_tools policy_top_k payload st.
Proof.
  unfold invoked_tools. intros Hsame.
  apply Forall_app in Hsame as [Hsix Hresolver].
  repeat match goal with
         | Hall : Forall _ (_ :: _) |- _ =>
             apply Forall_cons in Hall as [? Hall]
         end.
  unfold LoanRiskAgnosticAgent.run.
  apply bind_ext; [done|intros application st1].
  apply bind_ext; [|done].
  apply assess_ext. unfold same_tools, LoanRiskAgnosticAgent._assistant.
  cbn [policy_docs_retriever risk_scoring_api get_policy_by_id compose_user_packet
       request_additional_docs governance_log interest_policy_resolver].
  split_and!; try done.
  - intros. by apply bind_ext.
  - intros. by apply bind_ext.
  - intros. by apply bind_ext.
  - intros. by apply bind_ext.
  - intros. by apply bind_ext.
  - intros. by apply bind_ext.
  - assert (Hset : forall names : list string,
               "interest_policy_resolver" ∈ (list_to_set names : gset string)
               <-> "interest_policy_resolver" ∈ names)
      by (intros; apply elem_of_list_to_set).
    destruct available_tools as [[|name names]|]; cbn [default id] in Hresolver;
      unfold id in Hresolver.
    + rewrite !decide_False by set_solver. done.
    + destruct (decide ("interest_policy_resolver" ∈ name :: names)) as [Hin|Hout].
      * rewrite !decide_True by (by apply Hset).
        apply Forall_cons in Hresolver as [Hresolver _].
        intros. by apply bind_ext.
      * rewrite !decide_False by (by rewrite Hset). done.
    + rewrite !decide_False by set_solver. done.
Qed.
End InvokedTools.

(** ** The properties at work *)

Lemma quote_words_witness :
  0 <= 50 /\
  Z.of_nat (length (py_split (PolicyChunk.quote Sample.nbsp_chunk 50))) <= 50.
Proof.
  split; [lia|].
  apply (quote_words Sample.nbsp_chunk 50). lia.
Defined.

Lemma policy_citations_witness :
  exists citation,
    _build_policy_citations [Sample.chunk] !! 0%nat = Some citation /\
    dict_get citation "chunk_id" = Some (VStr "chunk-xyz") /\
    (length (py_split (PolicyChunk.quote Sample.chunk 50)) <= 50)%nat.
Proof.
  eexists. split; [reflexivity|].
  destruct (proj2 (policy_citations_spec [Sample.chunk]) 0%nat _ eq_refl)
    as (_ & chunk & [= <-] & Hid & _ & _ & _ & Hlen).
  split; [exact Hid|exact Hlen].
Defined.

Lemma requested_documents_elem_of_witness :
  exists requested_documents,
    _determine_requested_documents (H:=Sample.builtins) Sample.application
      Sample.risk_result [Sample.chunk] = Ok requested_documents /\
    "Collateral appraisal report" ∈ requested_documents /\
    "Updated credit bureau report" ∈ requested_documents.
Proof.
  destruct (requested_documents_elem_of (H:=Sample.builtins) Sample.application
              Sample.risk_result [Sample.chunk])
    as (requested_documents & Hrun & Hiff).
  { constructor; [|constructor]. exists ["Collateral appraisal report"]. reflexivity. }
  exists requested_documents. split; [exact Hrun|]. split.
  - apply Hiff. do 5 right. exists Sample.chunk, ["Collateral appraisal report"].
    split; [apply list_elem_of_here|]. split; [reflexivity|apply list_elem_of_here].
  - apply Hiff. do 4 right. left. split; [reflexivity|].
    exists (ReasonCode.mk "CREDIT_SCORE" "Credit score below target").
    split; [apply list_elem_of_here|reflexivity].
Defined.

Lemma requested_documents_order_witness :
  _determine_requested_documents (H:=Sample.builtins) Sample.application Host.risk_result_two
    [Sample.chunk; Sample.plain_chunk]
    = Ok ["Collateral appraisal report"; "Collateral ownership evidence";
          "Detailed debt obligation schedule";
          "Recent income verification (e.g., pay stubs or bank statements)";
          "Updated credit bureau report"] /\
  _determine_requested_documents (H:=Sample.builtins) Sample.application Host.risk_result_two_swapped
    [Sample.plain_chunk; Sample.chunk]
    = Ok ["Collateral appraisal report"; "Collateral ownership evidence";
          "Detailed debt obligation schedule";
          "Recent income verification (e.g., pay stubs or bank statements)";
          "Updated credit bureau report"].
Proof.
  split; [vm_compute; reflexivity|].
  apply (requested_documents_order_irrelevant (H:=Sample.builtins) Sample.application
           Host.risk_result_two Host.risk_result_two_swapped
           [Sample.chunk; Sample.plain_chunk] [Sample.plain_chunk; Sample.chunk]).
  - apply perm_swap.
  - apply perm_swap.
  - vm_compute. reflexivity.
Defined.

Lemma band_from_chunks_malformed_witness :
  band_from_chunks [Sample.plain_chunk; Host.malformed_chunk; Sample.chunk]
    = Raise AttributeError /\
  _determine_interest_band Sample.assistant "Med"
      [Sample.plain_chunk; Host.malformed_chunk; Sample.chunk] Sample.start
    = (Raise AttributeError, Sample.start).
Proof.
  destruct (band_from_chunks_malformed Sample.assistant "Med"
              [Sample.plain_chunk] [Sample.chunk] Host.malformed_chunk
              (VStr "6%-8.5%") Sample.start) as [Hband Hstep].
  - constructor; [exact I|constructor].
  - reflexivity.
  - reflexivity.
  - intros d. discriminate.
  - split; [exact Hband|]. apply Hstep. reflexivity.
Defined.

Lemma assess_stops_at_first_fault_witness :
  exists r st',
    assess (H:=Sample.builtins) Host.assistant_scoring_down Sample.application
      Sample.start = (r, st') /\
    r = Raise (Fault "scoring service down") /\
    4%nat = length (events_since Sample.start st').
Proof.
  eexists _, _. split; [vm_compute; reflexivity|].
  eapply (assess_stops_at_first_fault (H:=Sample.builtins)
            Host.assistant_scoring_down Sample.application Sample.start)
    with (i := 3%nat).
  - vm_compute. reflexivity.
  - vm_compute. reflexivity.
  - reflexivity.
Defined.

Lemma document_requests_witness :
  exists response st',
    assess (H:=Sample.builtins) Sample.assistant Sample.application Sample.start
      = (Ok response, st') /\
    one_request good_request (events_since Sample.start st') /\
    requested_lists (events_since Sample.start st')
      = [["Collateral appraisal report"; "Collateral ownership evidence";
          "Recent income verification (e.g., pay stubs or bank statements)";
          "Updated credit bureau report"]].
Proof.
  eexists _, _. split; [vm_compute; reflexivity|].
  opose proof (document_requests_spec (H:=Sample.builtins) Sample.assistant
                 Sample.application Sample.start _ _ _) as [Hone Hlists].
  { vm_compute. reflexivity. }
  split; [exact Hone|].
  exact (Hlists _ ["Collateral appraisal report"; "Collateral ownership evidence";
                   "Recent income verification (e.g., pay stubs or bank statements)";
                   "Updated credit bureau report"] eq_refl eq_refl).
Defined.

Lemma packet_composed_witness :
  exists response st',
    assess (H:=Sample.builtins) Sample.assistant Sample.application Sample.start
      = (Ok response, st') /\
    exists before data user_packet record,
      events_since Sample.start st' = before ++
        [EvCompose data (Ok user_packet);
         EvLog "packet_composed"
           [("application_id", VStr "APP-001");
            ("payload_keys",
             VList (VStr <$> ["application_id"; "risk_score"; "reasons";
                              "requested_documents"; "policy_citations";
                              "interest_band"]))] (Ok record)] /\
      dict_get response "user_packet" = Some user_packet.
Proof.
  eexists _, _. split; [vm_compute; reflexivity|].
  opose proof (packet_composed_spec (H:=Sample.builtins) Sample.assistant
                 Sample.application Sample.start _ _ _)
    as (before & data & user_packet & record & Hevents & _ & Hpacket & _).
  { vm_compute. reflexivity. }
  exists before, data, user_packet, record.
  split; [exact Hevents|exact Hpacket].
Defined.

Lemma assess_calls_once_witness :
  exists response st',
    assess (H:=Sample.builtins) Sample.assistant Sample.application Sample.start
      = (Ok response, st') /\
    length (List.filter is_compose (events_since Sample.start st')) = 1%nat /\
    length (List.filter is_score (events_since Sample.start st')) = 1%nat.
Proof.
  eexists _, _. split; [vm_compute; reflexivity|].
  opose proof (assess_calls_once (H:=Sample.builtins) Sample.assistant
                 Sample.application Sample.start _ _ _)
    as (policy_chunks & risk_result & _ & Hscore & _ & Hcompose).
  { vm_compute. reflexivity. }
  split; [exact Hcompose|]. by rewrite Hscore.
Defined.

Lemma interest_band_round_trip_witness :
  _interest_band_from_dict (H:=Host.conversions)
    (VDict (_interest_band_to_dict Sample.fixed_band)) = Ok Sample.fixed_band.
Proof.
  apply (proj1 (interest_band_round_trip_spec (H:=Host.conversions)
                  Sample.fixed_band (FFin 4) (FFin 5) eq_refl eq_refl) []).
  reflexivity.
Defined.

Lemma policy_chunk_from_dict_missing_witness :
  _policy_chunk_from_dict
    (VDict [("chunk_id", VStr "chunk-xyz"); ("section", VStr "3.1")])
    = Raise (KeyError "title").
Proof.
  apply (proj1 (policy_chunk_from_dict_missing
                  [("chunk_id", VStr "chunk-xyz"); ("section", VStr "3.1")])
           1%nat "title").
  - reflexivity.
  - reflexivity.
  - intros j key' Hj Hkey. destruct j as [|j]; [|lia].
    injection Hkey as <-. discriminate.
Defined.

Lemma wrappers_over_adapters_witness :
  LoanRiskAgnosticAgent._wrap_policy_docs_retriever
      (Host.invoke_tool None) "NY smb_term" 5 0%nat
    = (Ok [Sample.chunk], 0%nat) /\
  LoanRiskAgnosticAgent._wrap_governance_log (Host.invoke_tool None)
      "problem_received" [] 0%nat
    = (Ok (GovernanceLogRecord.mk "problem_received" "log-1" None), 1%nat).
Proof.
  destruct (wrappers_over_adapters (H:=Sample.builtins) (H0:=Host.conversions)
              (Host.invoke_tool None)
              Host._policy_retriever Host._risk_scoring_api Host._governance_logger
              Host._compose_user_packet Host._request_additional_docs)
    as (Hretriever & _ & Hlogger & _).
  - intros payload. reflexivity.
  - intros payload. reflexivity.
  - intros payload. reflexivity.
  - intros payload. reflexivity.
  - intros payload. reflexivity.
  - split.
    + rewrite Hretriever. reflexivity.
    + rewrite Hlogger. reflexivity.
Defined.

Lemma get_policy_by_id_over_adapter_witness :
  LoanRiskAgnosticAgent._wrap_get_policy_by_id (Host.invoke_tool None)
      ["chunk-xyz"] 0%nat
    = (Ok [("chunk-xyz", Host.canonical "chunk-xyz")], 0%nat).
Proof.
  apply (get_policy_by_id_over_adapter (Host.invoke_tool None)
           Host._get_policy_by_id).
  - intros payload. reflexivity.
  - reflexivity.
  - apply NoDup_singleton.
  - constructor; [reflexivity|constructor].
Defined.

Lemma interest_resolver_over_adapter_witness :
  LoanRiskAgnosticAgent._wrap_interest_policy_resolver (H0:=Host.conversions)
      (Host.invoke_tool (Some Host._interest_policy_resolver))
      [Sample.chunk] "Med" 0%nat
    = (Ok (Some Sample.fixed_band), 0%nat).
Proof.
  apply (interest_resolver_over_adapter (H0:=Host.conversions)
           (Host.invoke_tool (Some Host._interest_policy_resolver))
           Host._interest_policy_resolver).
  - intros payload. reflexivity.
  - reflexivity.
Defined.

Lemma run_missing_key_witness :
  LoanRiskAgnosticAgent.run (H:=Sample.builtins) (H0:=Host.conversions)
      (Host.invoke_tool None) None 5
      [("application_id", VStr "APP-001"); ("borrower", VDict []);
       ("region", VStr "NY")] Sample.start
    = (Raise (KeyError "loan"), Sample.start).
Proof.
  apply (run_missing_key (H:=Sample.builtins) (H0:=Host.conversions)
           (Host.invoke_tool None) None 5
           [("application_id", VStr "APP-001"); ("borrower", VDict []);
            ("region", VStr "NY")] Sample.start
           2%nat "loan").
  - reflexivity.
  - reflexivity.
  - intros j key' Hj Hkey. destruct j as [|[|j]]; [| |lia].
    + injection Hkey as <-. eexists. split; [reflexivity|].
      intros [Hk|Hk]; discriminate Hk.
    + injection Hkey as <-. eexists. split; [reflexivity|].
      intros _. eexists. reflexivity.
Defined.

Lemma run_result_witness :
  exists result st',
    LoanRiskAgnosticAgent.run (H:=Sample.builtins) (H0:=Host.conversions)
      (Host.invoke_tool None) (Some (Host.tool_names None)) 5 Host.payload
      Sample.start = (Ok result, st') /\
    result.*1 = ["application_id"; "borrower"; "loan"; "region"; "product";
                 "context"; "risk_score"; "reasons"; "policy_citations";
                 "requested_documents"; "interest_rate_suggestion"; "compliance";
                 "governance_log_ids"; "user_packet"].
Proof.
  eexists _, _. split; [vm_compute; reflexivity|].
  opose proof (run_result (H:=Sample.builtins) (H0:=Host.conversions)
                 (Host.invoke_tool None) (Some (Host.tool_names None)) 5
                 Host.payload _ Sample.start _ _)
    as (application & response & _ & _ & Hkeys & _).
  { vm_compute. reflexivity. }
  exact Hkeys.
Defined.

Lemma run_invokes_listed_tools_witness :
  LoanRiskAgnosticAgent.run (H:=Sample.builtins) (H0:=Host.conversions)
      (Host.invoke_tool (Some Host._interest_policy_resolver))
      (Some (Host.tool_names None)) 5 Host.payload Sample.start
    = LoanRiskAgnosticAgent.run (H:=Sample.builtins) (H0:=Host.conversions)
        (Host.invoke_tool None) (Some (Host.tool_names None)) 5 Host.payload
        Sample.start.
Proof.
  apply (run_invokes_listed_tools (H:=Sample.builtins) (H0:=Host.conversions)
           (Host.invoke_tool (Some Host._interest_policy_resolver))
           (Host.invoke_tool None)).
  repeat (constructor; [intros request w; reflexivity|]). constructor.
Defined.

(** The run of [test_agnostic_runtime_smoke]. The canonical chunks of
    its policy-by-id tool carry no metadata, so the resolved chunk has
    neither an interest band nor required documents. *)
Example agnostic_runtime_smoke :
  exists result st',
    LoanRiskAgnosticAgent.run (H:=Sample.builtins) (H0:=Host.conversions)
      (Host.invoke_tool None) (Some (Host.tool_names None)) 5 Host.payload
      Sample.start = (Ok result, st') /\
    dict_get result "risk_score"
      = Some (VDict [("value", VFloat (FFin 55)); ("scale", VStr "0-100");
                     ("tier", VStr "Med")]) /\
    dict_get result "interest_rate_suggestion" = Some VNone /\
    dict_get result "requested_documents"
      = Some (VList [VStr "Collateral ownership evidence";
                     VStr "Recent income verification (e.g., pay stubs or bank statements)";
                     VStr "Updated credit bureau report"]) /\
    dict_get result "compliance"
      = Some (VDict [("region", VStr "NY"); ("product", VStr "smb_term");
                     ("policy_gap", VBool true)]) /\
    dict_get result "governance_log_ids"
      = Some (VList [VStr "log-1"; VStr "log-2"; VStr "log-3"; VStr "log-4";
                     VStr "log-5"]) /\
    dict_get result "borrower"
      = Some (VDict [("credit_score", VInt 610); ("income_verified", VBool false)]).
Proof.
  eexists _, _. split; [vm_compute; reflexivity|]. by repeat split.
Qed.
